(** * PhysiCell_Settings: the rule store, its table and XML codecs, and the
      boolean-network module

    A shallow embedding of [physicell_config/modules/cell_rules.py] and
    [physicell_config/modules/physiboss.py], with the properties their
    specification states about them.

    Conventions.
    - A Python [str] is a [string]; the model covers ASCII text (characters
      above 127 are never whitespace, digits or letters here).
    - A Python [int] is a [Z]; where the code stores an object a caller
      passes as an [int], the object is an integer proper or a [bool], the
      subclass of [int], and it keeps its class.  A Python [float] is an
      IEEE-754 binary64 value, [SpecFloat.spec_float], and [==] on floats is
      [SFeqb] (a NaN differs from itself, the two zeros are equal).
    - [int] and [float] read a text as the interpreter does, and [str]
      writes a float as [repr] does: the shortest digits that read back.
    - A Python [dict] is an association list in insertion order, updated the
      way a dict is: assigning an existing key keeps its position.
    - A file system maps a path, as it is written, to what is there;
      [os.makedirs] is the operating system's and is a parameter.
    - A method that mutates [self] is a function from the object's state to
      an outcome and the state it leaves behind, also when it raises. *)

From Stdlib Require Import ZArith NArith List FinFun String Ascii Bool Lia.
From Stdlib Require Import Decimal DecimalString DecimalPos DecimalN.
From Stdlib Require Import SpecFloat.
Import ListNotations.

Local Open Scope string_scope.
Local Open Scope Z_scope.

#[local] Set Warnings "-register-all".

(** [x |> f] reads as the statement [f] applied to the object [x]. *)
Notation "x |> f" := (f x) (at level 65, left associativity, only parsing).

(** ** Python builtins the two modules call *)

Module Py.

(** [c.isspace()] on an ASCII character: tab, line feed, vertical tab, form
    feed, carriage return, the four separators 28..31 and the space. *)
Definition is_space (c : ascii) : bool :=
  let n := nat_of_ascii c in
  ((9 <=? n) && (n <=? 13) || (28 <=? n) && (n <=? 32))%nat.

Fixpoint lstrip (s : string) : string :=
  match s with
  | EmptyString => EmptyString
  | String c r => if is_space c then lstrip r else s
  end.

Fixpoint rstrip (s : string) : string :=
  match s with
  | EmptyString => EmptyString
  | String c r =>
      match rstrip r with
      | EmptyString => if is_space c then EmptyString else String c EmptyString
      | t => String c t
      end
  end.

(** [s.strip()] *)
Definition strip (s : string) : string := rstrip (lstrip s).

(** [all(c.isspace() for c in s)] *)
Fixpoint all_space (s : string) : bool :=
  match s with
  | EmptyString => true
  | String c r => is_space c && all_space r
  end.

(** [s.lower()] on ASCII letters. *)
Definition lower_char (c : ascii) : ascii :=
  let n := nat_of_ascii c in
  if ((65 <=? n) && (n <=? 90))%nat then ascii_of_nat (n + 32) else c.

Fixpoint lower (s : string) : string :=
  match s with
  | EmptyString => EmptyString
  | String c r => String (lower_char c) (lower r)
  end.

(** What [int] and [float] skip around a literal: the characters C's
    [isspace] takes on ASCII, which are 9..13 and the space.  The separators
    28..31, which [str.strip] removes, are not among them. *)
Definition is_blank (c : ascii) : bool :=
  let n := nat_of_ascii c in
  ((9 <=? n) && (n <=? 13) || (n =? 32))%nat.

Fixpoint skip_blanks (s : string) : string :=
  match s with
  | EmptyString => EmptyString
  | String c r => if is_blank c then skip_blanks r else s
  end.

Fixpoint drop_last_blanks (s : string) : string :=
  match s with
  | EmptyString => EmptyString
  | String c r =>
      match drop_last_blanks r with
      | EmptyString => if is_blank c then EmptyString else String c EmptyString
      | t => String c t
      end
  end.

(** The literal that [int] and [float] parse: the text between the blanks at
    its two ends. *)
Definition unpad (s : string) : string := drop_last_blanks (skip_blanks s).

(** [str(b)] for a [bool]. *)
Definition str_of_bool (b : bool) : string := if b then "True" else "False".

(** [str(n)] for an [int]: decimal digits, a minus sign when negative. *)
Definition str_of_int (z : Z) : string :=
  match z with
  | Z0 => "0"
  | Zpos p => NilEmpty.string_of_uint (Pos.to_uint p)
  | Zneg p => String "-" (NilEmpty.string_of_uint (Pos.to_uint p))
  end.

Definition digit_of (c : ascii) : option N :=
  let n := N_of_ascii c in
  if ((48 <=? n) && (n <=? 57))%N then Some (n - 48)%N else None.

(** The digits of an [int(...)] literal: decimal digits, where single
    underscores may separate digits.  [ready] tells that the previous character
    was a digit, so that an underscore or the end may follow. *)
Fixpoint int_digits (s : string) (acc : N) (ready : bool) : option N :=
  match s with
  | EmptyString => if ready then Some acc else None
  | String c r =>
      match digit_of c with
      | Some d => int_digits r (10 * acc + d)%N true
      | None =>
          if Ascii.eqb c "_" && ready then int_digits r acc false else None
      end
  end.

(** [int(s)]: the blanks around the literal are skipped, then an optional
    sign and the digits; [None] stands for the [ValueError] that [int]
    raises. *)
Definition int (s : string) : option Z :=
  match unpad s with
  | String "+" r => option_map Z.of_N (int_digits r 0%N false)
  | String "-" r => option_map (fun n => - Z.of_N n) (int_digits r 0%N false)
  | t => option_map Z.of_N (int_digits t 0%N false)
  end.

(** The value of the decimal literal [m * 10^e10], with sign [neg], rounded to
    the nearest binary64 (ties to even), as [float] does. *)
Definition of_decimal (neg : bool) (m : N) (e10 : Z) : spec_float :=
  match m with
  | N0 => S754_zero neg
  | Npos p =>
      SFdiv 53 1024
        (S754_finite neg (p * Z.to_pos (10 ^ Z.max e10 0)) 0)
        (S754_finite false (Z.to_pos (10 ^ Z.max (- e10) 0)) 0)
  end.

(** A run of digits (single underscores between digits allowed), continuing
    the value [acc]; returns the value, the number of digits read and the text
    left.  An empty run is accepted here and refused by the caller. *)
Fixpoint digit_run (s : string) (acc : N) (n : Z) (ready : bool)
  : option (N * Z * string) :=
  match s with
  | EmptyString => if ready || (n =? 0) then Some (acc, n, s) else None
  | String c r =>
      match digit_of c with
      | Some d => digit_run r (10 * acc + d)%N (n + 1) true
      | None =>
          if Ascii.eqb c "_" then
            if ready then digit_run r acc n false else None
          else if ready || (n =? 0) then Some (acc, n, s) else None
      end
  end.

(** The exponent part, after the [e]: optional sign, at least one digit, and
    nothing behind it. *)
Definition exponent (s : string) : option Z :=
  let '(neg, body) :=
    match s with
    | String "+" r => (false, r)
    | String "-" r => (true, r)
    | _ => (false, s)
    end in
  match digit_run body 0%N 0 false with
  | Some (v, n, EmptyString) =>
      if n =? 0 then None else Some (if neg then - Z.of_N v else Z.of_N v)
  | _ => None
  end.

(** An unsigned decimal literal: digits, optional fraction, optional
    exponent, with a digit on at least one side of the point.  Returns the
    digits as a number and the power of ten that scales it. *)
Definition decimal_literal (s : string) : option (N * Z) :=
  match digit_run s 0%N 0 false with
  | None => None
  | Some (ip, ni, r1) =>
      let fraction :=
        match r1 with
        | String "." r2 => digit_run r2 ip 0 false
        | _ => Some (ip, 0, r1)
        end in
      match fraction with
      | None => None
      | Some (m, nf, r3) =>
          if ni + nf =? 0 then None else
          match r3 with
          | EmptyString => Some (m, - nf)
          | String c r4 =>
              if Ascii.eqb c "e" || Ascii.eqb c "E" then
                option_map (fun x => (m, x - nf)) (exponent r4)
              else None
          end
      end
  end.

(** [float(s)]: the blanks around the literal are skipped, then an optional
    sign and either a decimal literal or one of the names [inf], [infinity],
    [nan] in any case; [None] stands for the [ValueError] that [float]
    raises. *)
Definition float (s : string) : option spec_float :=
  let t := unpad s in
  let '(neg, body) :=
    match t with
    | String "+" r => (false, r)
    | String "-" r => (true, r)
    | _ => (false, t)
    end in
  let l := lower body in
  if String.eqb l "inf" || String.eqb l "infinity" then Some (S754_infinity neg)
  else if String.eqb l "nan" then Some S754_nan
  else option_map (fun '(m, e) => of_decimal neg m e) (decimal_literal body).

(** [s.rstrip('0')] *)
Fixpoint rstrip_zeros (s : string) : string :=
  match s with
  | EmptyString => EmptyString
  | String c r =>
      match rstrip_zeros r with
      | EmptyString => if Ascii.eqb c "0" then EmptyString else String c EmptyString
      | t => String c t
      end
  end.

Fixpoint zeros (n : nat) : string :=
  match n with
  | O => EmptyString
  | S k => String "0" (zeros k)
  end.

(** The value [m * 2^e] over [10^k], as a fraction of two integers. *)
Definition over_pow10 (m : positive) (e k : Z) : Z * Z :=
  (Zpos m * 2 ^ Z.max e 0 * 10 ^ Z.max (- k) 0,
   2 ^ Z.max (- e) 0 * 10 ^ Z.max k 0).

(** The power of ten of the first digit of [m * 2^e]: an estimate from the
    number of bits, put right by comparing. *)
Definition decimal_exponent (m : positive) (e : Z) : Z :=
  let estimate := (Zpos (digits2_pos m) + e - 1) * 30103 / 100000 in
  let '(num, den) := over_pow10 m e estimate in
  if num <? den then estimate - 1
  else if 10 * den <=? num then estimate + 1
  else estimate.

(** The text of [repr] for the digits [digits] with the point [decpt] places
    from their left: exponent notation when [decpt] is below -3 or above
    16, with a sign and two digits at least in the exponent; else positional
    notation, with [.0] behind a whole number. *)
Definition float_text (neg : bool) (digits : string) (decpt : Z) : string :=
  let len := Z.of_nat (String.length digits) in
  (if neg then "-" else EmptyString) ++
  if (decpt <=? -4) || (16 <? decpt) then
    let exp := decpt - 1 in
    match digits with
    | String c EmptyString => String c EmptyString
    | String c r => String c ("." ++ r)
    | EmptyString => EmptyString
    end
    ++ "e" ++ (if exp <? 0 then "-" else "+")
    ++ (if Z.abs exp <? 10 then "0" else EmptyString) ++ str_of_int (Z.abs exp)
  else if decpt <=? 0 then "0." ++ zeros (Z.to_nat (- decpt)) ++ digits
  else if len <=? decpt then digits ++ zeros (Z.to_nat (decpt - len)) ++ ".0"
  else substring 0 (Z.to_nat decpt) digits ++ "."
       ++ substring (Z.to_nat decpt) (Z.to_nat (len - decpt)) digits.

(** The two decimal numbers of [n] digits around [m * 2^e], the nearer one
    first (the even one when they are as near), as [repr] would write
    them. *)
Definition candidates (neg : bool) (m : positive) (e p10 n : Z) : list string :=
  let k := p10 - (n - 1) in
  let '(num, den) := over_pow10 m e k in
  let lo := num / den in
  let hi := lo + 1 in
  let text d :=
    float_text neg (rstrip_zeros (str_of_int d))
      (Z.of_nat (String.length (str_of_int d)) + k) in
  match 2 * (num mod den) ?= den with
  | Lt => [text lo; text hi]
  | Gt => [text hi; text lo]
  | Eq => if Z.even lo then [text lo; text hi] else [text hi; text lo]
  end.

(** [float(t) == x] *)
Definition reads_as (x : spec_float) (t : string) : bool :=
  match float t with
  | Some y => SFeqb y x
  | None => false
  end.

(** The first text that reads as [x], fewest digits first. *)
Fixpoint shortest (x : spec_float) (neg : bool) (m : positive) (e p10 : Z)
    (ns : list Z) : option string :=
  match ns with
  | [] => None
  | n :: rest =>
      match List.find (reads_as x) (candidates neg m e p10 n) with
      | Some t => Some t
      | None => shortest x neg m e p10 rest
      end
  end.

(** The value [m * 2^e] written out in full, as an integer and a power of
    ten. *)
Definition exact_text (neg : bool) (m : positive) (e : Z) : string :=
  (if neg then "-" else EmptyString)
  ++ (if 0 <=? e
      then str_of_int (Zpos m * 2 ^ e) ++ "e0"
      else str_of_int (Zpos m * 5 ^ (- e)) ++ "e" ++ str_of_int e).

(** [str(x)] for a [float], which is [repr(x)]: the text with the fewest
    digits that [float] reads as [x], and among the texts with as few
    digits the one nearest to [x].  Seventeen digits are enough for every
    binary64 value, so that the search finds a text; the value written out
    in full stands behind it only for the function to be total. *)
Definition str_of_float (x : spec_float) : string :=
  match x with
  | S754_zero s => if s then "-0.0" else "0.0"
  | S754_infinity s => if s then "-inf" else "inf"
  | S754_nan => "nan"
  | S754_finite s m e =>
      match shortest x s m e (decimal_exponent m e)
              [1; 2; 3; 4; 5; 6; 7; 8; 9; 10; 11; 12; 13; 14; 15; 16; 17] with
      | Some t => t
      | None => exact_text s m e
      end
  end.

(** [os.path.splitext] of [posixpath]: the extension starts at the last dot
    of the last path component, leading dots of that component set aside. *)
Fixpoint rfind_from (c : ascii) (s : string) (i : Z) : Z :=
  match s with
  | EmptyString => -1
  | String a r =>
      let j := rfind_from c r (i + 1) in
      if 0 <=? j then j else if Ascii.eqb a c then i else -1
  end.

Definition rfind (c : ascii) (s : string) : Z := rfind_from c s 0.

Definition slice (s : string) (i j : Z) : string :=
  substring (Z.to_nat i) (Z.to_nat (j - i)) s.

Fixpoint only_dots (s : string) : bool :=
  match s with
  | EmptyString => true
  | String c r => Ascii.eqb c "." && only_dots r
  end.

Definition splitext (p : string) : string * string :=
  let sepIndex := rfind "/" p in
  let dotIndex := rfind "." p in
  if (sepIndex <? dotIndex) && negb (only_dots (slice p (sepIndex + 1) dotIndex))
  then (slice p 0 dotIndex, slice p dotIndex (Z.of_nat (String.length p)))
  else (p, EmptyString).

(** [s.rstrip('/')] *)
Fixpoint rstrip_slashes (s : string) : string :=
  match s with
  | EmptyString => EmptyString
  | String c r =>
      match rstrip_slashes r with
      | EmptyString => if Ascii.eqb c "/" then EmptyString else String c EmptyString
      | t => String c t
      end
  end.

(** [os.path.dirname] of [posixpath]: the text up to the last slash, without
    the slashes at its end unless it is made of slashes only. *)
Definition dirname (p : string) : string :=
  let head := slice p 0 (rfind "/" p + 1) in
  match rstrip_slashes head with
  | EmptyString => head
  | t => t
  end.

(** An object of class [int]: an integer proper, or a [bool], which Python
    makes a subclass of [int] ([True == 1] and [False == 0]). *)
Inductive int_object : Type :=
| Int (n : Z)
| Bool (b : bool).

(** The integer an [int] object compares and counts as. *)
Definition int_value (x : int_object) : Z :=
  match x with
  | Int n => n
  | Bool b => if b then 1 else 0
  end.

(** [str(x)] of an [int] object: a [bool] is written by its name. *)
Definition str_of_int_object (x : int_object) : string :=
  match x with
  | Int n => str_of_int n
  | Bool b => str_of_bool b
  end.

End Py.

(** An integer literal where an [int] object is expected is that integer. *)
Coercion Py.Int : Z >-> Py.int_object.

(** ** Dictionaries *)

Module Dict.

Definition dict (V : Type) : Type := list (string * V).

(** [d.get(k)] *)
Fixpoint get {V} (k : string) (d : dict V) : option V :=
  match d with
  | [] => None
  | (k', v) :: r => if String.eqb k' k then Some v else get k r
  end.

(** [k in d] *)
Definition mem {V} (k : string) (d : dict V) : bool :=
  match get k d with Some _ => true | None => false end.

(** [d[k] = v]: an existing key keeps its place, a new key goes last. *)
Fixpoint set {V} (k : string) (v : V) (d : dict V) : dict V :=
  match d with
  | [] => [(k, v)]
  | (k', v') :: r => if String.eqb k' k then (k, v) :: r else (k', v') :: set k v r
  end.

(** [list(d.keys())] *)
Definition keys {V} (d : dict V) : list string := map fst d.

End Dict.

(** ** The document tree ([xml.etree.ElementTree]) *)

Module ET.

Inductive Element : Type :=
  Elem (tag : string) (attrib : Dict.dict string) (text : option string)
       (children : list Element).

Definition tag (e : Element) : string := let 'Elem t _ _ _ := e in t.
Definition attrib (e : Element) : Dict.dict string := let 'Elem _ a _ _ := e in a.
Definition text (e : Element) : option string := let 'Elem _ _ x _ := e in x.
Definition children (e : Element) : list Element := let 'Elem _ _ _ c := e in c.

(** [e.get(key, default)] *)
Definition get (e : Element) (key default : string) : string :=
  match Dict.get key (attrib e) with Some v => v | None => default end.

(** [e.set(key, value)] *)
Definition set (key value : string) (e : Element) : Element :=
  let 'Elem t a x c := e in Elem t (Dict.set key value a) x c.

(** [e.find(name)] for a plain tag name: the first child with that tag. *)
Definition find (e : Element) (name : string) : option Element :=
  List.find (fun c => String.eqb (tag c) name) (children e).

(** [e.findall(name)] for a plain tag name: the children with that tag, in
    document order. *)
Definition findall (e : Element) (name : string) : list Element :=
  List.filter (fun c => String.eqb (tag c) name) (children e).

(** [e.text = value] *)
Definition set_text (value : string) (e : Element) : Element :=
  let 'Elem t a _ c := e in Elem t a (Some value) c.

(** [parent.append(child)] *)
Definition append (child : Element) (parent : Element) : Element :=
  let 'Elem t a x c := parent in Elem t a x (c ++ [child]).

End ET.

(** ** Exceptions *)

(** The two modules raise [ValueError] and [FileNotFoundError]; the message
    of a [ValueError] is kept as the place that raised it and the values its
    text is formatted from. *)
Inductive cause : Type :=
| InvalidDirection (direction : string)
| InvalidApplyToDead (apply_to_dead : Py.int_object)
| ExpectedColumns (got : nat) (row : list string)
| CouldNotConvertToFloat (field : string)
| InvalidLiteralForInt (field : string)
| ErrorLoadingRules (filename : string)
| NoRulesToSave
| ErrorSavingRules (filename : string)
| MustBeEnabledFirst
| MustBePositive (name : string).

Inductive exn : Type :=
| ValueError (why : cause)
| FileNotFoundError (filename : string).

(** The specification names four conditions where the code has these two
    classes; this is the condition it gives each raise. *)
Inductive condition : Type := InvalidArgument | NotFound | FormatError | InvalidState.

Definition condition_of (e : exn) : condition :=
  match e with
  | FileNotFoundError _ => NotFound
  | ValueError (InvalidDirection _) => InvalidArgument
  | ValueError (InvalidApplyToDead _) => InvalidArgument
  | ValueError (MustBePositive _) => InvalidArgument
  | ValueError (ExpectedColumns _ _) => FormatError
  | ValueError (CouldNotConvertToFloat _) => FormatError
  | ValueError (InvalidLiteralForInt _) => FormatError
  | ValueError (ErrorLoadingRules _) => FormatError
  | ValueError NoRulesToSave => InvalidState
  | ValueError (ErrorSavingRules _) => InvalidState
  | ValueError MustBeEnabledFirst => InvalidState
  end.

(** What a call leaves: it returns, or it raises. *)
Inductive outcome (A : Type) : Type :=
| Ok (a : A)
| Raise (e : exn).
Arguments Ok {A} a.
Arguments Raise {A} e.

(** ** The file system, as the two table methods see it *)

(** A path names nothing, or something that cannot be opened as asked (a
    directory, a file without permission), or a table: the rows
    [csv.reader] yields, which are the rows [csv.writer] was given.  The
    empty path names nothing and cannot be opened for writing either. *)
Inductive file : Type :=
| NoSuchFile
| Unusable
| Table (rows : list (list string)).

Definition filesystem : Type := string -> file.

Definition write_file (fs : filesystem) (path : string) (f : file) : filesystem :=
  fun p => if String.eqb p path then f else fs p.

(** ** [_create_element] of [BaseModule] *)

(** Modelled from the spec: [BaseModule._create_element] is defined in
    [modules/base.py], which is not among the sources.  The spec's Element
    Builder "appends a named, optionally-typed, optionally-texted child node to
    a parent node": the new element has the given tag, the given text if any,
    no attribute and no child.  Both modules set attributes and add children
    on the element right after it is created; nothing else refers to it, so
    the tree is the same when the element is completed first and appended
    then, which is how this development builds it. *)
Definition create_element (tag : string) (text : option string) : ET.Element :=
  ET.Elem tag [] text [].

(** ** [CellRulesModule] *)

Module CellRules.

(** A value of [self.rulesets]. *)
Record ruleset : Type := {
  folder : string;
  filename : string;
  enabled : bool;
  protocol : string;
  version : string;
  format : string
}.

(** An element of [self.rules]. *)
Record rule : Type := {
  cell_type : string;
  signal : string;
  direction : string;
  behavior : string;
  saturation_value : spec_float;
  half_max : spec_float;
  hill_power : spec_float;
  apply_to_dead : Py.int_object
}.

Record state : Type := {
  rulesets : Dict.dict ruleset;
  rules : list rule
}.

(** [__init__] *)
Definition init : state := {| rulesets := []; rules := [] |}.

Definition with_rulesets (d : Dict.dict ruleset) (s : state) : state :=
  {| rulesets := d; rules := rules s |}.

Definition with_rules (l : list rule) (s : state) : state :=
  {| rulesets := rulesets s; rules := l |}.

Definition add_ruleset (name folder filename : string) (enabled : bool)
    (s : state) : state :=
  s |> with_rulesets
    (Dict.set name
       {| folder := folder; filename := filename; enabled := enabled;
          protocol := "CBHG"; version := "3.0"; format := "csv" |}
       (rulesets s)).

Definition add_rule (cell_type signal direction behavior : string)
    (saturation_value half_max hill_power : spec_float)
    (apply_to_dead : Py.int_object) (s : state) : outcome unit * state :=
  if negb (String.eqb direction "increases" || String.eqb direction "decreases")
  then (Raise (ValueError (InvalidDirection direction)), s)
  else if negb ((Py.int_value apply_to_dead =? 0) || (Py.int_value apply_to_dead =? 1))
  then (Raise (ValueError (InvalidApplyToDead apply_to_dead)), s)
  else
    let rule :=
      {| cell_type := cell_type; signal := signal; direction := direction;
         behavior := behavior; saturation_value := saturation_value;
         half_max := half_max; hill_power := hill_power;
         apply_to_dead := apply_to_dead |} in
    (Ok tt, s |> with_rules (rules s ++ [rule])).

(** [row[i]], on a row already known to be long enough. *)
Definition field (row : list string) (i : nat) : string := nth i row EmptyString.

(** [not row or all(c.strip() == '' for c in row)] *)
Definition blank_row (row : list string) : bool :=
  forallb (fun c => String.eqb (Py.strip c) EmptyString) row.

Definition to_float (s : string) : outcome spec_float :=
  match Py.float s with
  | Some x => Ok x
  | None => Raise (ValueError (CouldNotConvertToFloat s))
  end.

Definition to_int (s : string) : outcome Z :=
  match Py.int s with
  | Some x => Ok x
  | None => Raise (ValueError (InvalidLiteralForInt s))
  end.

(** The dictionary display of the loop body: the fields are evaluated from
    the first to the last, and the first conversion that fails raises. *)
Definition build_rule (row : list string) : outcome rule :=
  match to_float (field row 4) with
  | Raise e => Raise e
  | Ok saturation_value =>
  match to_float (field row 5) with
  | Raise e => Raise e
  | Ok half_max =>
  match to_float (field row 6) with
  | Raise e => Raise e
  | Ok hill_power =>
  match to_int (field row 7) with
  | Raise e => Raise e
  | Ok apply_to_dead =>
      Ok {| cell_type := Py.strip (field row 0);
            signal := Py.strip (field row 1);
            direction := Py.strip (field row 2);
            behavior := Py.strip (field row 3);
            saturation_value := saturation_value;
            half_max := half_max;
            hill_power := hill_power;
            apply_to_dead := Py.Int apply_to_dead |}
  end end end end.

(** One turn of the loop over the reader: [None] is the [continue] of a blank
    row. *)
Definition read_row (row : list string) : outcome (option rule) :=
  if blank_row row then Ok None
  else if (List.length row <? 8)%nat
  then Raise (ValueError (ExpectedColumns (List.length row) row))
  else match build_rule row with
       | Ok r => Ok (Some r)
       | Raise e => Raise e
       end.

(** The loop over the reader: each rule is appended to [self.rules] as soon
    as its row is read, and a raise leaves the loop with what was appended. *)
Fixpoint load_rows (rows : list (list string)) (s : state) : outcome unit * state :=
  match rows with
  | [] => (Ok tt, s)
  | row :: rest =>
      match read_row row with
      | Ok None => load_rows rest s
      | Ok (Some r) => load_rows rest (s |> with_rules (rules s ++ [r]))
      | Raise e => (Raise e, s)
      end
  end.

Definition load_rules_from_csv (fs : filesystem) (filename : string) (s : state)
  : outcome unit * state :=
  match fs filename with
  | NoSuchFile => (Raise (FileNotFoundError filename), s)
  | Unusable => (Raise (ValueError (ErrorLoadingRules filename)), s)
  | Table rows => load_rows rows s
  end.

Section TableExport.

(** [str(x)] for a [float].  The interpreter's is [Py.str_of_float]; what
    does not depend on how a float is written is stated for any [str]. *)
Variable str_of_float : spec_float -> string.

(** What [writer.writerow] is given for a rule, each field as the writer
    puts it: a string as it is, a number through [str], so that a stored
    [bool] is written [True] or [False]. *)
Definition row_of_rule (r : rule) : list string :=
  [ cell_type r; signal r; direction r; behavior r;
    str_of_float (saturation_value r); str_of_float (half_max r);
    str_of_float (hill_power r); Py.str_of_int_object (apply_to_dead r) ].

(** [os.makedirs(name, exist_ok=True)], the operating system's: whether it
    returned, and the file system it left, which holds the directories it
    made also when it raised. *)
Variable makedirs : filesystem -> string -> bool * filesystem.

(** [os.path.dirname(filename) if os.path.dirname(filename) else '.'] *)
Definition directory_of (filename : string) : string :=
  match Py.dirname filename with
  | EmptyString => "."
  | d => d
  end.

(** The directories are made first, inside the [try]; then the file is
    opened for writing, which the empty path and an unusable path refuse;
    every exception of the two becomes the [ValueError] of the handler, and
    the directories made stay. *)
Definition save_rules_to_csv (fs : filesystem) (filename : string) (s : state)
  : outcome unit * filesystem :=
  match rules s with
  | [] => (Raise (ValueError NoRulesToSave), fs)
  | _ =>
      match makedirs fs (directory_of filename) with
      | (false, fs1) => (Raise (ValueError (ErrorSavingRules filename)), fs1)
      | (true, fs1) =>
          if String.eqb filename EmptyString
          then (Raise (ValueError (ErrorSavingRules filename)), fs1)
          else
            match fs1 filename with
            | Unusable => (Raise (ValueError (ErrorSavingRules filename)), fs1)
            | _ => (Ok tt, write_file fs1 filename
                             (Table (map row_of_rule (rules s))))
            end
      end
  end.

End TableExport.

(** The [ruleset] element of one registered ruleset. *)
Definition ruleset_elem (r : ruleset) : ET.Element :=
  create_element "ruleset" None
  |> ET.set "protocol" (protocol r)
  |> ET.set "version" (version r)
  |> ET.set "format" (format r)
  |> ET.set "enabled" (Py.lower (Py.str_of_bool (enabled r)))
  |> ET.append (create_element "folder" (Some (folder r)))
  |> ET.append (create_element "filename" (Some (filename r))).

(** The [ruleset] element written when nothing is registered. *)
Definition default_ruleset_elem : ET.Element :=
  create_element "ruleset" None
  |> ET.set "protocol" "CBHG"
  |> ET.set "version" "3.0"
  |> ET.set "format" "csv"
  |> ET.set "enabled" "false"
  |> ET.append (create_element "folder" (Some "./config"))
  |> ET.append (create_element "filename" (Some "cell_rules.csv")).

Definition add_to_xml (s : state) (parent : ET.Element) : ET.Element :=
  let rulesets_elem :=
    match rulesets s with
    | [] => create_element "rulesets" None |> ET.append default_ruleset_elem
    | d =>
        fold_left (fun elem kv => elem |> ET.append (ruleset_elem (snd kv))) d
          (create_element "rulesets" None)
    end in
  let cell_rules_elem :=
    create_element "cell_rules" None
    |> ET.append rulesets_elem
    |> ET.append (create_element "settings" None) in
  parent |> ET.append cell_rules_elem.

(** [elem.text.strip() if elem.text else default] *)
Definition text_or (elem : ET.Element) (default : string) : string :=
  match ET.text elem with
  | None => default
  | Some EmptyString => default
  | Some t => Py.strip t
  end.

(** The [while] loop that looks for a free name.  It runs at most once per
    registered name and once more, which is the fuel [load_ruleset] gives it;
    [None] is the loop still running when the fuel is spent. *)
Fixpoint unique_name (fuel : nat) (d : Dict.dict ruleset)
    (base_name ruleset_name : string) (counter : Z) : option string :=
  match fuel with
  | O => None
  | S fuel' =>
      if Dict.mem ruleset_name d
      then unique_name fuel' d base_name
             (base_name ++ "_" ++ Py.str_of_int counter) (counter + 1)
      else Some ruleset_name
  end.

(** The body of the loop over the [ruleset] elements. *)
Definition load_ruleset (elem : ET.Element) (d : Dict.dict ruleset)
  : option (Dict.dict ruleset) :=
  let protocol := ET.get elem "protocol" "CBHG" in
  let version := ET.get elem "version" "3.0" in
  let format_type := ET.get elem "format" "csv" in
  let enabled := String.eqb (Py.lower (ET.get elem "enabled" "false")) "true" in
  match ET.find elem "folder", ET.find elem "filename" with
  | Some folder_elem, Some filename_elem =>
      let folder := text_or folder_elem "./config" in
      let filename := text_or filename_elem "cell_rules.csv" in
      let base_name := fst (Py.splitext filename) in
      match unique_name (S (List.length d)) d base_name base_name 1 with
      | None => None
      | Some ruleset_name =>
          Some (Dict.set ruleset_name
                  {| folder := folder; filename := filename; enabled := enabled;
                     protocol := protocol; version := version;
                     format := format_type |} d)
      end
  | _, _ => Some d
  end.

Fixpoint load_rulesets (elems : list ET.Element) (d : Dict.dict ruleset)
  : option (Dict.dict ruleset) :=
  match elems with
  | [] => Some d
  | elem :: rest =>
      match load_ruleset elem d with
      | None => None
      | Some d' => load_rulesets rest d'
      end
  end.

(** [None] as result only says that a name loop ran out of fuel, which
    [load_from_xml_total] below shows never happens. *)
Definition load_from_xml (xml_element : option ET.Element) (s : state)
  : option state :=
  match xml_element with
  | None => Some s
  | Some xml_element =>
      match ET.find xml_element "rulesets" with
      | None => Some (s |> with_rulesets [])
      | Some rulesets_elem =>
          option_map (fun d => s |> with_rulesets d)
            (load_rulesets (ET.findall rulesets_elem "ruleset") [])
      end
  end.

Definition get_rules (s : state) : list rule := rules s.
Definition get_rulesets (s : state) : Dict.dict ruleset := rulesets s.
Definition clear_rules (s : state) : state := s |> with_rules [].
Definition clear_rulesets (s : state) : state := s |> with_rulesets [].

End CellRules.

(** ** [PhysiBoSSModule] *)

Module PhysiBoSS.

(** The binary64 values of the literals [12.0], [10.0] and [0.0]. *)
Definition f12 : spec_float := S754_finite false 6755399441055744 (-49).
Definition f10 : spec_float := S754_finite false 5629499534213120 (-49).
Definition f0 : spec_float := S754_zero false.

(** [self.physiboss_settings] once [enable_physiboss] has filled it. *)
Record settings : Type := {
  model_file : string;
  initial_values : Dict.dict bool;
  mutations : Dict.dict (Dict.dict bool);
  parameters : Dict.dict spec_float;
  time_step : spec_float;
  scaling : spec_float;
  start_time : spec_float
}.

(** [physiboss_settings] is [None] for the empty dictionary [__init__] sets;
    [enable_physiboss] alone sets [enabled], and it fills the settings with
    it, so an enabled module has them. *)
Record state : Type := {
  physiboss_settings : option settings;
  enabled : bool
}.

(** [__init__] *)
Definition init : state := {| physiboss_settings := None; enabled := false |}.

(** [d or {}] for an optional argument. *)
Definition or_empty {V} (d : option (Dict.dict V)) : Dict.dict V :=
  match d with Some d => d | None => [] end.

Definition enable_physiboss (model_file : string)
    (initial_values : option (Dict.dict bool))
    (mutations : option (Dict.dict (Dict.dict bool)))
    (parameters : option (Dict.dict spec_float)) (s : state) : state :=
  {| enabled := true;
     physiboss_settings :=
       Some {| model_file := model_file;
               initial_values := or_empty initial_values;
               mutations := or_empty mutations;
               parameters := or_empty parameters;
               time_step := f12;
               scaling := f10;
               start_time := f0 |} |}.

(** Modelled from the spec: [BaseModule._validate_positive_number] is defined
    in [modules/base.py], which is not among the sources.  The spec has
    [setTimeStep] and [setScaling] "fail with InvalidArgument if the value is
    not a positive number". *)
Definition validate_positive_number (value : spec_float) (name : string)
  : outcome unit :=
  if SFltb f0 value then Ok tt else Raise (ValueError (MustBePositive name)).

(** The settings after an assignment to one of their keys. *)
Definition assign (f : settings -> settings) (s : state) : state :=
  {| enabled := enabled s;
     physiboss_settings := option_map f (physiboss_settings s) |}.

Definition set_time_step (time_step : spec_float) (s : state)
  : outcome unit * state :=
  if negb (enabled s) then (Raise (ValueError MustBeEnabledFirst), s)
  else
    match validate_positive_number time_step "time_step" with
    | Raise e => (Raise e, s)
    | Ok _ =>
        (Ok tt,
         s |> assign (fun st =>
           {| model_file := model_file st; initial_values := initial_values st;
              mutations := mutations st; parameters := parameters st;
              time_step := time_step; scaling := scaling st;
              start_time := start_time st |}))
    end.

Definition set_scaling (scaling : spec_float) (s : state)
  : outcome unit * state :=
  if negb (enabled s) then (Raise (ValueError MustBeEnabledFirst), s)
  else
    match validate_positive_number scaling "scaling" with
    | Raise e => (Raise e, s)
    | Ok _ =>
        (Ok tt,
         s |> assign (fun st =>
           {| model_file := model_file st; initial_values := initial_values st;
              mutations := mutations st; parameters := parameters st;
              time_step := time_step st; scaling := scaling;
              start_time := start_time st |}))
    end.

Definition add_initial_value (node : string) (value : bool) (s : state)
  : outcome unit * state :=
  if negb (enabled s) then (Raise (ValueError MustBeEnabledFirst), s)
  else
    (Ok tt,
     s |> assign (fun st =>
       {| model_file := model_file st;
          initial_values := Dict.set node value (initial_values st);
          mutations := mutations st; parameters := parameters st;
          time_step := time_step st; scaling := scaling st;
          start_time := start_time st |})).

Definition add_mutation (cell_line node : string) (value : bool) (s : state)
  : outcome unit * state :=
  if negb (enabled s) then (Raise (ValueError MustBeEnabledFirst), s)
  else
    (Ok tt,
     s |> assign (fun st =>
       let line :=
         match Dict.get cell_line (mutations st) with
         | Some d => d
         | None => []
         end in
       {| model_file := model_file st; initial_values := initial_values st;
          mutations := Dict.set cell_line (Dict.set node value line) (mutations st);
          parameters := parameters st;
          time_step := time_step st; scaling := scaling st;
          start_time := start_time st |})).

Definition add_parameter (name : string) (value : spec_float) (s : state)
  : outcome unit * state :=
  if negb (enabled s) then (Raise (ValueError MustBeEnabledFirst), s)
  else
    (Ok tt,
     s |> assign (fun st =>
       {| model_file := model_file st; initial_values := initial_values st;
          mutations := mutations st;
          parameters := Dict.set name value (parameters st);
          time_step := time_step st; scaling := scaling st;
          start_time := start_time st |})).

Definition is_enabled (s : state) : bool := enabled s.

(** [get_settings]: [None] is the empty dictionary. *)
Definition get_settings (s : state) : option settings :=
  if enabled s then physiboss_settings s else None.

Section XmlExport.

Variable str_of_float : spec_float -> string.

(** An element per entry of a dictionary, appended in its order. *)
Definition append_each {V} (d : Dict.dict V) (mk : string -> V -> ET.Element)
    (elem : ET.Element) : ET.Element :=
  fold_left (fun e kv => e |> ET.append (mk (fst kv) (snd kv))) d elem.

(** A block that is written only when its dictionary is not empty. *)
Definition append_block {V} (d : Dict.dict V) (tag : string)
    (mk : string -> V -> ET.Element) (elem : ET.Element) : ET.Element :=
  match d with
  | [] => elem
  | _ => elem |> ET.append (create_element tag None |> append_each d mk)
  end.

Definition bool_text (value : bool) : string := Py.lower (Py.str_of_bool value).

Definition add_to_xml (s : state) (parent : ET.Element) : ET.Element :=
  if negb (enabled s) then parent
  else
    match physiboss_settings s with
    | None => parent
    | Some st =>
        let settings_elem :=
          create_element "physiboss_settings" None
          |> ET.append (create_element "physiboss_bnd_file" (Some (model_file st)))
          |> ET.append (create_element "physiboss_time_step"
                          (Some (str_of_float (time_step st)))
                        |> ET.set "units" "min")
          |> ET.append (create_element "physiboss_scaling"
                          (Some (str_of_float (scaling st))))
          |> ET.append (create_element "physiboss_start_time"
                          (Some (str_of_float (start_time st)))
                        |> ET.set "units" "min") in
        let physiboss_elem :=
          create_element "physiboss" None
          |> ET.set "enabled" "true"
          |> ET.append settings_elem
          |> append_block (initial_values st) "physiboss_initial_values"
               (fun node value =>
                  create_element "physiboss_initial_value" None
                  |> ET.set "node" node
                  |> ET.set_text (bool_text value))
          |> append_block (mutations st) "physiboss_mutations"
               (fun cell_line muts =>
                  create_element "physiboss_mutation" None
                  |> ET.set "cell_line" cell_line
                  |> append_each muts
                       (fun node value =>
                          create_element "physiboss_mutation_value" None
                          |> ET.set "node" node
                          |> ET.set_text (bool_text value)))
          |> append_block (parameters st) "physiboss_parameters"
               (fun name value =>
                  create_element "physiboss_parameter" None
                  |> ET.set "name" name
                  |> ET.set_text (str_of_float value)) in
        parent |> ET.append physiboss_elem
    end.

End XmlExport.

End PhysiBoSS.

(** ** [validate_configs.py]: the strict comparison of two documents *)

Module Validate.

(** An element as [ET.parse] gives it: with the text behind its end tag, the
    [tail], that the comparison looks at. *)
Inductive Element : Type :=
  Elem (tag : string) (attrib : Dict.dict string) (text tail : option string)
       (children : list Element).

(** A line of the report; [place] is the path of the element it is about,
    and the other arguments are the values its text is formatted from. *)
Inductive difference : Type :=
| TagMismatch (path tag1 tag2 : string)
| TextWhitespaceMismatch (place text1 text2 : string)
| TextMismatch (place text1 text2 : string)
| TailWhitespaceMismatch (place tail1 tail2 : string)
| TailMismatch (place tail1 tail2 : string)
| MissingInGenerated (place attr : string)
| ExtraInGenerated (place attr : string)
| AttributeMismatch (place attr value1 value2 : string)
| ChildCountMismatch (place : string) (count1 count2 : nat).

(** [x or ""] *)
Definition or_empty (x : option string) : string :=
  match x with Some t => t | None => EmptyString end.

Definition option_eqb (a b : option string) : bool :=
  match a, b with
  | Some x, Some y => String.eqb x y
  | None, None => true
  | _, _ => false
  end.

(** [set(attrs1.keys()) | set(attrs2.keys())]: each key once.  Python
    iterates a set in an order of its own; the order here is the order of
    first occurrence, and nothing proved below depends on it. *)
Definition union_keys (attrs1 attrs2 : Dict.dict string) : list string :=
  nodup string_dec (Dict.keys attrs1 ++ Dict.keys attrs2).

(** [attrs1 == attrs2] for two dictionaries: the same keys with the same
    values. *)
Definition dict_eqb (attrs1 attrs2 : Dict.dict string) : bool :=
  forallb (fun attr => option_eqb (Dict.get attr attrs1) (Dict.get attr attrs2))
    (union_keys attrs1 attrs2).

Definition text_differences (place text1 text2 : string) : list difference :=
  if String.eqb text1 text2 then []
  else if String.eqb (Py.strip text1) (Py.strip text2)
       then [TextWhitespaceMismatch place text1 text2]
       else [TextMismatch place text1 text2].

Definition tail_differences (place tail1 tail2 : string) : list difference :=
  if String.eqb tail1 tail2 then []
  else if String.eqb (Py.strip tail1) (Py.strip tail2)
       then [TailWhitespaceMismatch place tail1 tail2]
       else [TailMismatch place tail1 tail2].

Definition attribute_differences (place : string)
    (attrs1 attrs2 : Dict.dict string) : list difference :=
  if dict_eqb attrs1 attrs2 then []
  else
    flat_map
      (fun attr =>
         match Dict.get attr attrs1, Dict.get attr attrs2 with
         | None, _ => [MissingInGenerated place attr]
         | Some _, None => [ExtraInGenerated place attr]
         | Some value1, Some value2 =>
             if String.eqb value1 value2 then []
             else [AttributeMismatch place attr value1 value2]
         end)
      (union_keys attrs1 attrs2).

Definition count_differences (place : string) (count1 count2 : nat)
  : list difference :=
  if Nat.eqb count1 count2 then [] else [ChildCountMismatch place count1 count2].

(** [compare_xml_elements_strict]; the inner loop runs over the children both
    elements have, [i] counting them. *)
Fixpoint compare_xml_elements_strict (elem1 elem2 : Element) (path : string)
  : list difference :=
  let 'Elem tag1 attrs1 text1 tail1 children1 := elem1 in
  let 'Elem tag2 attrs2 text2 tail2 children2 := elem2 in
  if negb (String.eqb tag1 tag2) then [TagMismatch path tag1 tag2]
  else
    let place := path ++ "/" ++ tag1 in
    (text_differences place (or_empty text1) (or_empty text2)
     ++ tail_differences place (or_empty tail1) (or_empty tail2)
     ++ attribute_differences place attrs1 attrs2
     ++ count_differences place (List.length children1) (List.length children2)
     ++ (fix children_loop (l1 l2 : list Element) (i : Z) : list difference :=
           match l1, l2 with
           | child1 :: rest1, child2 :: rest2 =>
               (compare_xml_elements_strict child1 child2
                  (place ++ "[" ++ Py.str_of_int i ++ "]")%string
                ++ children_loop rest1 rest2 (i + 1))%list
           | _, _ => []
           end) children1 children2 0)%list.

(** The loop over the children, on its own. *)
Fixpoint compare_children (place : string) (l1 l2 : list Element) (i : Z)
  : list difference :=
  match l1, l2 with
  | child1 :: rest1, child2 :: rest2 =>
      (compare_xml_elements_strict child1 child2
         (place ++ "[" ++ Py.str_of_int i ++ "]")%string
       ++ compare_children place rest1 rest2 (i + 1))%list
  | _, _ => []
  end.

(** Two elements that are the same document: the same tag, the same text and
    tail where none counts as the empty one, the same value or none under
    every attribute name, and as many children, the same one by one. *)
Fixpoint same (elem1 elem2 : Element) : Prop :=
  let 'Elem tag1 attrs1 text1 tail1 children1 := elem1 in
  let 'Elem tag2 attrs2 text2 tail2 children2 := elem2 in
  tag1 = tag2
  /\ or_empty text1 = or_empty text2
  /\ or_empty tail1 = or_empty tail2
  /\ (forall attr, Dict.get attr attrs1 = Dict.get attr attrs2)
  /\ (fix all_same (l1 l2 : list Element) : Prop :=
        match l1, l2 with
        | [], [] => True
        | child1 :: rest1, child2 :: rest2 => same child1 child2 /\ all_same rest1 rest2
        | _, _ => False
        end) children1 children2.

Fixpoint all_same (l1 l2 : list Element) : Prop :=
  match l1, l2 with
  | [], [] => True
  | child1 :: rest1, child2 :: rest2 => same child1 child2 /\ all_same rest1 rest2
  | _, _ => False
  end.

End Validate.

(** ** Notions the properties are stated with *)

(** The number a digit sequence continues [acc] to. *)
Fixpoint uint_val (d : uint) (acc : N) : N :=
  match d with
  | Nil => acc
  | D0 d => uint_val d (10 * acc)%N
  | D1 d => uint_val d (10 * acc + 1)%N
  | D2 d => uint_val d (10 * acc + 2)%N
  | D3 d => uint_val d (10 * acc + 3)%N
  | D4 d => uint_val d (10 * acc + 4)%N
  | D5 d => uint_val d (10 * acc + 5)%N
  | D6 d => uint_val d (10 * acc + 6)%N
  | D7 d => uint_val d (10 * acc + 7)%N
  | D8 d => uint_val d (10 * acc + 8)%N
  | D9 d => uint_val d (10 * acc + 9)%N
  end.

(** No character of [s] is whitespace. *)
Fixpoint no_space (s : string) : bool :=
  match s with
  | EmptyString => true
  | String c r => negb (Py.is_space c) && no_space r
  end.

(** Every character of [s] is a blank. *)
Fixpoint all_blank (s : string) : bool :=
  match s with
  | EmptyString => true
  | String c r => Py.is_blank c && all_blank r
  end.

(** [s] has no whitespace at either end: [s.strip() == s]. *)
Definition trimmed (s : string) : Prop := Py.strip s = s.

(** A row the import stops at, in the words of the specification: a row
    that is not blank and has fewer than 8 fields, or one of whose numeric
    fields (columns 5 to 8) does not parse. *)
Definition malformed (row : list string) : Prop :=
  CellRules.blank_row row = false
  /\ ((List.length row < 8)%nat
      \/ Py.float (CellRules.field row 4) = None
      \/ Py.float (CellRules.field row 5) = None
      \/ Py.float (CellRules.field row 6) = None
      \/ Py.int (CellRules.field row 7) = None).

(** The rules of the rows that the import reads as rules, in their order. *)
Fixpoint rules_of_rows (rows : list (list string)) : list CellRules.rule :=
  match rows with
  | [] => []
  | row :: rest =>
      match CellRules.read_row row with
      | Ok (Some r) => r :: rules_of_rows rest
      | _ => rules_of_rows rest
      end
  end.

(** A file system with one table in it. *)
Definition one_file (path : string) (rows : list (list string)) : filesystem :=
  write_file (fun _ => NoSuchFile) path (Table rows).

(** Rows and rules the examples below are made of. *)
Definition good_row : list string :=
  ["tumor"; "oxygen"; "increases"; "cycle entry"; "1.0"; "0.5"; "4.0"; "0"].

Definition good_rule : CellRules.rule :=
  {| CellRules.cell_type := "tumor"; CellRules.signal := "oxygen";
     CellRules.direction := "increases"; CellRules.behavior := "cycle entry";
     CellRules.saturation_value := S754_finite false 4503599627370496 (-52);
     CellRules.half_max := S754_finite false 4503599627370496 (-53);
     CellRules.hill_power := S754_finite false 4503599627370496 (-50);
     CellRules.apply_to_dead := 0 |}.

(** The rule the import builds from the fields of [row], its numbers read. *)
Definition rule_of_fields (row : list string) (x5 x6 x7 : spec_float) (x8 : Z)
  : CellRules.rule :=
  {| CellRules.cell_type := Py.strip (nth 0 row EmptyString);
     CellRules.signal := Py.strip (nth 1 row EmptyString);
     CellRules.direction := Py.strip (nth 2 row EmptyString);
     CellRules.behavior := Py.strip (nth 3 row EmptyString);
     CellRules.saturation_value := x5;
     CellRules.half_max := x6;
     CellRules.hill_power := x7;
     CellRules.apply_to_dead := Py.Int x8 |}.

(** Rows with nine fields: one that reads as [good_rule], one whose fifth
    field is no number, one that is blank. *)
Definition long_row : list string :=
  ["tumor"; "oxygen"; "increases"; "cycle entry"; "1.0"; "0.5"; "4.0"; "0";
   "a comment"].

Definition long_row_abc : list string :=
  ["tumor"; "oxygen"; "increases"; "cycle entry"; "abc"; "0.5"; "4.0"; "0";
   "a comment"].

Definition long_row_blank : list string :=
  [EmptyString; " "; EmptyString; EmptyString; EmptyString; EmptyString;
   EmptyString; EmptyString; EmptyString].


Definition row_with_2 : list string :=
  ["tumor"; "oxygen"; "increases"; "cycle entry"; "1.0"; "0.5"; "4.0"; "2"].

(** The names the [while] loop of [load_from_xml] tries, in turn: the stem,
    then the stem with [_1], [_2], ... *)
Definition candidate (base_name : string) (k : nat) : string :=
  match k with
  | O => base_name
  | S _ => base_name ++ "_" ++ Py.str_of_int (Z.of_nat k)
  end.

(** The record [load_from_xml] registers for a [ruleset] element with the
    children [folder_elem] and [filename_elem]: an attribute that is missing
    takes its default. *)
Definition entry_of (elem folder_elem filename_elem : ET.Element)
  : CellRules.ruleset :=
  {| CellRules.folder := CellRules.text_or folder_elem "./config";
     CellRules.filename := CellRules.text_or filename_elem "cell_rules.csv";
     CellRules.enabled :=
       match Dict.get "enabled" (ET.attrib elem) with
       | Some v => String.eqb (Py.lower v) "true"
       | None => false
       end;
     CellRules.protocol :=
       match Dict.get "protocol" (ET.attrib elem) with
       | Some v => v
       | None => "CBHG"
       end;
     CellRules.version :=
       match Dict.get "version" (ET.attrib elem) with
       | Some v => v
       | None => "3.0"
       end;
     CellRules.format :=
       match Dict.get "format" (ET.attrib elem) with
       | Some v => v
       | None => "csv"
       end |}.

(** The stem [load_from_xml] derives the name from. *)
Definition stem_of (filename_elem : ET.Element) : string :=
  fst (Py.splitext (CellRules.text_or filename_elem "cell_rules.csv")).

(** Every character of [s] passes [p]. *)
Fixpoint every (p : ascii -> bool) (s : string) : bool :=
  match s with
  | EmptyString => true
  | String a r => p a && every p r
  end.

(** The character [c] does not occur in [s]. *)
Definition without (c : ascii) (s : string) : bool :=
  every (fun a => negb (Ascii.eqb a c)) s.

(** A file name with its extension, in the words of the specification: the
    name is [stem], a dot and [ext], where [stem] is a plain name (no slash,
    and a character other than a dot) and [ext] holds no dot and no slash.
    So "rules.csv" is "rules" with "csv", and "cell_rules.tar.gz" is
    "cell_rules.tar" with "gz". *)
Definition stem_and_extension (filename stem ext : string) : Prop :=
  filename = stem ++ "." ++ ext
  /\ without "/" stem = true
  /\ every (fun a => Ascii.eqb a ".") stem = false
  /\ without "." ext = true
  /\ without "/" ext = true.

(** A document with two [ruleset] elements whose files are both "rules" with
    an extension, the second one written with blanks around it. *)
Definition two_rules_doc : ET.Element :=
  ET.Elem "cell_rules" [] None
    [ET.Elem "rulesets" [] None
       [ET.Elem "ruleset" [("enabled", "true")] None
          [ET.Elem "folder" [] (Some "./config") [];
           ET.Elem "filename" [] (Some "rules.csv") []];
        ET.Elem "ruleset" [] None
          [ET.Elem "folder" [] (Some "./other") [];
           ET.Elem "filename" [] (Some " rules.txt ") []]]].


(** A [ruleset] element as [add_to_xml] writes it. *)
Definition csv_ruleset_elem (folder filename : string) : ET.Element :=
  ET.Elem "ruleset"
    [("protocol", "CBHG"); ("version", "3.0"); ("format", "csv"); ("enabled", "true")]
    None
    [ET.Elem "folder" [] (Some folder) []; ET.Elem "filename" [] (Some filename) []].

Definition cell_rules_doc (rulesets : list ET.Element) : ET.Element :=
  ET.Elem "cell_rules" [] None
    [ET.Elem "rulesets" [] None rulesets; ET.Elem "settings" [] None []].

(** [a == b] for two rules: the names are equal, the three floats and the
    flag are equal as values ([True == 1]). *)
Definition rule_eqb (a b : CellRules.rule) : bool :=
  String.eqb (CellRules.cell_type a) (CellRules.cell_type b)
  && String.eqb (CellRules.signal a) (CellRules.signal b)
  && String.eqb (CellRules.direction a) (CellRules.direction b)
  && String.eqb (CellRules.behavior a) (CellRules.behavior b)
  && SFeqb (CellRules.saturation_value a) (CellRules.saturation_value b)
  && SFeqb (CellRules.half_max a) (CellRules.half_max b)
  && SFeqb (CellRules.hill_power a) (CellRules.hill_power b)
  && (Py.int_value (CellRules.apply_to_dead a)
      =? Py.int_value (CellRules.apply_to_dead b)).

(** [l1 == l2] for two rule lists: the same length, and equal rules at each
    place. *)
Fixpoint rules_eqb (l1 l2 : list CellRules.rule) : bool :=
  match l1, l2 with
  | [], [] => true
  | a :: l1, b :: l2 => rule_eqb a b && rules_eqb l1 l2
  | _, _ => false
  end.

(** The text [str] writes for [x] is read back by [float] as a value equal to
    [x]; the interpreter's [str] does that for every float but NaN, which is
    equal to no value. *)
Definition float_reads_back (str_of_float : spec_float -> string)
    (x : spec_float) : Prop :=
  exists y, Py.float (str_of_float x) = Some y /\ SFeqb y x = true.

(** [x == x]: what holds of every float but NaN. *)
Definition not_nan (x : spec_float) : Prop := SFeqb x x = true.

(** The three floats of a rule are binary64 values, as every Python float
    is: a finite one has the mantissa and the exponent of its format. *)
Definition binary64_floats (r : CellRules.rule) : Prop :=
  valid_binary 53 1024 (CellRules.saturation_value r) = true
  /\ valid_binary 53 1024 (CellRules.half_max r) = true
  /\ valid_binary 53 1024 (CellRules.hill_power r) = true.

(** A rule the table format keeps: its four names have no whitespace at
    either end, its flag is an integer proper and not a [bool], and none of
    its three floats is NaN. *)
Definition kept_by_table (r : CellRules.rule) : Prop :=
  trimmed (CellRules.cell_type r) /\ trimmed (CellRules.signal r)
  /\ trimmed (CellRules.direction r) /\ trimmed (CellRules.behavior r)
  /\ (exists n, CellRules.apply_to_dead r = Py.Int n)
  /\ not_nan (CellRules.saturation_value r)
  /\ not_nan (CellRules.half_max r)
  /\ not_nan (CellRules.hill_power r).

(** The three floats of a rule are read back from what [str_of_float]
    writes for them, unless they are NaN. *)
Definition floats_read_back (str_of_float : spec_float -> string)
    (r : CellRules.rule) : Prop :=
  (not_nan (CellRules.saturation_value r)
     -> float_reads_back str_of_float (CellRules.saturation_value r))
  /\ (not_nan (CellRules.half_max r)
        -> float_reads_back str_of_float (CellRules.half_max r))
  /\ (not_nan (CellRules.hill_power r)
        -> float_reads_back str_of_float (CellRules.hill_power r)).

(** [os.makedirs] where the directory is there already: it returns and
    changes nothing. *)
Definition makedirs_there (fs : filesystem) (name : string) : bool * filesystem :=
  (true, fs).

(** [os.makedirs] where the directory is missing and can be made: it
    returns, and the name is a directory, which cannot be opened as a
    file. *)
Definition makedirs_made (fs : filesystem) (name : string) : bool * filesystem :=
  (true, write_file fs name Unusable).

(** [os.makedirs] where the directory cannot be made: it raises and has
    made nothing. *)
Definition makedirs_refused (fs : filesystem) (name : string) : bool * filesystem :=
  (false, fs).

(** [str(x)] on the floats the examples use: the zeros, the infinities, NaN,
    and the whole numbers of halves below 10^16, which [str] writes with one
    digit behind the point.  On any other float the text here is not the one
    [str] writes. *)
Definition str_of_float_halves (x : spec_float) : string :=
  match x with
  | S754_zero s => if s then "-0.0" else "0.0"
  | S754_infinity s => if s then "-inf" else "inf"
  | S754_nan => "nan"
  | S754_finite s m e =>
      let twice :=
        if 0 <=? e + 1 then Zpos m * 2 ^ (e + 1) else Zpos m / 2 ^ (- (e + 1)) in
      (if s then "-" else EmptyString)
      ++ Py.str_of_int (twice / 2) ++ (if Z.even twice then ".0" else ".5")
  end.

(** The store after [add_rule] with the cell type " tumor", a space in front. *)
Definition padded_store : CellRules.state :=
  snd (CellRules.add_rule " tumor" "oxygen" "increases" "cycle entry"
         (CellRules.saturation_value good_rule) (CellRules.half_max good_rule)
         (CellRules.hill_power good_rule) 0 CellRules.init).

(** The row written for the rule of [padded_store]. *)
Definition padded_row : list string :=
  [" tumor"; "oxygen"; "increases"; "cycle entry"; "1.0"; "0.5"; "4.0"; "0"].

(** The store after [add_rule] with the cell type "tumor". *)
Definition good_store : CellRules.state :=
  snd (CellRules.add_rule "tumor" "oxygen" "increases" "cycle entry"
         (CellRules.saturation_value good_rule) (CellRules.half_max good_rule)
         (CellRules.hill_power good_rule) 0 CellRules.init).

(** The store after [add_rule] with [True] for apply_to_dead. *)
Definition flagged_store : CellRules.state :=
  snd (CellRules.add_rule "tumor" "oxygen" "increases" "cycle entry"
         (CellRules.saturation_value good_rule) (CellRules.half_max good_rule)
         (CellRules.hill_power good_rule) (Py.Bool true) CellRules.init).

(** The row written for the rule of [flagged_store]. *)
Definition flagged_row : list string :=
  ["tumor"; "oxygen"; "increases"; "cycle entry"; "1.0"; "0.5"; "4.0"; "True"].

(** The store after [add_rule] with NaN for the saturation value. *)
Definition nan_store : CellRules.state :=
  snd (CellRules.add_rule "tumor" "oxygen" "increases" "cycle entry"
         S754_nan (CellRules.half_max good_rule)
         (CellRules.hill_power good_rule) 0 CellRules.init).

(** The row written for the rule of [nan_store]. *)
Definition nan_row : list string :=
  ["tumor"; "oxygen"; "increases"; "cycle entry"; "nan"; "0.5"; "4.0"; "0"].

(** A rule as [add_rule] lets it in: a direction it knows, a flag equal to
    0 or to 1. *)
Definition valid_rule (r : CellRules.rule) : Prop :=
  (CellRules.direction r = "increases" \/ CellRules.direction r = "decreases")
  /\ (Py.int_value (CellRules.apply_to_dead r) = 0
      \/ Py.int_value (CellRules.apply_to_dead r) = 1).

(** The four names of a rule have no whitespace at either end. *)
Definition trimmed_names (r : CellRules.rule) : Prop :=
  trimmed (CellRules.cell_type r) /\ trimmed (CellRules.signal r)
  /\ trimmed (CellRules.direction r) /\ trimmed (CellRules.behavior r).

(** The records of the [ruleset] elements that have both children, in the
    order of the elements. *)
Fixpoint entries_of (elems : list ET.Element) : list CellRules.ruleset :=
  match elems with
  | [] => []
  | elem :: rest =>
      match ET.find elem "folder", ET.find elem "filename" with
      | Some folder_elem, Some filename_elem =>
          entry_of elem folder_elem filename_elem :: entries_of rest
      | _, _ => entries_of rest
      end
  end.

(** A registered ruleset whose folder and filename are not empty and have no
    whitespace at either end. *)
Definition plain_location (r : CellRules.ruleset) : Prop :=
  CellRules.folder r <> EmptyString /\ trimmed (CellRules.folder r)
  /\ CellRules.filename r <> EmptyString /\ trimmed (CellRules.filename r).

(** The record of the [ruleset] element written for an empty registry. *)
Definition placeholder : CellRules.ruleset :=
  {| CellRules.folder := "./config"; CellRules.filename := "cell_rules.csv";
     CellRules.enabled := false; CellRules.protocol := "CBHG";
     CellRules.version := "3.0"; CellRules.format := "csv" |}.

(** A file system with three tables, the third the first two one after the
    other. *)
Definition three_tables (r1 r2 : list (list string)) : filesystem :=
  write_file (write_file (one_file "a.csv" r1) "b.csv" (Table r2))
    "ab.csv" (Table (r1 ++ r2)).

(** One call of a method of [PhysiBoSSModule], with any arguments. *)
Inductive step : PhysiBoSS.state -> PhysiBoSS.state -> Prop :=
| step_enable_physiboss model_file iv mu pa s :
    step s (PhysiBoSS.enable_physiboss model_file iv mu pa s)
| step_set_time_step x s : step s (snd (PhysiBoSS.set_time_step x s))
| step_set_scaling x s : step s (snd (PhysiBoSS.set_scaling x s))
| step_add_initial_value node v s :
    step s (snd (PhysiBoSS.add_initial_value node v s))
| step_add_mutation line node v s :
    step s (snd (PhysiBoSS.add_mutation line node v s))
| step_add_parameter name x s : step s (snd (PhysiBoSS.add_parameter name x s)).

(** The states a module gets into, from [__init__] on. *)
Inductive reachable : PhysiBoSS.state -> Prop :=
| reachable_init : reachable PhysiBoSS.init
| reachable_step s s' : reachable s -> step s s' -> reachable s'.

(** A block of the [physiboss] element: nothing for no item, else one
    element around the items. *)
Definition block (tag : string) (items : list ET.Element) : list ET.Element :=
  match items with
  | [] => []
  | _ => [ET.Elem tag [] None items]
  end.

(** An element with one attribute and a text. *)
Definition value_elem (tag key name text : string) : ET.Element :=
  ET.Elem tag [(key, name)] (Some text) [].

(** The [physiboss_settings] element of the settings [st]. *)
Definition settings_block (str_of_float : spec_float -> string)
    (st : PhysiBoSS.settings) : ET.Element :=
  ET.Elem "physiboss_settings" [] None
    [ET.Elem "physiboss_bnd_file" [] (Some (PhysiBoSS.model_file st)) [];
     ET.Elem "physiboss_time_step" [("units", "min")]
       (Some (str_of_float (PhysiBoSS.time_step st))) [];
     ET.Elem "physiboss_scaling" [] (Some (str_of_float (PhysiBoSS.scaling st))) [];
     ET.Elem "physiboss_start_time" [("units", "min")]
       (Some (str_of_float (PhysiBoSS.start_time st))) []].

(** The [physiboss_mutation] element of one cell line. *)
Definition mutation_elem (kv : string * Dict.dict bool) : ET.Element :=
  ET.Elem "physiboss_mutation" [("cell_line", fst kv)] None
    (map (fun nv => value_elem "physiboss_mutation_value" "node" (fst nv)
                      (PhysiBoSS.bool_text (snd nv))) (snd kv)).

(** An enabled module with one initial value, one mutation and one
    parameter. *)
Definition small_network : PhysiBoSS.state :=
  PhysiBoSS.enable_physiboss "m.bnd" (Some [("A", true)])
    (Some [("lineX", [("B", false)])])
    (Some [("k", S754_finite false 5629499534213120 (-51))]) PhysiBoSS.init.

(** The [ruleset] element of a record, spelled out. *)
Definition written_ruleset (r : CellRules.ruleset) : ET.Element :=
  ET.Elem "ruleset"
    [("protocol", CellRules.protocol r); ("version", CellRules.version r);
     ("format", CellRules.format r);
     ("enabled", if CellRules.enabled r then "true" else "false")]
    None
    [ET.Elem "folder" [] (Some (CellRules.folder r)) [];
     ET.Elem "filename" [] (Some (CellRules.filename r)) []].

(** The rows of a table that are not blank. *)
Definition non_blank_rows (rows : list (list string)) : list (list string) :=
  filter (fun row => negb (CellRules.blank_row row)) rows.

(** ** Strings and numbers *)

Section Strings.

Lemma lstrip_all_space s : Py.all_space s = true -> Py.lstrip s = EmptyString.
Proof.
  induction s as [|c r IH]; simpl; [reflexivity|].
  intros H. apply andb_prop in H as [Hc Hr]. rewrite Hc. auto.
Qed.

Lemma rstrip_all_space s : Py.all_space s = true -> Py.rstrip s = EmptyString.
Proof.
  induction s as [|c r IH]; simpl; [reflexivity|].
  intros H. apply andb_prop in H as [Hc Hr]. rewrite (IH Hr), Hc. reflexivity.
Qed.

Lemma rstrip_empty_all_space s : Py.rstrip s = EmptyString -> Py.all_space s = true.
Proof.
  induction s as [|c r IH]; simpl; [reflexivity|].
  destruct (Py.rstrip r) eqn:E; [|discriminate].
  destruct (Py.is_space c); [|discriminate].
  intros _. simpl. auto.
Qed.

Lemma lstrip_not_all_space s :
  Py.all_space s = false -> Py.all_space (Py.lstrip s) = false.
Proof.
  induction s as [|c r IH]; simpl; [discriminate|].
  destruct (Py.is_space c) eqn:E; simpl; [exact IH|].
  intros _. rewrite E. reflexivity.
Qed.

(** A field is blank for the import exactly when it is made of whitespace. *)
Lemma strip_empty_iff s : Py.strip s = EmptyString <-> Py.all_space s = true.
Proof.
  unfold Py.strip. split.
  - intros H. apply rstrip_empty_all_space in H.
    destruct (Py.all_space s) eqn:E; [reflexivity|].
    apply lstrip_not_all_space in E. congruence.
  - intros H. rewrite (lstrip_all_space _ H). reflexivity.
Qed.

Lemma lstrip_no_space s : no_space s = true -> Py.lstrip s = s.
Proof.
  destruct s as [|c r]; simpl; [reflexivity|].
  intros H. apply andb_prop in H as [Hc _].
  apply negb_true_iff in Hc. rewrite Hc. reflexivity.
Qed.

Lemma rstrip_no_space s : no_space s = true -> Py.rstrip s = s.
Proof.
  induction s as [|c r IH]; simpl; [reflexivity|].
  intros H. apply andb_prop in H as [Hc Hr].
  apply negb_true_iff in Hc. rewrite (IH Hr), Hc.
  destruct r; reflexivity.
Qed.

Lemma strip_no_space s : no_space s = true -> Py.strip s = s.
Proof.
  intros H. unfold Py.strip. rewrite (lstrip_no_space _ H). apply rstrip_no_space, H.
Qed.

Lemma lstrip_idem s : Py.lstrip (Py.lstrip s) = Py.lstrip s.
Proof.
  induction s as [|c r IH]; simpl; [reflexivity|].
  destruct (Py.is_space c) eqn:E; [exact IH|]. simpl. rewrite E. reflexivity.
Qed.

Lemma rstrip_idem s : Py.rstrip (Py.rstrip s) = Py.rstrip s.
Proof.
  induction s as [|c r IH]; simpl; [reflexivity|].
  destruct (Py.rstrip r) as [|c' r'] eqn:E.
  - destruct (Py.is_space c) eqn:Ec; simpl; [reflexivity|]. rewrite Ec. reflexivity.
  - simpl. simpl in IH. rewrite IH. reflexivity.
Qed.

Lemma lstrip_rstrip s : Py.lstrip (Py.rstrip s) = Py.rstrip (Py.lstrip s).
Proof.
  induction s as [|c r IH]; simpl; [reflexivity|].
  destruct (Py.is_space c) eqn:Ec.
  - destruct (Py.rstrip r) as [|c' r'] eqn:E.
    + simpl. symmetry. apply rstrip_all_space.
      destruct (Py.all_space r) eqn:Er.
      * rewrite (lstrip_all_space _ Er). reflexivity.
      * apply rstrip_empty_all_space in E. congruence.
    + simpl. rewrite Ec. exact IH.
  - simpl. destruct (Py.rstrip r); simpl; rewrite Ec; reflexivity.
Qed.

(** Trimming twice is trimming once: what the import stores is [trimmed]. *)
Lemma strip_idem s : Py.strip (Py.strip s) = Py.strip s.
Proof.
  unfold Py.strip.
  rewrite (lstrip_rstrip (Py.lstrip s)), lstrip_idem, rstrip_idem. reflexivity.
Qed.

Lemma strip_trimmed s : trimmed (Py.strip s).
Proof. apply strip_idem. Qed.

(** The blanks [int] and [float] skip are whitespace for [strip]; the
    separators 28..31 are whitespace that is no blank. *)
Lemma blank_is_space c : Py.is_blank c = true -> Py.is_space c = true.
Proof.
  destruct c as [[] [] [] [] [] [] [] []]; vm_compute; intros H;
    first [reflexivity | discriminate H].
Qed.

Lemma not_space_not_blank c : Py.is_space c = false -> Py.is_blank c = false.
Proof.
  intros H. destruct (Py.is_blank c) eqn:E; [|reflexivity].
  apply blank_is_space in E. congruence.
Qed.

Lemma skip_blanks_no_space s : no_space s = true -> Py.skip_blanks s = s.
Proof.
  destruct s as [|c r]; simpl; [reflexivity|].
  intros H. apply andb_prop in H as [Hc _].
  apply negb_true_iff, not_space_not_blank in Hc. rewrite Hc. reflexivity.
Qed.

Lemma drop_last_blanks_no_space s : no_space s = true -> Py.drop_last_blanks s = s.
Proof.
  induction s as [|c r IH]; simpl; [reflexivity|].
  intros H. apply andb_prop in H as [Hc Hr].
  apply negb_true_iff, not_space_not_blank in Hc. rewrite (IH Hr), Hc.
  destruct r; reflexivity.
Qed.

Lemma skip_blanks_all_blank s : all_blank s = true -> Py.skip_blanks s = EmptyString.
Proof.
  induction s as [|c r IH]; simpl; [reflexivity|].
  intros H. apply andb_prop in H as [Hc Hr]. rewrite Hc. auto.
Qed.

Lemma drop_last_blanks_all_blank s : all_blank s = true -> Py.drop_last_blanks s = EmptyString.
Proof.
  induction s as [|c r IH]; simpl; [reflexivity|].
  intros H. apply andb_prop in H as [Hc Hr]. rewrite (IH Hr), Hc. reflexivity.
Qed.

Lemma drop_last_blanks_empty_all_blank s : Py.drop_last_blanks s = EmptyString -> all_blank s = true.
Proof.
  induction s as [|c r IH]; simpl; [reflexivity|].
  destruct (Py.drop_last_blanks r) eqn:E; [|discriminate].
  destruct (Py.is_blank c); [|discriminate].
  intros _. simpl. auto.
Qed.

Lemma skip_blanks_not_all_blank s :
  all_blank s = false -> all_blank (Py.skip_blanks s) = false.
Proof.
  induction s as [|c r IH]; simpl; [discriminate|].
  destruct (Py.is_blank c) eqn:E; simpl; [exact IH|].
  intros _. rewrite E. reflexivity.
Qed.

Lemma unpad_empty_iff s : Py.unpad s = EmptyString <-> all_blank s = true.
Proof.
  unfold Py.unpad. split.
  - intros H. apply drop_last_blanks_empty_all_blank in H.
    destruct (all_blank s) eqn:E; [reflexivity|].
    apply skip_blanks_not_all_blank in E. congruence.
  - intros H. rewrite (skip_blanks_all_blank _ H). reflexivity.
Qed.

Lemma skip_blanks_idem s : Py.skip_blanks (Py.skip_blanks s) = Py.skip_blanks s.
Proof.
  induction s as [|c r IH]; simpl; [reflexivity|].
  destruct (Py.is_blank c) eqn:E; [exact IH|]. simpl. rewrite E. reflexivity.
Qed.

Lemma drop_last_blanks_idem s : Py.drop_last_blanks (Py.drop_last_blanks s) = Py.drop_last_blanks s.
Proof.
  induction s as [|c r IH]; simpl; [reflexivity|].
  destruct (Py.drop_last_blanks r) as [|c' r'] eqn:E.
  - destruct (Py.is_blank c) eqn:Ec; simpl; [reflexivity|]. rewrite Ec. reflexivity.
  - simpl. simpl in IH. rewrite IH. reflexivity.
Qed.

Lemma skip_blanks_rstrip s : Py.skip_blanks (Py.drop_last_blanks s) = Py.drop_last_blanks (Py.skip_blanks s).
Proof.
  induction s as [|c r IH]; simpl; [reflexivity|].
  destruct (Py.is_blank c) eqn:Ec.
  - destruct (Py.drop_last_blanks r) as [|c' r'] eqn:E.
    + simpl. symmetry. apply drop_last_blanks_all_blank.
      destruct (all_blank r) eqn:Er.
      * rewrite (skip_blanks_all_blank _ Er). reflexivity.
      * apply drop_last_blanks_empty_all_blank in E. congruence.
    + simpl. rewrite Ec. exact IH.
  - simpl. destruct (Py.drop_last_blanks r); simpl; rewrite Ec; reflexivity.
Qed.

(** Skipping the blanks twice is skipping them once. *)
Lemma unpad_idem s : Py.unpad (Py.unpad s) = Py.unpad s.
Proof.
  unfold Py.unpad.
  rewrite (skip_blanks_rstrip (Py.skip_blanks s)), skip_blanks_idem, drop_last_blanks_idem. reflexivity.
Qed.

(** [int] and [float] read a field as they read the literal in it: the
    blanks around a number play no part. *)
Lemma int_unpad s : Py.int (Py.unpad s) = Py.int s.
Proof. unfold Py.int. rewrite unpad_idem. reflexivity. Qed.

Lemma float_unpad s : Py.float (Py.unpad s) = Py.float s.
Proof. unfold Py.float. rewrite unpad_idem. reflexivity. Qed.

(** A text without whitespace is the literal [int] and [float] parse. *)
Lemma unpad_no_space s : no_space s = true -> Py.unpad s = s.
Proof.
  intros H. unfold Py.unpad. rewrite (skip_blanks_no_space _ H).
  apply drop_last_blanks_no_space, H.
Qed.

Lemma no_space_uint d : no_space (NilEmpty.string_of_uint d) = true.
Proof. induction d; simpl; auto. Qed.

Lemma int_digits_uint d acc ready :
  d <> Nil \/ ready = true ->
  Py.int_digits (NilEmpty.string_of_uint d) acc ready = Some (uint_val d acc).
Proof.
  revert acc ready.
  induction d; intros acc ready H; simpl;
    try (change (Py.digit_of _) with (Some 0%N) ||
         change (Py.digit_of _) with (Some 1%N) ||
         change (Py.digit_of _) with (Some 2%N) ||
         change (Py.digit_of _) with (Some 3%N) ||
         change (Py.digit_of _) with (Some 4%N) ||
         change (Py.digit_of _) with (Some 5%N) ||
         change (Py.digit_of _) with (Some 6%N) ||
         change (Py.digit_of _) with (Some 7%N) ||
         change (Py.digit_of _) with (Some 8%N) ||
         change (Py.digit_of _) with (Some 9%N));
    cbv iota beta; try (rewrite IHd by (right; reflexivity));
    try (rewrite N.add_0_r); try reflexivity.
  destruct H as [H|H]; [congruence | subst; reflexivity].
Qed.

Lemma uint_val_acc d p : uint_val d (Npos p) = Npos (Pos.of_uint_acc d p).
Proof.
  revert p. induction d; intros p; cbn [uint_val Pos.of_uint_acc];
    [reflexivity | rewrite <- IHd; f_equal; lia ..].
Qed.

Lemma uint_val_of_uint d : uint_val d 0 = Pos.of_uint d.
Proof.
  induction d; cbn [uint_val Pos.of_uint]; try exact IHd; try reflexivity;
    rewrite <- uint_val_acc; reflexivity.
Qed.

Lemma first_char_of_pos p :
  exists c r, NilEmpty.string_of_uint (Pos.to_uint p) = String c r /\
              c <> "+"%char /\ c <> "-"%char.
Proof.
  pose proof (DecimalPos.Unsigned.to_uint_nonnil p) as H.
  destruct (Pos.to_uint p); try congruence; simpl;
    eexists; eexists; (split; [reflexivity|]); split; discriminate.
Qed.

Lemma int_unsigned s :
  (forall c r, s = String c r -> c <> "+"%char /\ c <> "-"%char) ->
  no_space s = true ->
  Py.int s = option_map Z.of_N (Py.int_digits s 0%N false).
Proof.
  intros H Hs. unfold Py.int. rewrite (unpad_no_space _ Hs).
  destruct s as [|c r]; [reflexivity|].
  destruct (H c r eq_refl) as [H1 H2].
  destruct c as [[] [] [] [] [] [] [] []]; try reflexivity; congruence.
Qed.

(** [int(str(n)) == n] *)
Theorem int_str_of_int z : Py.int (Py.str_of_int z) = Some z.
Proof.
  destruct z as [|p|p].
  - reflexivity.
  - simpl. rewrite int_unsigned.
    + rewrite int_digits_uint by (left; apply DecimalPos.Unsigned.to_uint_nonnil).
      rewrite uint_val_of_uint, DecimalPos.Unsigned.of_to. reflexivity.
    + intros c r E. destruct (first_char_of_pos p) as (c' & r' & E' & Hc).
      rewrite E in E'. injection E' as -> _. exact Hc.
    + apply no_space_uint.
  - unfold Py.str_of_int, Py.int.
    rewrite unpad_no_space by (simpl; apply no_space_uint).
    rewrite int_digits_uint by (left; apply DecimalPos.Unsigned.to_uint_nonnil).
    rewrite uint_val_of_uint, DecimalPos.Unsigned.of_to. reflexivity.
Qed.

Lemma str_of_int_inj a b : Py.str_of_int a = Py.str_of_int b -> a = b.
Proof.
  intros H. apply (f_equal Py.int) in H.
  rewrite !int_str_of_int in H. congruence.
Qed.

Lemma str_of_int_no_space z : no_space (Py.str_of_int z) = true.
Proof. destruct z; simpl; auto using no_space_uint. Qed.

Lemma str_of_int_not_empty z : Py.str_of_int z <> EmptyString.
Proof.
  destruct z as [|p|p]; simpl; try discriminate.
  destruct (first_char_of_pos p) as (c & r & E & _). rewrite E. discriminate.
Qed.

Lemma append_inj_l (a b c : string) : a ++ b = a ++ c -> b = c.
Proof. induction a; simpl; intros H; [exact H|]. injection H. auto. Qed.

Lemma append_length (a b : string) :
  String.length (a ++ b) = (String.length a + String.length b)%nat.
Proof. induction a; simpl; auto. Qed.

End Strings.

(** ** Floats and their text *)

Section Floats.

Lemma digits2_size p : digits2_pos p = Pos.size p.
Proof. induction p; simpl; congruence. Qed.

Lemma digits2_bounds p :
  2 ^ (Zpos (digits2_pos p) - 1) <= Zpos p < 2 ^ Zpos (digits2_pos p).
Proof.
  rewrite digits2_size. split.
  - pose proof (Pos.size_le p) as H.
    assert (Zpos (2 ^ Pos.size p) <= Zpos p~0) by (apply Pos2Z.pos_le_pos; exact H).
    rewrite Pos2Z.inj_pow in H0.
    replace (Zpos (Pos.size p)) with (Z.succ (Zpos (Pos.size p) - 1)) in H0 by lia.
    rewrite Z.pow_succ_r in H0 by lia. lia.
  - pose proof (Pos.size_gt p) as H.
    apply Pos2Z.pos_lt_pos in H. rewrite Pos2Z.inj_pow in H. exact H.
Qed.

Lemma iter_pos_nat {A} (f : A -> A) p x : iter_pos f p x = Nat.iter (Pos.to_nat p) f x.
Proof.
  revert x. induction p as [p IH|p IH|]; intros x; simpl iter_pos.
  - rewrite !IH, Pos2Nat.inj_xI, <- Nat.iter_add.
    replace (S (2 * Pos.to_nat p)) with (S (Pos.to_nat p + Pos.to_nat p))%nat by lia.
    rewrite Nat.iter_succ_r. reflexivity.
  - rewrite !IH, Pos2Nat.inj_xO, <- Nat.iter_add. f_equal. lia.
  - reflexivity.
Qed.

Lemma shl_nat_value n m : Zpos (Nat.iter n xO m) = Zpos m * 2 ^ Z.of_nat n.
Proof.
  induction n as [|n IH]; [simpl; lia|].
  rewrite Nat2Z.inj_succ, Z.pow_succ_r by lia. simpl Nat.iter.
  rewrite Pos2Z.inj_xO, IH. lia.
Qed.

Lemma shr_exact_nat n m :
  Nat.iter n shr_1 (Build_shr_record (Zpos (Nat.iter n xO m)) false false)
  = Build_shr_record (Zpos m) false false.
Proof.
  induction n as [|n IH]; [reflexivity|].
  rewrite Nat.iter_succ_r. exact IH.
Qed.

Lemma digits2_shl n m :
  Zpos (digits2_pos (Nat.iter n xO m)) = Zpos (digits2_pos m) + Z.of_nat n.
Proof.
  induction n as [|n IH]; [simpl; lia|].
  simpl Nat.iter. simpl digits2_pos. rewrite Pos2Z.inj_succ, IH. lia.
Qed.

Lemma round_exact s m e t :
  bounded 53 1024 m e = true ->
  binary_round_aux 53 1024 s (Zpos (Nat.iter t xO m)) (e - Z.of_nat t) loc_Exact
  = S754_finite s m e.
Proof.
  intros Hb. apply andb_prop in Hb as [Hc He].
  unfold canonical_mantissa in Hc. apply Z.eqb_eq in Hc. apply Z.leb_le in He.
  unfold binary_round_aux.
  assert (H1 : shr_fexp 53 1024 (Zpos (Nat.iter t xO m)) (e - Z.of_nat t) loc_Exact
               = (Build_shr_record (Zpos m) false false, e)).
  { unfold shr_fexp. cbn [Zdigits2 shr_record_of_loc].
    rewrite digits2_shl.
    replace (Zpos (digits2_pos m) + Z.of_nat t + (e - Z.of_nat t))
      with (Zpos (digits2_pos m) + e) by lia.
    rewrite Hc.
    replace (e - (e - Z.of_nat t)) with (Z.of_nat t) by lia.
    destruct t as [|t]; [simpl; f_equal; lia|].
    change (Z.of_nat (S t)) with (Zpos (Pos.of_succ_nat t)). cbn [shr].
    rewrite iter_pos_nat, SuccNat2Pos.id_succ, shr_exact_nat. f_equal. lia. }
  rewrite H1. cbn [shr_m loc_of_shr_record round_nearest_even].
  unfold shr_fexp. cbn [Zdigits2 shr_record_of_loc]. rewrite Hc, Z.sub_diag.
  cbn [shr shr_m].
  replace (e <=? 1024 - 53) with true by (symmetry; apply Z.leb_le; exact He).
  reflexivity.
Qed.

Lemma fexp_mono a b : a <= b -> fexp 53 1024 a <= fexp 53 1024 b.
Proof. unfold fexp, emin. lia. Qed.

Lemma div_core_exact m e N D :
  bounded 53 1024 m e = true ->
  Zpos N * 2 ^ Z.max (- e) 0 = Zpos D * Zpos m * 2 ^ Z.max e 0 ->
  exists t,
    SFdiv_core_binary 53 1024 (Zpos N) 0 (Zpos D) 0
    = (Zpos (Nat.iter t xO m), e - Z.of_nat t, loc_Exact).
Proof.
  intros Hb Hv. apply andb_prop in Hb as [Hc He].
  unfold canonical_mantissa in Hc. apply Z.eqb_eq in Hc.
  pose proof (digits2_bounds N) as [HN1 HN2].
  pose proof (digits2_bounds D) as [HD1 HD2].
  pose proof (digits2_bounds m) as [Hm1 Hm2].
  set (d1 := Zpos (digits2_pos N)) in *.
  set (d2 := Zpos (digits2_pos D)) in *.
  set (dm := Zpos (digits2_pos m)) in *.
  assert (Hd : d1 - d2 <= dm + e).
  { assert (H : 2 ^ (d1 - 1 + Z.max (- e) 0) < 2 ^ (d2 + dm + Z.max e 0)).
    { rewrite !Z.pow_add_r by (subst d1 d2 dm; lia).
      apply Z.le_lt_trans with (Zpos N * 2 ^ Z.max (- e) 0).
      - apply Z.mul_le_mono_nonneg_r; [apply Z.pow_nonneg; lia | exact HN1].
      - rewrite Hv. apply Z.mul_lt_mono_pos_r; [apply Z.pow_pos_nonneg; lia|].
        apply Z.mul_lt_mono_nonneg; lia. }
    apply Z.pow_lt_mono_r_iff in H; [lia | lia | subst d2 dm; lia]. }
  unfold SFdiv_core_binary. cbn [Zdigits2]. fold d1 d2.
  rewrite !Z.add_0_r, Z.sub_diag.
  set (e' := Z.min (fexp 53 1024 (d1 - d2)) 0).
  assert (He' : e' <= e /\ e' <= 0).
  { pose proof (fexp_mono _ _ Hd). fold dm in Hc. subst e'. lia. }
  exists (Z.to_nat (e - e')).
  assert (Hq : Zpos N * 2 ^ (- e') = Zpos D * (Zpos m * 2 ^ (e - e'))).
  { destruct (Z.le_gt_cases 0 e) as [H0|H0].
    - rewrite Z.max_r, Z.max_l in Hv by lia. rewrite Z.pow_0_r, Z.mul_1_r in Hv.
      rewrite Hv. replace (e - e') with (e + - e') by lia.
      rewrite Z.pow_add_r by lia. ring.
    - rewrite Z.max_l, Z.max_r in Hv by lia. rewrite Z.pow_0_r, Z.mul_1_r in Hv.
      replace (- e') with (- e + (e - e')) by lia.
      rewrite Z.pow_add_r by lia. rewrite Z.mul_assoc, Hv. ring. }
  assert (Hm' : match 0 - e' with
                | Zpos _ => Z.shiftl (Zpos N) (0 - e')
                | Z0 => Zpos N
                | Zneg _ => 0
                end = Zpos D * (Zpos m * 2 ^ (e - e'))).
  { rewrite <- Hq. replace (0 - e') with (- e') by lia.
    destruct (- e') as [|p|p] eqn:E.
    - rewrite Z.pow_0_r. lia.
    - rewrite Z.shiftl_mul_pow2 by lia. reflexivity.
    - lia. }
  rewrite Hm'.
  assert (Hdiv : Z.div_eucl (Zpos D * (Zpos m * 2 ^ (e - e'))) (Zpos D)
                 = (Zpos m * 2 ^ (e - e'), 0)).
  { pose proof (Z.div_eucl_eq (Zpos D * (Zpos m * 2 ^ (e - e'))) (Zpos D)) as H.
    pose proof (Z.mod_pos_bound (Zpos D * (Zpos m * 2 ^ (e - e'))) (Zpos D)) as Hr.
    unfold Z.modulo in Hr.
    destruct (Z.div_eucl _ _) as [q r]. specialize (H ltac:(lia)).
    specialize (Hr ltac:(lia)). simpl in Hr.
    assert (r = 0 /\ q = Zpos m * 2 ^ (e - e')) as [-> ->]; [|reflexivity].
    assert (Zpos D * (Zpos m * 2 ^ (e - e') - q) = r) by lia.
    assert (Zpos m * 2 ^ (e - e') - q = 0) by nia. split; nia. }
  rewrite Hdiv.
  rewrite shl_nat_value, Z2Nat.id by lia.
  unfold new_location, new_location_even, new_location_odd.
  replace (e - (e - e')) with e' by lia.
  destruct (Z.even (Zpos D)); reflexivity.
Qed.

(** A quotient of two integers that is a binary64 value is what the
    division gives, without rounding. *)
Lemma SFdiv_exact s m e N D :
  bounded 53 1024 m e = true ->
  Zpos N * 2 ^ Z.max (- e) 0 = Zpos D * Zpos m * 2 ^ Z.max e 0 ->
  SFdiv 53 1024 (S754_finite s N 0) (S754_finite false D 0) = S754_finite s m e.
Proof.
  intros Hb Hv. destruct (div_core_exact m e N D Hb Hv) as [t Ht].
  unfold SFdiv. rewrite Ht. rewrite xorb_false_r. apply round_exact, Hb.
Qed.

Lemma no_space_app a b :
  no_space a = true -> no_space b = true -> no_space (a ++ b) = true.
Proof.
  intros Ha Hb. induction a as [|c a IH]; simpl; [exact Hb|].
  simpl in Ha. apply andb_prop in Ha as [Hc Ha]. rewrite Hc. apply IH, Ha.
Qed.

Lemma append_empty_r (a : string) : a ++ EmptyString = a.
Proof. induction a as [|c a IH]; simpl; [|rewrite IH]; reflexivity. Qed.

(** A run of digits is read whole, up to the end or to the [e] behind it. *)
Lemma digit_run_uint d acc n ready rest :
  d <> Nil \/ ready = true ->
  rest = EmptyString \/ (exists r, rest = String "e" r) ->
  Py.digit_run (NilEmpty.string_of_uint d ++ rest) acc n ready
  = Some (uint_val d acc, n + Z.of_nat (nb_digits d), rest).
Proof.
  intros H Hrest. revert acc n ready H.
  induction d; intros acc n ready H; cbn [NilEmpty.string_of_uint append uint_val nb_digits];
    try (cbn [Py.digit_run];
         (change (Py.digit_of _) with (Some 0%N) ||
          change (Py.digit_of _) with (Some 1%N) ||
          change (Py.digit_of _) with (Some 2%N) ||
          change (Py.digit_of _) with (Some 3%N) ||
          change (Py.digit_of _) with (Some 4%N) ||
          change (Py.digit_of _) with (Some 5%N) ||
          change (Py.digit_of _) with (Some 6%N) ||
          change (Py.digit_of _) with (Some 7%N) ||
          change (Py.digit_of _) with (Some 8%N) ||
          change (Py.digit_of _) with (Some 9%N));
         cbv iota beta; rewrite IHd by (right; reflexivity);
         rewrite ?N.add_0_r;
         replace (n + Z.of_nat (S (nb_digits d)))
           with (n + 1 + Z.of_nat (nb_digits d)) by lia;
         reflexivity).
  destruct H as [H | ->]; [congruence|].
  rewrite Z.add_0_r.
  destruct Hrest as [-> | [r ->]]; reflexivity.
Qed.

Lemma nb_digits_pos d : d <> Nil -> (0 < nb_digits d)%nat.
Proof. destruct d; simpl; try congruence; lia. Qed.

Lemma exponent_str_of_int E : E <= 0 -> Py.exponent (Py.str_of_int E) = Some E.
Proof.
  destruct E as [|p|p]; intros H; [reflexivity | lia |].
  unfold Py.exponent, Py.str_of_int.
  rewrite <- (append_empty_r (NilEmpty.string_of_uint (Pos.to_uint p))).
  rewrite digit_run_uint
    by (first [left; apply DecimalPos.Unsigned.to_uint_nonnil | left; reflexivity]).
  pose proof (nb_digits_pos _ (DecimalPos.Unsigned.to_uint_nonnil p)) as Hn.
  destruct (Z.eqb_spec (0 + Z.of_nat (nb_digits (Pos.to_uint p))) 0); [lia|].
  rewrite uint_val_of_uint, DecimalPos.Unsigned.of_to. reflexivity.
Qed.

Lemma lower_uint_no_name d rest :
  d <> Nil ->
  String.eqb (Py.lower (NilEmpty.string_of_uint d ++ rest)) "inf" = false
  /\ String.eqb (Py.lower (NilEmpty.string_of_uint d ++ rest)) "infinity" = false
  /\ String.eqb (Py.lower (NilEmpty.string_of_uint d ++ rest)) "nan" = false.
Proof. destruct d; intros H; try congruence; repeat split. Qed.

Lemma float_unsigned (neg : bool) body :
  no_space body = true ->
  (forall c r, body = String c r -> c <> "+"%char /\ c <> "-"%char) ->
  String.eqb (Py.lower body) "inf" = false ->
  String.eqb (Py.lower body) "infinity" = false ->
  String.eqb (Py.lower body) "nan" = false ->
  Py.float ((if neg then "-" else EmptyString) ++ body)
  = option_map (fun '(m, e) => Py.of_decimal neg m e) (Py.decimal_literal body).
Proof.
  intros Hs Hc H1 H2 H3. unfold Py.float.
  rewrite unpad_no_space by (destruct neg; simpl; exact Hs).
  destruct neg; cbn [append].
  - cbv beta iota zeta. rewrite H1, H2, H3. reflexivity.
  - destruct body as [|c r]; [reflexivity|].
    destruct (Hc c r eq_refl) as [Hp Hm].
    destruct c as [[] [] [] [] [] [] [] []]; try congruence;
      cbv beta iota zeta; rewrite H1, H2, H3; reflexivity.
Qed.

(** A number written as its digits, an [e] and a power of ten is read as
    that number. *)
Lemma float_digits_exponent (neg : bool) p X E :
  no_space X = true -> Py.exponent X = Some E ->
  Py.float ((if neg then "-" else EmptyString)
            ++ Py.str_of_int (Zpos p) ++ String "e" X)
  = Some (Py.of_decimal neg (Npos p) E).
Proof.
  intros HX HE. cbn [Py.str_of_int].
  pose proof (DecimalPos.Unsigned.to_uint_nonnil p) as Hd.
  destruct (lower_uint_no_name (Pos.to_uint p) (String "e" X) Hd) as (H1 & H2 & H3).
  rewrite float_unsigned; try assumption.
  - unfold Py.decimal_literal.
    rewrite digit_run_uint by (first [left; exact Hd | right; eexists; reflexivity]).
    cbv beta iota zeta.
    pose proof (nb_digits_pos _ Hd) as Hn.
    destruct (Z.eqb_spec (0 + Z.of_nat (nb_digits (Pos.to_uint p)) + 0) 0); [lia|].
    change (Ascii.eqb "e" "e" || Ascii.eqb "e" "E") with true. cbv iota.
    rewrite HE. cbn [option_map].
    rewrite uint_val_of_uint, DecimalPos.Unsigned.of_to, Z.sub_0_r. reflexivity.
  - apply no_space_app; [apply no_space_uint | simpl; exact HX].
  - intros c r E0. destruct (first_char_of_pos p) as (c' & r' & E' & Hc).
    rewrite E' in E0. injection E0 as <- _. exact Hc.
Qed.

(** A binary64 value written out in full is read as itself. *)
Lemma float_exact_text s m e :
  bounded 53 1024 m e = true ->
  Py.float (Py.exact_text s m e) = Some (S754_finite s m e).
Proof.
  intros Hb. unfold Py.exact_text.
  destruct (Z.leb_spec 0 e) as [He|He].
  - assert (HN : exists N, Zpos m * 2 ^ e = Zpos N).
    { pose proof (Z.pow_pos_nonneg 2 e ltac:(lia) He).
      destruct (Zpos m * 2 ^ e) as [|N|N] eqn:E; [lia | eauto | lia]. }
    destruct HN as [N HN]. rewrite HN.
    rewrite (float_digits_exponent s N "0" 0) by reflexivity.
    f_equal. unfold Py.of_decimal.
    apply SFdiv_exact; [exact Hb|].
    rewrite (Z.max_r (- e) 0), (Z.max_l e 0) by lia.
    change (Z.max 0 0) with 0. change (Z.max (- 0) 0) with 0.
    change (Z.to_pos (10 ^ 0)) with 1%positive.
    rewrite Pos.mul_1_r, <- HN, Z.pow_0_r. ring.
  - assert (HN : exists N, Zpos m * 5 ^ (- e) = Zpos N).
    { pose proof (Z.pow_pos_nonneg 5 (- e) ltac:(lia) ltac:(lia)).
      destruct (Zpos m * 5 ^ (- e)) as [|N|N] eqn:E; [lia | eauto | lia]. }
    destruct HN as [N HN]. rewrite HN.
    change ("e" ++ Py.str_of_int e) with (String "e" (Py.str_of_int e)).
    rewrite (float_digits_exponent s N (Py.str_of_int e) e)
      by (first [apply str_of_int_no_space | apply exponent_str_of_int; lia]).
    f_equal. unfold Py.of_decimal.
    apply SFdiv_exact; [exact Hb|].
    rewrite (Z.max_l (- e) 0), (Z.max_r e 0) by lia.
    rewrite Z.pow_0_r.
    change (Z.to_pos 1) with 1%positive. rewrite Pos.mul_1_r.
    rewrite Z2Pos.id by (apply Z.pow_pos_nonneg; lia).
    rewrite <- HN. replace 10 with (5 * 2) by reflexivity.
    rewrite Z.pow_mul_l. ring.
Qed.

Lemma shortest_reads x neg m e p10 ns t :
  Py.shortest x neg m e p10 ns = Some t -> Py.reads_as x t = true.
Proof.
  induction ns as [|n ns IH]; simpl; [discriminate|].
  destruct (find (Py.reads_as x) (Py.candidates neg m e p10 n)) as [t'|] eqn:E.
  - intros [= <-]. apply find_some in E. apply E.
  - exact IH.
Qed.

(** [float(str(x)) == x] for every binary64 value [x] but NaN. *)
Theorem float_str_of_float x :
  valid_binary 53 1024 x = true -> not_nan x ->
  float_reads_back Py.str_of_float x.
Proof.
  intros Hv Hn. unfold float_reads_back.
  destruct x as [s|s| |s m e].
  - exists (S754_zero s). destruct s; split; reflexivity.
  - exists (S754_infinity s). destruct s; split; reflexivity.
  - discriminate Hn.
  - cbn [Py.str_of_float].
    destruct (Py.shortest _ _ _ _ _ _) as [t|] eqn:E.
    + apply shortest_reads in E. unfold Py.reads_as in E.
      destruct (Py.float t) as [y|]; [|discriminate].
      exists y. split; [reflexivity | exact E].
    + exists (S754_finite s m e). split; [apply float_exact_text, Hv | exact Hn].
Qed.

End Floats.

(** ** The rule store: [add_rule] *)

Section AddRule.

Variable str_of_float : spec_float -> string.
Variable makedirs : filesystem -> string -> bool * filesystem.

Lemma add_rule_bad_direction ct sg dir bh sat hm hp atd s :
  dir <> "increases" -> dir <> "decreases" ->
  CellRules.add_rule ct sg dir bh sat hm hp atd s
  = (Raise (ValueError (InvalidDirection dir)), s).
Proof.
  intros H1 H2. unfold CellRules.add_rule.
  apply String.eqb_neq in H1, H2. rewrite H1, H2. reflexivity.
Qed.

Lemma add_rule_bad_apply_to_dead ct sg dir bh sat hm hp atd s :
  Py.int_value atd <> 0 -> Py.int_value atd <> 1 ->
  exists e, CellRules.add_rule ct sg dir bh sat hm hp atd s = (Raise e, s)
            /\ condition_of e = InvalidArgument.
Proof.
  intros H1 H2. unfold CellRules.add_rule.
  apply Z.eqb_neq in H1, H2. rewrite H1, H2.
  destruct (negb _); eexists; split; reflexivity.
Qed.

Lemma add_rule_valid ct sg dir bh sat hm hp atd s :
  dir = "increases" \/ dir = "decreases" ->
  Py.int_value atd = 0 \/ Py.int_value atd = 1 ->
  CellRules.add_rule ct sg dir bh sat hm hp atd s
  = (Ok tt,
     CellRules.with_rules
       (CellRules.rules s ++ [CellRules.Build_rule ct sg dir bh sat hm hp atd]) s).
Proof.
  intros Hd Ha. unfold CellRules.add_rule.
  replace (String.eqb dir "increases" || String.eqb dir "decreases") with true
    by (symmetry; destruct Hd as [-> | ->]; reflexivity).
  replace ((Py.int_value atd =? 0) || (Py.int_value atd =? 1)) with true
    by (symmetry; destruct Ha as [-> | ->]; reflexivity).
  reflexivity.
Qed.

(** The export returns when there is a rule, the directories can be made
    and the path can be opened; the table it leaves is one row per rule. *)
Lemma save_rules_rows fs fs1 path s :
  CellRules.rules s <> [] ->
  makedirs fs (CellRules.directory_of path) = (true, fs1) ->
  path <> EmptyString -> fs1 path <> Unusable ->
  CellRules.save_rules_to_csv str_of_float makedirs fs path s
  = (Ok tt,
     write_file fs1 path
       (Table (map (CellRules.row_of_rule str_of_float) (CellRules.rules s)))).
Proof.
  intros Hr Hm Hn Hp. unfold CellRules.save_rules_to_csv.
  destruct (CellRules.rules s) eqn:E; [congruence|].
  rewrite Hm. apply String.eqb_neq in Hn. rewrite Hn.
  destruct (fs1 path); [reflexivity | congruence | reflexivity].
Qed.

Lemma write_file_same fs path f : write_file fs path f path = f.
Proof. unfold write_file. rewrite String.eqb_refl. reflexivity. Qed.


(** Whenever the export returns, there was a rule, the directories were
    made, and the file system is the one they left with the table at the
    path. *)
Lemma save_rules_returned fs fs' path s :
  CellRules.save_rules_to_csv str_of_float makedirs fs path s = (Ok tt, fs') ->
  CellRules.rules s <> [] /\ path <> EmptyString
  /\ exists fs1,
       makedirs fs (CellRules.directory_of path) = (true, fs1)
       /\ fs1 path <> Unusable
       /\ fs' = write_file fs1 path
                 (Table (map (CellRules.row_of_rule str_of_float) (CellRules.rules s))).
Proof.
  unfold CellRules.save_rules_to_csv.
  destruct (CellRules.rules s) eqn:E; [discriminate|].
  destruct (makedirs fs (CellRules.directory_of path)) as [[|] fs1]; [|discriminate].
  destruct (String.eqb_spec path EmptyString) as [Hn|Hn]; [discriminate|].
  intros H. split; [discriminate|]. split; [exact Hn|].
  exists fs1. split; [reflexivity|].
  destruct (fs1 path) eqn:Ep; try discriminate H;
    (split; [discriminate|]); injection H as <-; reflexivity.
Qed.

(** C3.  [add_rule] raises the InvalidArgument condition, and leaves the
    store as it was, for every direction other than exactly "increases" or
    "decreases" and for every apply_to_dead that equals neither 0 nor 1; for
    every other argument tuple (an apply_to_dead of 0, 1, [False] or [True])
    it returns, the new rule is the last one of the rule list behind the
    rules that were there, in their order, and that is the order [get_rules]
    reads and [save_rules_to_csv] writes: the export returns when the
    directories can be made and the path can be opened, and whenever it
    returns the path holds one row per rule in that order. *)
Theorem add_rule_validates_and_appends ct sg dir bh sat hm hp atd s :
  ((dir <> "increases" /\ dir <> "decreases")
   \/ (Py.int_value atd <> 0 /\ Py.int_value atd <> 1) ->
     exists e, CellRules.add_rule ct sg dir bh sat hm hp atd s = (Raise e, s)
               /\ condition_of e = InvalidArgument)
  /\ ((dir = "increases" \/ dir = "decreases")
      /\ (Py.int_value atd = 0 \/ Py.int_value atd = 1) ->
     exists s',
       CellRules.add_rule ct sg dir bh sat hm hp atd s = (Ok tt, s')
       /\ CellRules.rulesets s' = CellRules.rulesets s
       /\ CellRules.get_rules s'
          = (CellRules.get_rules s
             ++ [CellRules.Build_rule ct sg dir bh sat hm hp atd])%list
       /\ (forall fs fs1 path,
             makedirs fs (CellRules.directory_of path) = (true, fs1) ->
             path <> EmptyString -> fs1 path <> Unusable ->
             CellRules.save_rules_to_csv str_of_float makedirs fs path s'
             = (Ok tt,
                write_file fs1 path
                  (Table (map (CellRules.row_of_rule str_of_float) (CellRules.get_rules s)
                          ++ [CellRules.row_of_rule str_of_float
                                (CellRules.Build_rule ct sg dir bh sat hm hp atd)]))))
       /\ (forall fs fs' path,
             CellRules.save_rules_to_csv str_of_float makedirs fs path s' = (Ok tt, fs') ->
             fs' path
             = Table (map (CellRules.row_of_rule str_of_float) (CellRules.get_rules s)
                      ++ [CellRules.row_of_rule str_of_float
                            (CellRules.Build_rule ct sg dir bh sat hm hp atd)]))).
Proof.
  split.
  - intros [[H1 H2] | [H1 H2]].
    + rewrite add_rule_bad_direction by assumption.
      eexists; split; reflexivity.
    + apply add_rule_bad_apply_to_dead; assumption.
  - intros [Hd Ha]. rewrite (add_rule_valid _ _ _ _ _ _ _ _ _ Hd Ha).
    eexists; split; [reflexivity|]. split; [reflexivity|]. split; [reflexivity|].
    split.
    + intros fs fs1 path Hm Hn Hp. rewrite (save_rules_rows fs fs1); try assumption.
      * simpl. unfold CellRules.get_rules. rewrite map_app. reflexivity.
      * simpl. destruct (CellRules.rules s); discriminate.
    + intros fs fs' path H.
      apply save_rules_returned in H as [_ [_ [fs1 [_ [_ ->]]]]].
      rewrite write_file_same. simpl. unfold CellRules.get_rules.
      rewrite map_app. reflexivity.
Qed.

End AddRule.

(** Rules added one after the other are read in the order they were added. *)
Example add_rule_twice :
  let s0 := CellRules.init in
  let s1 := snd (CellRules.add_rule "tumor" "oxygen" "increases" "cycle entry"
                   PhysiBoSS.f0 PhysiBoSS.f10 PhysiBoSS.f12 0 s0) in
  let s2 := snd (CellRules.add_rule "tumor" "pressure" "decreases" "cycle entry"
                   PhysiBoSS.f0 PhysiBoSS.f10 PhysiBoSS.f12 1 s1) in
  map CellRules.signal (CellRules.get_rules s2) = ["oxygen"; "pressure"]
  /\ fst (CellRules.add_rule "tumor" "oxygen" "Increases" "x"
            PhysiBoSS.f0 PhysiBoSS.f0 PhysiBoSS.f0 0 s2)
     = Raise (ValueError (InvalidDirection "Increases"))
  /\ fst (CellRules.add_rule "tumor" "oxygen" "increases" "x"
            PhysiBoSS.f0 PhysiBoSS.f0 PhysiBoSS.f0 2 s2)
     = Raise (ValueError (InvalidApplyToDead 2)).
Proof. repeat split. Qed.

(** ** The boolean-network module *)

Section BooleanNetwork.

Variable str_of_float : spec_float -> string.

(** C8.  While the module is disabled, each of the five mutators raises the
    InvalidState condition and leaves the module as it was, and [add_to_xml]
    returns the parent without a new child; after [enable_physiboss] the
    settings carry time_step 12.0, scaling 10.0 and start_time 0.0. *)
Theorem disabled_refuses_and_enable_sets_defaults s :
  PhysiBoSS.enabled s = false ->
  (forall x, PhysiBoSS.set_time_step x s = (Raise (ValueError MustBeEnabledFirst), s))
  /\ (forall x, PhysiBoSS.set_scaling x s = (Raise (ValueError MustBeEnabledFirst), s))
  /\ (forall node v,
        PhysiBoSS.add_initial_value node v s = (Raise (ValueError MustBeEnabledFirst), s))
  /\ (forall line node v,
        PhysiBoSS.add_mutation line node v s = (Raise (ValueError MustBeEnabledFirst), s))
  /\ (forall name x,
        PhysiBoSS.add_parameter name x s = (Raise (ValueError MustBeEnabledFirst), s))
  /\ condition_of (ValueError MustBeEnabledFirst) = InvalidState
  /\ (forall parent, PhysiBoSS.add_to_xml str_of_float s parent = parent)
  /\ (forall model_file iv mu pa,
        exists st,
          PhysiBoSS.get_settings (PhysiBoSS.enable_physiboss model_file iv mu pa s)
          = Some st
          /\ Py.float "12.0" = Some (PhysiBoSS.time_step st)
          /\ Py.float "10.0" = Some (PhysiBoSS.scaling st)
          /\ Py.float "0.0" = Some (PhysiBoSS.start_time st)).
Proof.
  intros H. repeat split.
  - intros x. unfold PhysiBoSS.set_time_step. rewrite H. reflexivity.
  - intros x. unfold PhysiBoSS.set_scaling. rewrite H. reflexivity.
  - intros. unfold PhysiBoSS.add_initial_value. rewrite H. reflexivity.
  - intros. unfold PhysiBoSS.add_mutation. rewrite H. reflexivity.
  - intros. unfold PhysiBoSS.add_parameter. rewrite H. reflexivity.
  - intros parent. unfold PhysiBoSS.add_to_xml. rewrite H. reflexivity.
  - intros. eexists. split; [reflexivity|]. vm_compute. repeat split.
Qed.

End BooleanNetwork.

Lemma disabled_refuses_witness :
  PhysiBoSS.enabled PhysiBoSS.init = false
  /\ PhysiBoSS.set_time_step PhysiBoSS.f10 PhysiBoSS.init
     = (Raise (ValueError MustBeEnabledFirst), PhysiBoSS.init).
Proof.
  split; [reflexivity|].
  apply (disabled_refuses_and_enable_sets_defaults (fun _ => EmptyString)
           PhysiBoSS.init eq_refl).
Defined.

(** ** The XML codec of the rule store: [add_to_xml] *)

(** C7.  With no ruleset registered, [add_to_xml] appends to the parent a
    [cell_rules] element whose [rulesets] child holds exactly one [ruleset],
    with protocol "CBHG", version "3.0", format "csv", enabled "false" and the
    children [folder] "./config" and [filename] "cell_rules.csv"; and with any
    store the appended [cell_rules] element has two children, a [rulesets]
    element and, last, a [settings] element with no text, attribute or
    child. *)
Theorem add_to_xml_placeholder_and_settings :
  (forall s tag attrib text children,
     CellRules.rulesets s = [] ->
     CellRules.add_to_xml s (ET.Elem tag attrib text children)
     = ET.Elem tag attrib text
         (children ++
          [ET.Elem "cell_rules" [] None
             [ET.Elem "rulesets" [] None
                [ET.Elem "ruleset"
                   [("protocol", "CBHG"); ("version", "3.0");
                    ("format", "csv"); ("enabled", "false")]
                   None
                   [ET.Elem "folder" [] (Some "./config") [];
                    ET.Elem "filename" [] (Some "cell_rules.csv") []]];
              ET.Elem "settings" [] None []]]))
  /\ (forall s tag attrib text children,
        exists rulesets_children,
          CellRules.add_to_xml s (ET.Elem tag attrib text children)
          = ET.Elem tag attrib text
              (children ++
               [ET.Elem "cell_rules" [] None
                  [ET.Elem "rulesets" [] None rulesets_children;
                   ET.Elem "settings" [] None []]])).
Proof.
  split.
  - intros s tag attrib text children H. unfold CellRules.add_to_xml.
    rewrite H. reflexivity.
  - intros s tag attrib text children. unfold CellRules.add_to_xml.
    assert (G : forall d e, exists c,
               fold_left (fun elem (kv : string * CellRules.ruleset) =>
                            ET.append (CellRules.ruleset_elem (snd kv)) elem) d e
               = ET.Elem (ET.tag e) (ET.attrib e) (ET.text e) c).
    { induction d as [|kv d IH]; intros e; simpl.
      - exists (ET.children e). destruct e; reflexivity.
      - destruct (IH (ET.append (CellRules.ruleset_elem (snd kv)) e)) as [c Hc].
        exists c. rewrite Hc. destruct e; reflexivity. }
    destruct (CellRules.rulesets s) as [|kv d] eqn:E.
    + eexists. reflexivity.
    + destruct (G (kv :: d) (create_element "rulesets" None)) as [c Hc].
      exists c. rewrite Hc. reflexivity.
Qed.

(** ** The table codec: [load_rules_from_csv] *)

Section TableImport.

Lemma build_rule_condition row e :
  CellRules.build_rule row = Raise e -> condition_of e = FormatError.
Proof.
  unfold CellRules.build_rule, CellRules.to_float, CellRules.to_int.
  repeat match goal with
         | |- context [match ?x with Some _ => _ | None => _ end] => destruct x
         end; intros [=]; subst; reflexivity.
Qed.

Lemma build_rule_raises_iff row :
  (exists e, CellRules.build_rule row = Raise e)
  <-> (Py.float (CellRules.field row 4) = None
       \/ Py.float (CellRules.field row 5) = None
       \/ Py.float (CellRules.field row 6) = None
       \/ Py.int (CellRules.field row 7) = None).
Proof.
  unfold CellRules.build_rule, CellRules.to_float, CellRules.to_int.
  destruct (Py.float (CellRules.field row 4));
    [|split; [auto | intros _; eexists; reflexivity]].
  destruct (Py.float (CellRules.field row 5));
    [|split; [auto | intros _; eexists; reflexivity]].
  destruct (Py.float (CellRules.field row 6));
    [|split; [auto | intros _; eexists; reflexivity]].
  destruct (Py.int (CellRules.field row 7));
    [|split; [auto | intros _; eexists; reflexivity]].
  split; [intros [e [=]] | intros [H|[H|[H|H]]]; discriminate].
Qed.

(** The import stops at a row exactly when the row is [malformed]. *)
Lemma read_row_raises_iff row :
  (exists e, CellRules.read_row row = Raise e) <-> malformed row.
Proof.
  unfold CellRules.read_row, malformed.
  destruct (CellRules.blank_row row).
  - split; [intros [e [=]] | intros [[=] _]].
  - destruct (Nat.ltb_spec (List.length row) 8) as [Hlt|Hge].
    + split; [intros _; split; auto | intros _; eexists; reflexivity].
    + rewrite <- build_rule_raises_iff.
      destruct (CellRules.build_rule row) as [r|e].
      * split; [intros [e [=]] | intros [_ [H|[e [=]]]]; lia].
      * split; [intros _; split; [reflexivity|right; eexists; reflexivity]
               | intros _; eexists; reflexivity].
Qed.

Lemma read_row_condition row e :
  CellRules.read_row row = Raise e -> condition_of e = FormatError.
Proof.
  unfold CellRules.read_row.
  destruct (CellRules.blank_row row); [discriminate|].
  destruct (List.length row <? 8)%nat; [intros [=]; subst; reflexivity|].
  destruct (CellRules.build_rule row) eqn:E; [discriminate|].
  intros [=]; subst. eapply build_rule_condition, E.
Qed.

(** A blank row is passed over. *)
Lemma load_rows_blank row rest s :
  CellRules.blank_row row = true ->
  CellRules.load_rows (row :: rest) s = CellRules.load_rows rest s.
Proof. intros H. simpl. unfold CellRules.read_row. rewrite H. reflexivity. Qed.

Lemma load_rows_skip_blanks blanks rest s :
  Forall (fun row => CellRules.blank_row row = true) blanks ->
  CellRules.load_rows (blanks ++ rest) s = CellRules.load_rows rest s.
Proof.
  induction 1 as [|row blanks H _ IH]; [reflexivity|].
  rewrite <- app_comm_cons, load_rows_blank by exact H. exact IH.
Qed.

Lemma with_rules_nil s : CellRules.with_rules (CellRules.rules s ++ []) s = s.
Proof. rewrite app_nil_r. destruct s; reflexivity. Qed.

(** The rows before the first malformed one are appended, in their order,
    behind the rules the store had; the import then stops. *)
Lemma load_rows_prefix good s tail :
  Forall (fun row => ~ malformed row) good ->
  CellRules.load_rows (good ++ tail) s
  = CellRules.load_rows tail
      (CellRules.with_rules (CellRules.rules s ++ rules_of_rows good) s).
Proof.
  intros H. revert s. induction H as [|row good Hrow _ IH]; intros s.
  - simpl. rewrite with_rules_nil. reflexivity.
  - simpl. rewrite <- read_row_raises_iff in Hrow.
    destruct (CellRules.read_row row) as [[r|]|e].
    + rewrite IH. simpl. rewrite <- app_assoc. reflexivity.
    + apply IH.
    + exfalso. apply Hrow. eexists; reflexivity.
Qed.

(** A table without a malformed row is imported whole: its rules are
    appended behind the rules the store had. *)
Lemma load_rows_all rows s :
  Forall (fun row => ~ malformed row) rows ->
  CellRules.load_rows rows s
  = (Ok tt, CellRules.with_rules (CellRules.rules s ++ rules_of_rows rows) s).
Proof.
  intros H. rewrite <- (app_nil_r rows) at 1.
  rewrite (load_rows_prefix _ _ _ H). reflexivity.
Qed.

Lemma first_malformed rows :
  (exists row, In row rows /\ malformed row) ->
  exists good bad rest,
    rows = (good ++ bad :: rest)%list
    /\ Forall (fun row => ~ malformed row) good /\ malformed bad.
Proof.
  induction rows as [|row rows IH]; intros (bad & Hin & Hbad); [destruct Hin|].
  destruct (CellRules.read_row row) as [o|e] eqn:E.
  - assert (Hrow : ~ malformed row).
    { rewrite <- read_row_raises_iff. intros [e He]. congruence. }
    destruct Hin as [->|Hin]; [contradiction|].
    destruct IH as (good & bad' & rest & -> & Hgood & Hbad');
      [exists bad; auto|].
    exists (row :: good), bad', rest.
    split; [reflexivity | split; [constructor; assumption | assumption]].
  - exists [], row, rows.
    split; [reflexivity | split; [constructor|]].
    rewrite <- read_row_raises_iff. eexists; exact E.
Qed.

(** A missing file is reported as such, and nothing is imported. *)
Lemma load_missing_file fs filename s :
  fs filename = NoSuchFile ->
  CellRules.load_rules_from_csv fs filename s
  = (Raise (FileNotFoundError filename), s)
  /\ condition_of (FileNotFoundError filename) = NotFound.
Proof.
  intros H. unfold CellRules.load_rules_from_csv. rewrite H. split; reflexivity.
Qed.

(** What the import stores of a row: the four names trimmed, the four numbers
    as [float] and [int] read their fields, the flag an integer proper. *)
Lemma build_rule_fields row r :
  CellRules.build_rule row = Ok r ->
  CellRules.cell_type r = Py.strip (CellRules.field row 0)
  /\ CellRules.signal r = Py.strip (CellRules.field row 1)
  /\ CellRules.direction r = Py.strip (CellRules.field row 2)
  /\ CellRules.behavior r = Py.strip (CellRules.field row 3)
  /\ Py.float (CellRules.field row 4) = Some (CellRules.saturation_value r)
  /\ Py.float (CellRules.field row 5) = Some (CellRules.half_max r)
  /\ Py.float (CellRules.field row 6) = Some (CellRules.hill_power r)
  /\ exists n, Py.int (CellRules.field row 7) = Some n
               /\ CellRules.apply_to_dead r = Py.Int n.
Proof.
  unfold CellRules.build_rule, CellRules.to_float, CellRules.to_int.
  repeat match goal with
         | |- context [match ?x with Some _ => _ | None => _ end] =>
             destruct x; [|discriminate]
         end.
  intros [= <-]. simpl. repeat split. eexists; split; reflexivity.
Qed.

Lemma build_rule_firstn row :
  (8 <= List.length row)%nat ->
  CellRules.build_rule row = CellRules.build_rule (firstn 8 row).
Proof.
  intros _. unfold CellRules.build_rule, CellRules.field.
  rewrite !nth_firstn. reflexivity.
Qed.

(** The rule of a row whose four numbers parse. *)
Lemma build_rule_parsed row x5 x6 x7 x8 :
  Py.float (nth 4 row EmptyString) = Some x5 ->
  Py.float (nth 5 row EmptyString) = Some x6 ->
  Py.float (nth 6 row EmptyString) = Some x7 ->
  Py.int (nth 7 row EmptyString) = Some x8 ->
  CellRules.build_rule row = Ok (rule_of_fields row x5 x6 x7 x8).
Proof.
  intros H5 H6 H7 H8.
  unfold CellRules.build_rule, CellRules.to_float, CellRules.to_int, CellRules.field.
  rewrite H5, H6, H7, H8. reflexivity.
Qed.

(** [float] refuses a text made of whitespace, so that a field it reads is
    not blank. *)
Lemma all_space_skip_blanks s :
  Py.all_space s = true -> Py.all_space (Py.skip_blanks s) = true.
Proof.
  induction s as [|c r IH]; simpl; [reflexivity|].
  intros H. destruct (Py.is_blank c); [apply andb_prop in H as [_ H]; auto|].
  exact H.
Qed.

Lemma all_space_drop_last_blanks s :
  Py.all_space s = true -> Py.all_space (Py.drop_last_blanks s) = true.
Proof.
  induction s as [|c r IH]; simpl; [reflexivity|].
  intros H. apply andb_prop in H as [Hc Hr]. specialize (IH Hr).
  destruct (Py.drop_last_blanks r) as [|c' r'].
  - destruct (Py.is_blank c); simpl; [reflexivity|]. rewrite Hc. reflexivity.
  - change (Py.is_space c && Py.all_space (String c' r') = true).
    rewrite Hc, IH. reflexivity.
Qed.

Lemma float_all_space s : Py.all_space s = true -> Py.float s = None.
Proof.
  intros H. apply all_space_skip_blanks, all_space_drop_last_blanks in H.
  unfold Py.float. fold (Py.unpad s) in H.
  destruct (Py.unpad s) as [|c r]; [reflexivity|].
  simpl in H. apply andb_prop in H as [Hc _].
  destruct c as [[] [] [] [] [] [] [] []]; try discriminate Hc; reflexivity.
Qed.

Lemma float_not_blank s x : Py.float s = Some x -> Py.strip s <> EmptyString.
Proof.
  intros H E. apply strip_empty_iff, float_all_space in E. congruence.
Qed.

Lemma blank_row_field row i :
  (i < List.length row)%nat -> Py.strip (nth i row EmptyString) <> EmptyString ->
  CellRules.blank_row row = false.
Proof.
  intros Hi Hne. unfold CellRules.blank_row.
  destruct (forallb _ row) eqn:E; [|reflexivity].
  rewrite forallb_forall in E.
  specialize (E _ (nth_In row EmptyString Hi)).
  apply String.eqb_eq in E. contradiction.
Qed.

Lemma build_rule_no_column_error row n r :
  CellRules.build_rule row <> Raise (ValueError (ExpectedColumns n r)).
Proof.
  unfold CellRules.build_rule, CellRules.to_float, CellRules.to_int.
  repeat match goal with
         | |- context [match ?x with Some _ => _ | None => _ end] => destruct x
         end; discriminate.
Qed.

(** The column-count error is raised for the rows that are not blank and
    have fewer than 8 fields, and for no other row. *)
Lemma column_error_iff row :
  (exists n r, CellRules.read_row row = Raise (ValueError (ExpectedColumns n r)))
  <-> CellRules.blank_row row = false /\ (List.length row < 8)%nat.
Proof.
  unfold CellRules.read_row.
  destruct (CellRules.blank_row row).
  - split; [intros (n & r & [=]) | intros [[=] _]].
  - destruct (Nat.ltb_spec (List.length row) 8).
    + split; [auto | intros _; eexists; eexists; reflexivity].
    + split; [|intros [_ H']; lia].
      intros (n & r & E).
      destruct (CellRules.build_rule row) eqn:E'; [discriminate|].
      injection E as ->. exfalso. exact (build_rule_no_column_error _ _ _ E').
Qed.

(** C10, amended.  A row with more than 8 fields whose columns 5 to 8 parse
    as numbers is not blank, and the import appends one rule for it behind
    the rules of the store: the rule whose four names are the first four
    fields trimmed and whose four numbers are what [float] and [int] read in
    the fifth to eighth fields.  The fields behind the eighth play no part:
    the first eight fields alone are read as the same rule.  The length of a
    row is a reason to refuse it only when the row is not blank and has fewer
    than 8 fields.  A row with more than 8 fields is still refused, as a
    FormatError, when it is not blank and one of its columns 5 to 8 does not
    parse, and it is passed over when it is blank. *)
Theorem extra_fields_are_ignored row x5 x6 x7 x8 :
  (8 < List.length row)%nat ->
  Py.float (nth 4 row EmptyString) = Some x5 ->
  Py.float (nth 5 row EmptyString) = Some x6 ->
  Py.float (nth 6 row EmptyString) = Some x7 ->
  Py.int (nth 7 row EmptyString) = Some x8 ->
  let r :=
    {| CellRules.cell_type := Py.strip (nth 0 row EmptyString);
       CellRules.signal := Py.strip (nth 1 row EmptyString);
       CellRules.direction := Py.strip (nth 2 row EmptyString);
       CellRules.behavior := Py.strip (nth 3 row EmptyString);
       CellRules.saturation_value := x5;
       CellRules.half_max := x6;
       CellRules.hill_power := x7;
       CellRules.apply_to_dead := Py.Int x8 |} in
  CellRules.blank_row row = false
  /\ (forall fs filename before after s,
        fs filename = Table (before ++ row :: after) ->
        Forall (fun row' => CellRules.blank_row row' = true) before ->
        Forall (fun row' => CellRules.blank_row row' = true) after ->
        CellRules.load_rules_from_csv fs filename s
        = (Ok tt, CellRules.with_rules (CellRules.rules s ++ [r]) s))
  /\ (forall rest s,
        CellRules.load_rows (row :: rest) s
        = CellRules.load_rows rest
            (CellRules.with_rules (CellRules.rules s ++ [r]) s))
  /\ CellRules.read_row (firstn 8 row) = Ok (Some r)
  /\ (forall row' : list string,
        (exists n r', CellRules.read_row row' = Raise (ValueError (ExpectedColumns n r')))
        <-> CellRules.blank_row row' = false /\ (List.length row' < 8)%nat)
  /\ (forall row' : list string,
        (8 < List.length row')%nat -> CellRules.blank_row row' = false ->
        Py.float (nth 4 row' EmptyString) = None
        \/ Py.float (nth 5 row' EmptyString) = None
        \/ Py.float (nth 6 row' EmptyString) = None
        \/ Py.int (nth 7 row' EmptyString) = None ->
        exists e,
          (forall rest s, CellRules.load_rows (row' :: rest) s = (Raise e, s))
          /\ condition_of e = FormatError)
  /\ (forall row' : list string,
        (8 < List.length row')%nat -> CellRules.blank_row row' = true ->
        forall rest s,
          CellRules.load_rows (row' :: rest) s = CellRules.load_rows rest s).
Proof.
  intros Hlen H5 H6 H7 H8 r.
  assert (Hb : CellRules.blank_row row = false).
  { apply (blank_row_field row 4); [lia|]. eapply float_not_blank, H5. }
  assert (Hr : CellRules.read_row row = Ok (Some r)).
  { unfold CellRules.read_row. rewrite Hb.
    destruct (Nat.ltb_spec (List.length row) 8); [lia|].
    rewrite (build_rule_parsed row x5 x6 x7 x8) by assumption. reflexivity. }
  split; [exact Hb|]. split; [|split; [|split; [|split; [|split]]]].
  - intros fs filename before after s Hfs Hbefore Hafter.
    unfold CellRules.load_rules_from_csv. rewrite Hfs.
    rewrite (load_rows_skip_blanks _ _ _ Hbefore). simpl. rewrite Hr.
    rewrite <- (app_nil_r after), (load_rows_skip_blanks _ _ _ Hafter).
    reflexivity.
  - intros rest s. simpl. rewrite Hr. reflexivity.
  - unfold CellRules.read_row.
    rewrite (blank_row_field (firstn 8 row) 4).
    + rewrite length_firstn.
      destruct (Nat.ltb_spec (Nat.min 8 (List.length row)) 8); [lia|].
      rewrite <- build_rule_firstn by lia.
      rewrite (build_rule_parsed row x5 x6 x7 x8) by assumption. reflexivity.
    + rewrite length_firstn. lia.
    + rewrite nth_firstn. simpl. eapply float_not_blank, H5.
  - exact column_error_iff.
  - intros row' _ Hb' Hbad.
    destruct (proj2 (read_row_raises_iff row')) as [e He].
    { split; [exact Hb' | right; exact Hbad]. }
    exists e. split; [|eapply read_row_condition, He].
    intros rest s. simpl. rewrite He. reflexivity.
  - intros row' _ Hb' rest s. apply load_rows_blank, Hb'.
Qed.

End TableImport.

(** C10, as the claim states it, fails: a row with nine fields whose fifth
    field is no number is refused, and no rule is built from it; and a blank
    row with nine fields is passed over, and no rule is built from it
    either. *)
Lemma long_row_can_be_refused :
  (8 < List.length long_row_abc)%nat
  /\ CellRules.load_rules_from_csv (one_file "rules.csv" [long_row_abc])
       "rules.csv" CellRules.init
     = (Raise (ValueError (CouldNotConvertToFloat "abc")), CellRules.init)
  /\ condition_of (ValueError (CouldNotConvertToFloat "abc")) = FormatError
  /\ (8 < List.length long_row_blank)%nat
  /\ CellRules.load_rules_from_csv (one_file "rules.csv" [long_row_blank])
       "rules.csv" CellRules.init
     = (Ok tt, CellRules.init).
Proof.
  split; [simpl; lia|]. split; [vm_compute; reflexivity|].
  split; [reflexivity|]. split; [simpl; lia|]. vm_compute. reflexivity.
Qed.

Lemma extra_fields_witness :
  CellRules.load_rules_from_csv (one_file "rules.csv" [long_row]) "rules.csv"
    CellRules.init
  = (Ok tt, CellRules.with_rules [good_rule] CellRules.init)
  /\ CellRules.read_row (firstn 8 long_row) = Ok (Some good_rule).
Proof.
  pose proof (extra_fields_are_ignored long_row
                (CellRules.saturation_value good_rule)
                (CellRules.half_max good_rule)
                (CellRules.hill_power good_rule) 0
                ltac:(simpl; lia) eq_refl eq_refl eq_refl eq_refl) as H.
  destruct H as (_ & Hload & _ & Hfirst & _).
  split; [|exact Hfirst].
  exact (Hload (one_file "rules.csv" [long_row]) "rules.csv" [] []
           CellRules.init eq_refl (Forall_nil _) (Forall_nil _)).
Defined.

Example extra_fields_rule :
  CellRules.read_row ["tumor"; "oxygen"; "increases"; "cycle entry";
                      "1.0"; "0.5"; "4"; "0"; "a comment"]
  = Ok (Some {| CellRules.cell_type := "tumor"; CellRules.signal := "oxygen";
                CellRules.direction := "increases";
                CellRules.behavior := "cycle entry";
                CellRules.saturation_value := S754_finite false 4503599627370496 (-52);
                CellRules.half_max := S754_finite false 4503599627370496 (-53);
                CellRules.hill_power := S754_finite false 4503599627370496 (-50);
                CellRules.apply_to_dead := 0 |}).
Proof. vm_compute. reflexivity. Qed.

Example good_row_rule : CellRules.read_row good_row = Ok (Some good_rule).
Proof. vm_compute. reflexivity. Qed.




(** C4, at the input where the code leaves it.  A row whose eighth column is
    "2" is imported, and the rule it makes has apply_to_dead 2, a value that
    [add_rule] refuses. *)
Theorem import_accepts_apply_to_dead_2 :
  CellRules.load_rules_from_csv (one_file "rules.csv" [row_with_2])
    "rules.csv" CellRules.init
  = (Ok tt,
     CellRules.with_rules
       [{| CellRules.cell_type := "tumor"; CellRules.signal := "oxygen";
           CellRules.direction := "increases";
           CellRules.behavior := "cycle entry";
           CellRules.saturation_value := CellRules.saturation_value good_rule;
           CellRules.half_max := CellRules.half_max good_rule;
           CellRules.hill_power := CellRules.hill_power good_rule;
           CellRules.apply_to_dead := 2 |}] CellRules.init)
  /\ fst (CellRules.add_rule "tumor" "oxygen" "increases" "cycle entry"
            (CellRules.saturation_value good_rule) (CellRules.half_max good_rule)
            (CellRules.hill_power good_rule) 2 CellRules.init)
     = Raise (ValueError (InvalidApplyToDead 2)).
Proof. split; vm_compute; reflexivity. Qed.

(** The rest of what C4 says of the import holds: a missing file is NotFound
    ([load_missing_file]), a blank row is passed over ([load_rows_blank]), the
    names are stored trimmed and the numbers as read from their fields, the
    blanks around them skipped ([build_rule_fields], [float_unpad],
    [int_unpad]), a table without malformed row is appended behind
    the rules of the store ([load_rows_all]), and a row that is not blank and
    has fewer than 8 fields, or a numeric column that does not parse, makes
    the import raise FormatError: *)
Lemma import_refuses_short_or_unparsable fs filename rows row s :
  fs filename = Table rows -> In row rows ->
  CellRules.blank_row row = false ->
  (List.length row < 8)%nat
  \/ Py.float (CellRules.field row 4) = None
  \/ Py.float (CellRules.field row 5) = None
  \/ Py.float (CellRules.field row 6) = None
  \/ Py.int (CellRules.field row 7) = None ->
  exists e, fst (CellRules.load_rules_from_csv fs filename s) = Raise e
            /\ condition_of e = FormatError.
Proof.
  intros Hfs Hin Hb Hbad.
  destruct (first_malformed rows) as (good & bad & rest & -> & Hgood & Hbad').
  { exists row. split; [exact Hin | split; assumption]. }
  rewrite <- read_row_raises_iff in Hbad'. destruct Hbad' as [e He].
  exists e. split; [|eapply read_row_condition, He].
  unfold CellRules.load_rules_from_csv. rewrite Hfs.
  rewrite (load_rows_prefix _ _ _ Hgood). simpl. rewrite He. reflexivity.
Qed.

(** ** The XML codec of the rule store: [load_from_xml] *)

Section LoadXml.

Lemma mem_true_In {V} k (d : Dict.dict V) :
  Dict.mem k d = true -> In k (Dict.keys d).
Proof.
  unfold Dict.mem. induction d as [|[k' v] d IH]; simpl; [discriminate|].
  destruct (String.eqb_spec k' k); [left; assumption | right; auto].
Qed.

Lemma mem_false_not_In {V} k (d : Dict.dict V) :
  Dict.mem k d = false -> ~ In k (Dict.keys d).
Proof.
  unfold Dict.mem. induction d as [|[k' v] d IH]; simpl; [tauto|].
  destruct (String.eqb_spec k' k); [discriminate|].
  intros H [E|Hin]; [contradiction | exact (IH H Hin)].
Qed.

(** Assigning a key that is not there puts it last. *)
Lemma set_fresh {V} k (v : V) d :
  Dict.mem k d = false -> Dict.set k v d = (d ++ [(k, v)])%list.
Proof.
  unfold Dict.mem. induction d as [|[k' v'] d IH]; simpl; [reflexivity|].
  destruct (String.eqb_spec k' k); [discriminate|].
  intros H. rewrite (IH H). reflexivity.
Qed.

Lemma candidate_longer base k :
  (String.length base < String.length (candidate base (S k)))%nat.
Proof. unfold candidate. rewrite append_length. simpl. lia. Qed.

Lemma candidate_inj base i j : candidate base i = candidate base j -> i = j.
Proof.
  destruct i as [|i], j as [|j]; intros H.
  - reflexivity.
  - pose proof (candidate_longer base j) as L. rewrite <- H in L. simpl in L. lia.
  - pose proof (candidate_longer base i) as L. rewrite H in L. simpl in L. lia.
  - unfold candidate in H. apply append_inj_l in H.
    apply (append_inj_l "_") in H. apply str_of_int_inj in H. lia.
Qed.

Lemma NoDup_candidates base n k : NoDup (map (candidate base) (seq k n)).
Proof.
  apply Injective_map_NoDup; [|apply seq_NoDup].
  intros i j. apply candidate_inj.
Qed.

(** What the loop returns: the first candidate that is not a key yet; and
    when it runs out of fuel, every candidate it tried is a key. *)
Lemma unique_name_first fuel d base k :
  match CellRules.unique_name fuel d base (candidate base k) (Z.of_nat (S k)) with
  | Some name =>
      exists j, (k <= j < k + fuel)%nat /\ name = candidate base j
                /\ Dict.mem name d = false
                /\ forall i, (k <= i < j)%nat -> Dict.mem (candidate base i) d = true
  | None =>
      forall i, (k <= i < k + fuel)%nat -> Dict.mem (candidate base i) d = true
  end.
Proof.
  revert k. induction fuel as [|fuel IH]; intros k;
    cbn [CellRules.unique_name]; [intros i; lia|].
  destruct (Dict.mem (candidate base k) d) eqn:E.
  - replace (Z.of_nat (S k) + 1) with (Z.of_nat (S (S k))) by lia.
    change (base ++ "_" ++ Py.str_of_int (Z.of_nat (S k))) with (candidate base (S k)).
    specialize (IH (S k)).
    destruct (CellRules.unique_name fuel d base (candidate base (S k))
                (Z.of_nat (S (S k)))) as [name|].
    + destruct IH as (j & Hj & -> & Hm & Hbelow).
      exists j. split; [lia|]. split; [reflexivity|]. split; [exact Hm|].
      intros i Hi. destruct (Nat.eq_dec i k) as [->|]; [exact E | apply Hbelow; lia].
    + intros i Hi. destruct (Nat.eq_dec i k) as [->|]; [exact E | apply IH; lia].
  - exists k. split; [lia|]. split; [reflexivity|]. split; [exact E|]. intros i; lia.
Qed.

(** The loop ends within the fuel [load_ruleset] gives it. *)
Lemma unique_name_total d base :
  exists k,
    CellRules.unique_name (S (List.length d)) d base base 1 = Some (candidate base k)
    /\ Dict.mem (candidate base k) d = false
    /\ forall i, (i < k)%nat -> Dict.mem (candidate base i) d = true.
Proof.
  pose proof (unique_name_first (S (List.length d)) d base 0) as H.
  change (candidate base 0) with base in H. change (Z.of_nat 1) with 1 in H.
  destruct (CellRules.unique_name (S (List.length d)) d base base 1) as [name|].
  - destruct H as (j & _ & -> & Hm & Hbelow).
    exists j. split; [reflexivity|]. split; [exact Hm|].
    intros i Hi. apply Hbelow. lia.
  - exfalso.
    assert (L : (List.length (map (candidate base) (seq 0 (S (List.length d))))
                 <= List.length (Dict.keys d))%nat).
    { apply NoDup_incl_length; [apply NoDup_candidates|].
      intros x Hx. apply in_map_iff in Hx as (i & <- & Hi).
      apply in_seq in Hi. apply mem_true_In, H. lia. }
    unfold Dict.keys in L. rewrite !length_map, length_seq in L. lia.
Qed.

Lemma get_default elem key default :
  ET.get elem key default
  = match Dict.get key (ET.attrib elem) with Some v => v | None => default end.
Proof. reflexivity. Qed.

(** An element with both children is registered, under the first candidate
    name that is free. *)
Lemma load_ruleset_both elem folder_elem filename_elem d :
  ET.find elem "folder" = Some folder_elem ->
  ET.find elem "filename" = Some filename_elem ->
  exists k,
    CellRules.load_ruleset elem d
    = Some (d ++ [(candidate (stem_of filename_elem) k,
                   entry_of elem folder_elem filename_elem)])%list
    /\ Dict.mem (candidate (stem_of filename_elem) k) d = false
    /\ forall i, (i < k)%nat -> Dict.mem (candidate (stem_of filename_elem) i) d = true.
Proof.
  intros Hf Hn. unfold CellRules.load_ruleset. rewrite Hf, Hn.
  destruct (unique_name_total d (stem_of filename_elem)) as (k & Hk & Hm & Hbelow).
  unfold stem_of in Hk. rewrite Hk.
  exists k. split; [|split; assumption].
  rewrite set_fresh by exact Hm. unfold entry_of. rewrite !get_default.
  destruct (Dict.get "enabled" (ET.attrib elem)); reflexivity.
Qed.

(** An element without one of the two children is passed over. *)
Lemma load_ruleset_skips elem d :
  ET.find elem "folder" = None \/ ET.find elem "filename" = None ->
  CellRules.load_ruleset elem d = Some d.
Proof.
  intros [H|H]; unfold CellRules.load_ruleset; rewrite H;
    [|destruct (ET.find elem "folder")]; reflexivity.
Qed.

Lemma load_ruleset_keys elem d :
  NoDup (Dict.keys d) ->
  exists d', CellRules.load_ruleset elem d = Some d' /\ NoDup (Dict.keys d').
Proof.
  intros Hd.
  destruct (ET.find elem "folder") as [fe|] eqn:Hf;
    [destruct (ET.find elem "filename") as [ne|] eqn:Hn|].
  - destruct (load_ruleset_both elem fe ne d Hf Hn) as (k & -> & Hm & _).
    eexists. split; [reflexivity|].
    unfold Dict.keys. rewrite map_app. simpl.
    apply NoDup_app; [exact Hd | repeat constructor; simpl; tauto |].
    intros x Hx [<-|[]]. exact (mem_false_not_In _ _ Hm Hx).
  - exists d. split; [apply load_ruleset_skips; auto | exact Hd].
  - exists d. split; [apply load_ruleset_skips; auto | exact Hd].
Qed.

Lemma load_rulesets_total elems d :
  NoDup (Dict.keys d) ->
  exists d', CellRules.load_rulesets elems d = Some d' /\ NoDup (Dict.keys d').
Proof.
  revert d. induction elems as [|elem elems IH]; intros d Hd; simpl.
  - exists d. auto.
  - destruct (load_ruleset_keys elem d Hd) as (d1 & -> & H1). apply IH, H1.
Qed.

(** [load_from_xml] always returns: no name loop runs out of fuel.  With an
    element, the registry it leaves is made from the element alone. *)
Lemma load_from_xml_total xml_element :
  exists d, NoDup (Dict.keys d) /\
    forall s, CellRules.load_from_xml (Some xml_element) s
              = Some (CellRules.with_rulesets d s).
Proof.
  unfold CellRules.load_from_xml.
  destruct (ET.find xml_element "rulesets") as [rulesets_elem|].
  - destruct (load_rulesets_total (ET.findall rulesets_elem "ruleset") [])
      as (d & Hd & Hn); [constructor|].
    exists d. split; [exact Hn|]. intros s. rewrite Hd. reflexivity.
  - exists []. split; [constructor | reflexivity].
Qed.

End LoadXml.



Example bare_ruleset_gets_defaults :
  CellRules.load_from_xml
    (Some (cell_rules_doc
             [ET.Elem "ruleset" [] None
                [ET.Elem "folder" [] None []; ET.Elem "filename" [] (Some " my.rules.csv ") []]]))
    CellRules.init
  = Some (CellRules.with_rulesets
            [("my.rules",
              {| CellRules.folder := "./config"; CellRules.filename := "my.rules.csv";
                 CellRules.enabled := false; CellRules.protocol := "CBHG";
                 CellRules.version := "3.0"; CellRules.format := "csv" |})]
            CellRules.init).
Proof. reflexivity. Qed.

Section Stems.

Lemma rfind_from_without c s i : without c s = true -> Py.rfind_from c s i = -1.
Proof.
  unfold without.
  revert i. induction s as [|a r IH]; intros i; simpl; [reflexivity|].
  intros H. apply andb_prop in H as [Ha Hr]. rewrite (IH _ Hr).
  apply negb_true_iff in Ha. rewrite Ha. reflexivity.
Qed.

Lemma without_app c a b :
  without c a = true -> without c b = true -> without c (a ++ b) = true.
Proof.
  unfold without. intros Ha Hb. induction a as [|x a IH]; simpl; [exact Hb|].
  simpl in Ha. apply andb_prop in Ha as [Hx Ha]. rewrite Hx. apply IH, Ha.
Qed.

(** The last [c] of a text that has none behind it. *)
Lemma rfind_from_last c stem ext i :
  without c ext = true -> 0 <= i ->
  Py.rfind_from c (stem ++ String c ext) i = i + Z.of_nat (String.length stem).
Proof.
  intros He. revert i. induction stem as [|a stem IH]; intros i Hi.
  - simpl. rewrite (rfind_from_without _ _ _ He), Ascii.eqb_refl. simpl. lia.
  - cbn [append Py.rfind_from String.length]. rewrite IH by lia.
    destruct (Z.leb_spec 0 (i + 1 + Z.of_nat (String.length stem))); lia.
Qed.

Lemma substring_prefix a b : substring 0 (String.length a) (a ++ b) = a.
Proof. induction a as [|x a IH]; simpl; [destruct b|rewrite IH]; reflexivity. Qed.

Lemma substring_whole b : substring 0 (String.length b) b = b.
Proof. induction b as [|x b IH]; simpl; [|rewrite IH]; reflexivity. Qed.

Lemma substring_suffix a b :
  substring (String.length a) (String.length b) (a ++ b) = b.
Proof. induction a as [|x a IH]; simpl; [apply substring_whole | exact IH]. Qed.

Lemma only_dots_every s : Py.only_dots s = every (fun a => Ascii.eqb a ".") s.
Proof. induction s as [|a r IH]; simpl; [|rewrite IH]; reflexivity. Qed.

(** [os.path.splitext] strips the extension of a file name: it splits the
    name into its stem and the dot with the extension. *)
Lemma splitext_stem filename stem ext :
  stem_and_extension filename stem ext ->
  Py.splitext filename = (stem, "." ++ ext).
Proof.
  intros (-> & Hs & Hd & He & Hes).
  unfold Py.splitext, Py.rfind.
  change (stem ++ "." ++ ext) with (stem ++ String "." ext).
  rewrite (rfind_from_last "." stem ext 0 He) by lia.
  rewrite (rfind_from_without "/" (stem ++ String "." ext) 0)
    by (apply without_app; [exact Hs | simpl; exact Hes]).
  unfold Py.slice.
  replace (Z.to_nat (-1 + 1)) with 0%nat by reflexivity.
  replace (Z.to_nat (0 + Z.of_nat (String.length stem) - (-1 + 1)))
    with (String.length stem) by lia.
  replace (Z.to_nat 0) with 0%nat by reflexivity.
  replace (Z.to_nat (0 + Z.of_nat (String.length stem) - 0))
    with (String.length stem) by lia.
  replace (Z.to_nat (0 + Z.of_nat (String.length stem)))
    with (String.length stem) by lia.
  replace (Z.to_nat (Z.of_nat (String.length (stem ++ String "." ext))
                     - (0 + Z.of_nat (String.length stem))))
    with (String.length (String "." ext)) by (rewrite append_length; lia).
  rewrite substring_prefix, substring_suffix, only_dots_every, Hd.
  replace (-1 <? 0 + Z.of_nat (String.length stem)) with true
    by (symmetry; apply Z.ltb_lt; lia).
  reflexivity.
Qed.

(** A file name without dot and without slash has no extension to strip. *)
Lemma splitext_no_extension filename :
  without "." filename = true -> without "/" filename = true ->
  Py.splitext filename = (filename, EmptyString).
Proof.
  intros Hd Hs. unfold Py.splitext, Py.rfind.
  rewrite (rfind_from_without _ _ _ Hd), (rfind_from_without _ _ _ Hs).
  reflexivity.
Qed.

(** The name an element is registered under comes from the text of its
    [filename] child: the text trimmed, its extension stripped, and the
    first of the stem, the stem with "_1", the stem with "_2", ... that is
    free. *)
Lemma load_ruleset_named elem folder_elem filename_elem d text stem ext :
  ET.find elem "folder" = Some folder_elem ->
  ET.find elem "filename" = Some filename_elem ->
  ET.text filename_elem = Some text ->
  stem_and_extension (Py.strip text) stem ext ->
  exists k entry,
    CellRules.load_ruleset elem d = Some (d ++ [(candidate stem k, entry)])%list
    /\ CellRules.filename entry = stem ++ "." ++ ext
    /\ Dict.mem (candidate stem k) d = false
    /\ forall i, (i < k)%nat -> Dict.mem (candidate stem i) d = true.
Proof.
  intros Hf Hn Ht Hse.
  assert (Hname : CellRules.text_or filename_elem "cell_rules.csv" = Py.strip text).
  { unfold CellRules.text_or. rewrite Ht. destruct text as [|c r]; [|reflexivity].
    destruct Hse as (E & _). destruct stem; discriminate E. }
  assert (Hstem : stem_of filename_elem = stem).
  { unfold stem_of. rewrite Hname, (splitext_stem _ _ _ Hse). reflexivity. }
  destruct (load_ruleset_both elem folder_elem filename_elem d Hf Hn)
    as (k & Hk & Hm & Hbelow).
  rewrite Hstem in *.
  exists k, (entry_of elem folder_elem filename_elem).
  split; [exact Hk|]. split; [|split; assumption].
  cbn [entry_of CellRules.filename]. rewrite Hname. apply Hse.
Qed.

(** A [filename] child without text stands for "cell_rules.csv". *)
Lemma load_ruleset_unnamed elem folder_elem filename_elem d :
  ET.find elem "folder" = Some folder_elem ->
  ET.find elem "filename" = Some filename_elem ->
  ET.text filename_elem = None \/ ET.text filename_elem = Some EmptyString ->
  exists k entry,
    CellRules.load_ruleset elem d
    = Some (d ++ [(candidate "cell_rules" k, entry)])%list
    /\ CellRules.filename entry = "cell_rules.csv"
    /\ Dict.mem (candidate "cell_rules" k) d = false
    /\ forall i, (i < k)%nat -> Dict.mem (candidate "cell_rules" i) d = true.
Proof.
  intros Hf Hn Ht.
  assert (Hname : CellRules.text_or filename_elem "cell_rules.csv" = "cell_rules.csv").
  { unfold CellRules.text_or. destruct Ht as [-> | ->]; reflexivity. }
  assert (Hstem : stem_of filename_elem = "cell_rules").
  { unfold stem_of. rewrite Hname. reflexivity. }
  destruct (load_ruleset_both elem folder_elem filename_elem d Hf Hn)
    as (k & Hk & Hm & Hbelow).
  rewrite Hstem in *.
  exists k, (entry_of elem folder_elem filename_elem).
  split; [exact Hk|]. split; [|split; assumption].
  cbn [entry_of CellRules.filename]. exact Hname.
Qed.

End Stems.

(** C5.  [load_from_xml] without an element returns the store as it was.
    With an element it replaces the registry by one made from the element
    alone, whose names are pairwise different.  A [ruleset] element whose
    [filename] child reads, once trimmed, as a stem, a dot and an extension
    is registered with that file name under the first name that is free
    among the stem, the stem with "_1", the stem with "_2", and so on: the
    extension is stripped.  Two [ruleset] elements whose file names are
    "rules" with an extension are registered as "rules" and "rules_1", in
    this order. *)
Theorem load_from_xml_registry :
  (forall s, CellRules.load_from_xml None s = Some s)
  /\ (forall xml_element,
        exists d, NoDup (Dict.keys d) /\
          forall s, CellRules.load_from_xml (Some xml_element) s
                    = Some (CellRules.with_rulesets d s))
  /\ (forall elem folder_elem filename_elem d text stem ext,
        ET.find elem "folder" = Some folder_elem ->
        ET.find elem "filename" = Some filename_elem ->
        ET.text filename_elem = Some text ->
        stem_and_extension (Py.strip text) stem ext ->
        exists k entry,
          CellRules.load_ruleset elem d
          = Some (d ++ [(candidate stem k, entry)])%list
          /\ CellRules.filename entry = stem ++ "." ++ ext
          /\ Dict.mem (candidate stem k) d = false
          /\ forall i, (i < k)%nat -> Dict.mem (candidate stem i) d = true)
  /\ (forall xml_element rulesets_elem e1 f1 n1 t1 x1 e2 f2 n2 t2 x2 s,
        ET.find xml_element "rulesets" = Some rulesets_elem ->
        ET.findall rulesets_elem "ruleset" = [e1; e2] ->
        ET.find e1 "folder" = Some f1 -> ET.find e1 "filename" = Some n1 ->
        ET.find e2 "folder" = Some f2 -> ET.find e2 "filename" = Some n2 ->
        ET.text n1 = Some t1 -> stem_and_extension (Py.strip t1) "rules" x1 ->
        ET.text n2 = Some t2 -> stem_and_extension (Py.strip t2) "rules" x2 ->
        exists s',
          CellRules.load_from_xml (Some xml_element) s = Some s'
          /\ Dict.keys (CellRules.rulesets s') = ["rules"; "rules_1"]
          /\ map CellRules.filename (map snd (CellRules.rulesets s'))
             = ["rules." ++ x1; "rules." ++ x2]
          /\ CellRules.rules s' = CellRules.rules s).
Proof.
  split; [reflexivity|]. split; [apply load_from_xml_total|].
  split; [intros; eapply load_ruleset_named; eassumption|].
  intros xml_element rulesets_elem e1 f1 n1 t1 x1 e2 f2 n2 t2 x2 s
    Hx Hall Hf1 Hn1 Hf2 Hn2 Ht1 S1 Ht2 S2.
  unfold CellRules.load_from_xml. rewrite Hx, Hall. simpl.
  destruct (load_ruleset_named e1 f1 n1 [] t1 "rules" x1 Hf1 Hn1 Ht1 S1)
    as (k1 & r1 & -> & Hr1 & _ & Hb1).
  assert (k1 = 0%nat) as ->.
  { destruct k1; [reflexivity|]. specialize (Hb1 0%nat ltac:(lia)). discriminate. }
  simpl.
  destruct (load_ruleset_named e2 f2 n2 [("rules", r1)] t2 "rules" x2 Hf2 Hn2 Ht2 S2)
    as (k2 & r2 & -> & Hr2 & Hm2 & Hb2).
  assert (k2 = 1%nat) as ->.
  { destruct k2 as [|[|k2]]; [discriminate | reflexivity |].
    specialize (Hb2 1%nat ltac:(lia)). discriminate. }
  eexists. split; [reflexivity|]. split; [reflexivity|]. split; [|reflexivity].
  simpl. rewrite Hr1, Hr2. reflexivity.
Qed.

Lemma load_from_xml_registry_witness :
  exists s',
    CellRules.load_from_xml (Some two_rules_doc)
      (CellRules.add_ruleset "old" "./config" "old.csv" true CellRules.init)
    = Some s'
    /\ Dict.keys (CellRules.rulesets s') = ["rules"; "rules_1"]
    /\ map CellRules.filename (map snd (CellRules.rulesets s'))
       = ["rules." ++ "csv"; "rules." ++ "txt"]
    /\ CellRules.rules s' = [].
Proof.
  destruct load_from_xml_registry as (_ & _ & _ & H).
  refine (H two_rules_doc _ _ _ _ "rules.csv" "csv" _ _ _ " rules.txt " "txt"
            (CellRules.add_ruleset "old" "./config" "old.csv" true CellRules.init)
            eq_refl eq_refl eq_refl eq_refl eq_refl eq_refl eq_refl _ eq_refl _);
    repeat split.
Defined.

Example two_rules_files :
  option_map (fun s => Dict.keys (CellRules.rulesets s))
    (CellRules.load_from_xml
       (Some (cell_rules_doc
                [csv_ruleset_elem "./config" "rules.csv";
                 csv_ruleset_elem "./other" "rules.csv";
                 csv_ruleset_elem "./config" "rules_1.txt";
                 csv_ruleset_elem "./third" "rules.csv"]))
       (CellRules.add_ruleset "old" "./config" "old.csv" true CellRules.init))
  = Some ["rules"; "rules_1"; "rules_1_1"; "rules_2"].
Proof. reflexivity. Qed.

(** ** The table codec: export, then import *)

Section RoundTrip.

Variable str_of_float : spec_float -> string.

Lemma str_of_int_object_not_blank x :
  String.eqb (Py.strip (Py.str_of_int_object x)) EmptyString = false.
Proof.
  destruct x as [n|[|]]; [|reflexivity|reflexivity].
  simpl. rewrite (strip_no_space _ (str_of_int_no_space _)).
  apply String.eqb_neq, str_of_int_not_empty.
Qed.

Lemma row_of_rule_not_blank r :
  CellRules.blank_row (CellRules.row_of_rule str_of_float r) = false.
Proof.
  unfold CellRules.blank_row, CellRules.row_of_rule. cbn [forallb].
  rewrite str_of_int_object_not_blank.
  cbn [andb]. rewrite !andb_false_r. reflexivity.
Qed.

(** A rule the table keeps is read back, from the row written for it, as an
    equal rule. *)
Lemma read_row_of_rule r :
  kept_by_table r -> floats_read_back str_of_float r ->
  exists r', CellRules.read_row (CellRules.row_of_rule str_of_float r) = Ok (Some r')
             /\ rule_eqb r' r = true.
Proof.
  intros (Hc & Hs & Hd & Hb & (n & Hn) & N1 & N2 & N3) (F1 & F2 & F3).
  destruct (F1 N1) as (x1 & E1 & V1).
  destruct (F2 N2) as (x2 & E2 & V2).
  destruct (F3 N3) as (x3 & E3 & V3).
  unfold CellRules.read_row. rewrite row_of_rule_not_blank.
  change (List.length (CellRules.row_of_rule str_of_float r) <? 8)%nat with false.
  unfold CellRules.build_rule, CellRules.to_float, CellRules.to_int,
    CellRules.field, CellRules.row_of_rule. cbn [nth].
  rewrite E1, E2, E3, Hn. cbn [Py.str_of_int_object]. rewrite int_str_of_int.
  eexists. split; [reflexivity|].
  unfold rule_eqb. cbn [CellRules.cell_type CellRules.signal CellRules.direction
    CellRules.behavior CellRules.saturation_value CellRules.half_max
    CellRules.hill_power CellRules.apply_to_dead].
  unfold trimmed in Hc, Hs, Hd, Hb. rewrite Hc, Hs, Hd, Hb, Hn.
  rewrite !String.eqb_refl, V1, V2, V3, Z.eqb_refl. reflexivity.
Qed.

Lemma rows_of_rules_read rules :
  Forall kept_by_table rules ->
  Forall (floats_read_back str_of_float) rules ->
  Forall (fun row => ~ malformed row) (map (CellRules.row_of_rule str_of_float) rules)
  /\ rules_eqb (rules_of_rows (map (CellRules.row_of_rule str_of_float) rules)) rules
     = true.
Proof.
  induction 1 as [|r rules Hr _ IH]; intros Hf; simpl;
    [split; [constructor|reflexivity]|].
  inversion Hf as [|? ? Hfr Hfs]; subst.
  destruct (IH Hfs) as [IH1 IH2].
  destruct (read_row_of_rule r Hr Hfr) as (r' & E & V). split.
  - constructor; [|exact IH1].
    rewrite <- read_row_raises_iff. intros [e He]. congruence.
  - rewrite E. simpl. rewrite V, IH2. reflexivity.
Qed.

Lemma rules_eqb_length l1 l2 :
  rules_eqb l1 l2 = true -> List.length l1 = List.length l2.
Proof.
  revert l2. induction l1 as [|a l1 IH]; intros [|b l2]; simpl; try discriminate;
    [reflexivity|].
  intros H. apply andb_prop in H as [_ H]. f_equal. apply IH, H.
Qed.

(** The table written for rules the table keeps is imported whole into a
    fresh store, as an equal rule list. *)
Lemma import_of_exported fs path rules :
  Forall kept_by_table rules ->
  Forall (floats_read_back str_of_float) rules ->
  exists s',
    CellRules.load_rules_from_csv
      (write_file fs path (Table (map (CellRules.row_of_rule str_of_float) rules)))
      path CellRules.init = (Ok tt, s')
    /\ rules_eqb (CellRules.rules s') rules = true
    /\ List.length (CellRules.rules s') = List.length rules.
Proof.
  intros Hk Hf. destruct (rows_of_rules_read _ Hk Hf) as [Hrows Heq].
  eexists. unfold CellRules.load_rules_from_csv, write_file.
  rewrite String.eqb_refl, (load_rows_all _ _ Hrows). split; [reflexivity|].
  cbn [CellRules.rules CellRules.with_rules CellRules.init app].
  split; [exact Heq | apply rules_eqb_length, Heq].
Qed.

End RoundTrip.

(** The interpreter's [str] gives back the floats of every rule. *)
Lemma str_of_float_reads_back rules :
  Forall binary64_floats rules ->
  Forall (floats_read_back Py.str_of_float) rules.
Proof.
  apply Forall_impl. intros r (V1 & V2 & V3).
  split; [|split]; intros H; apply float_str_of_float; assumption.
Qed.

(** C1, amended.  For every store whose rule list is not empty and holds only
    rules the table keeps (names without whitespace at either end, an
    apply_to_dead that is an integer proper and not a [bool], no float that
    is NaN), the export returns when the directories can be made and the path
    can be opened, the import of the table it wrote into a fresh store
    returns, and the rule list the import leaves is equal to the exported
    one: as long, and at each place a rule equal to the exported rule, names
    and apply_to_dead equal, floats equal as values.  The floats are written
    by the interpreter's [str] and read by its [float]. *)
Theorem table_round_trip makedirs fs fs1 path s :
  CellRules.rules s <> [] ->
  makedirs fs (CellRules.directory_of path) = (true, fs1) ->
  path <> EmptyString -> fs1 path <> Unusable ->
  Forall binary64_floats (CellRules.rules s) ->
  Forall kept_by_table (CellRules.rules s) ->
  exists fs' s',
    CellRules.save_rules_to_csv Py.str_of_float makedirs fs path s = (Ok tt, fs')
    /\ CellRules.load_rules_from_csv fs' path CellRules.init = (Ok tt, s')
    /\ rules_eqb (CellRules.rules s') (CellRules.rules s) = true
    /\ List.length (CellRules.rules s') = List.length (CellRules.rules s).
Proof.
  intros Hne Hm Hn Hp Hv Hk.
  destruct (import_of_exported Py.str_of_float fs1 path _ Hk
              (str_of_float_reads_back _ Hv)) as (s' & Hs').
  eexists. exists s'.
  split; [apply (save_rules_rows _ _ fs fs1); assumption | exact Hs'].
Qed.

(** C1, as the claim states it, fails, in three ways.  The rule that
    [add_rule] stores for the cell type " tumor" is exported with the space
    and imported without it.  The rule that [add_rule] stores for an
    apply_to_dead of [True] is exported with the text [True], which the
    import refuses.  The rule that [add_rule] stores for a saturation value
    NaN is exported as [nan] and imported as NaN, which is equal to no
    value. *)
Lemma table_round_trip_fails :
  (map CellRules.cell_type (CellRules.rules padded_store) = [" tumor"]
   /\ CellRules.save_rules_to_csv Py.str_of_float makedirs_there
        (fun _ => NoSuchFile) "rules.csv" padded_store
      = (Ok tt, one_file "rules.csv" [padded_row])
   /\ CellRules.load_rules_from_csv (one_file "rules.csv" [padded_row])
        "rules.csv" CellRules.init
      = (Ok tt, CellRules.with_rules [good_rule] CellRules.init)
   /\ rules_eqb [good_rule] (CellRules.rules padded_store) = false)
  /\ (map CellRules.apply_to_dead (CellRules.rules flagged_store) = [Py.Bool true]
      /\ CellRules.save_rules_to_csv Py.str_of_float makedirs_there
           (fun _ => NoSuchFile) "rules.csv" flagged_store
         = (Ok tt, one_file "rules.csv" [flagged_row])
      /\ CellRules.load_rules_from_csv (one_file "rules.csv" [flagged_row])
           "rules.csv" CellRules.init
         = (Raise (ValueError (InvalidLiteralForInt "True")), CellRules.init))
  /\ (map CellRules.saturation_value (CellRules.rules nan_store) = [S754_nan]
      /\ CellRules.save_rules_to_csv Py.str_of_float makedirs_there
           (fun _ => NoSuchFile) "rules.csv" nan_store
         = (Ok tt, one_file "rules.csv" [nan_row])
      /\ CellRules.load_rules_from_csv (one_file "rules.csv" [nan_row])
           "rules.csv" CellRules.init
         = (Ok tt, nan_store)
      /\ rules_eqb (CellRules.rules nan_store) (CellRules.rules nan_store) = false).
Proof.
  split; [|split].
  - split; [reflexivity|]. split; [vm_compute; reflexivity|].
    split; vm_compute; reflexivity.
  - split; [reflexivity|]. split; vm_compute; reflexivity.
  - split; [reflexivity|]. split; [vm_compute; reflexivity|].
    split; vm_compute; reflexivity.
Qed.

Lemma table_round_trip_witness :
  exists fs' s',
    CellRules.save_rules_to_csv Py.str_of_float makedirs_there
      (fun _ => NoSuchFile) "rules.csv" good_store = (Ok tt, fs')
    /\ CellRules.load_rules_from_csv fs' "rules.csv" CellRules.init = (Ok tt, s')
    /\ rules_eqb (CellRules.rules s') (CellRules.rules good_store) = true
    /\ List.length (CellRules.rules s') = List.length (CellRules.rules good_store).
Proof.
  apply (table_round_trip makedirs_there
           (fun _ => NoSuchFile) (fun _ => NoSuchFile) "rules.csv" good_store).
  - discriminate.
  - reflexivity.
  - discriminate.
  - discriminate.
  - constructor; [|constructor]. split; [reflexivity|]. split; reflexivity.
  - constructor; [|constructor].
    unfold kept_by_table, not_nan, trimmed.
    split; [reflexivity|]. split; [reflexivity|].
    split; [reflexivity|]. split; [reflexivity|].
    split; [exists 0; reflexivity|].
    split; [reflexivity|]. split; reflexivity.
Defined.

Example good_store_rows :
  map (CellRules.row_of_rule Py.str_of_float) (CellRules.rules good_store)
  = [good_row].
Proof. vm_compute. reflexivity. Qed.

(** ** The definitions at work *)

Example strip_ex : Py.strip "  a b  " = "a b" /\ Py.strip "   " = EmptyString.
Proof. split; reflexivity. Qed.

Example int_ex :
  map Py.int [" 12 "; "-7"; "1_000"; "1__0"; "_1"; EmptyString; "+ 1"; "1.0"; "01"; "2"]
  = [Some 12; Some (-7); Some 1000; None; None; None; None; None; Some 1; Some 2].
Proof. reflexivity. Qed.

Example str_of_int_ex :
  map Py.str_of_int [0; 5; -42; 1000] = ["0"; "5"; "-42"; "1000"].
Proof. reflexivity. Qed.

Example float_ex :
  map Py.float [" 2.5 "; "-0.5e1"; "1_0."; ".5"; "."; "1e"; "abc"; "-Infinity"; "4"; EmptyString]
  = [Some (S754_finite false 5629499534213120 (-51));
     Some (S754_finite true 5629499534213120 (-50));
     Some (S754_finite false 5629499534213120 (-49));
     Some (S754_finite false 4503599627370496 (-53));
     None; None; None; Some (S754_infinity true);
     Some (S754_finite false 4503599627370496 (-50)); None].
Proof. vm_compute. reflexivity. Qed.

(** [str] of a float: positional notation up to sixteen places, exponent
    notation beyond and below a ten-thousandth, the shortest digits that
    read back. *)
Example str_of_float_ex :
  map Py.str_of_float
    [S754_finite false 4503599627370496 (-52);
     S754_finite true 5629499534213120 (-51);
     S754_finite false 7205759403792794 (-56);
     S754_finite false 5404319552844595 (-54);
     S754_finite false 5000000000000000 1;
     S754_finite false 4768371582031250 21;
     S754_finite false 7737125245533627 (-86);
     S754_finite false 7378697629483821 (-66);
     S754_finite false 1 (-1074);
     S754_finite false 9007199254740991 971;
     S754_zero true; S754_infinity true; S754_nan]
  = ["1.0"; "-2.5"; "0.1"; "0.3"; "1e+16"; "1e+22"; "1e-10"; "0.0001"; "5e-324";
     "1.7976931348623157e+308"; "-0.0"; "-inf"; "nan"].
Proof. vm_compute. reflexivity. Qed.

(** The separators 28..31 are whitespace for [strip] and no blank for [int]
    and [float], which refuse a text that starts with one. *)
Example separators_ex :
  Py.strip (String (ascii_of_nat 29) "7") = "7"
  /\ Py.int (String (ascii_of_nat 29) "7") = None
  /\ Py.float (String (ascii_of_nat 28) "1.0") = None
  /\ Py.int " 7 " = Some 7.
Proof. repeat split. Qed.

Example dirname_ex :
  map Py.dirname ["rules.csv"; "out/rules.csv"; "/rules.csv"; "a/b/c.csv"; "a//b";
                  "//x"; "a/"; EmptyString]
  = [EmptyString; "out"; "/"; "a/b"; "a"; "//"; "a"; EmptyString].
Proof. reflexivity. Qed.

Example splitext_ex :
  map Py.splitext ["rules.csv"; "a.b/c"; ".hidden"; "x/..rc.txt"; "cell_rules.tar.gz"]
  = [("rules", ".csv"); ("a.b/c", EmptyString); (".hidden", EmptyString);
     ("x/..rc", ".txt"); ("cell_rules.tar", ".gz")].
Proof. reflexivity. Qed.

(** A row of eight blank fields followed by a ninth that is not blank is not
    passed over, and its empty fifth column does not parse. *)
Example blank_fields_then_text :
  CellRules.read_row (repeat EmptyString 8 ++ ["x"])
  = Raise (ValueError (CouldNotConvertToFloat EmptyString))
  /\ CellRules.read_row (" " :: repeat EmptyString 8) = Ok None
  /\ CellRules.read_row [] = Ok None.
Proof. repeat split. Qed.

(** One registered ruleset, as the [cell_rules] fragment shows it. *)
Example one_ruleset_fragment :
  CellRules.add_to_xml
    (CellRules.add_ruleset "r1" "./cfg" "cell_rules.csv" true CellRules.init)
    (ET.Elem "microenvironment_setup" [] None [])
  = ET.Elem "microenvironment_setup" [] None
      [cell_rules_doc [csv_ruleset_elem "./cfg" "cell_rules.csv"]].
Proof. reflexivity. Qed.

(** The fragment of an enabled boolean-network module. *)
Example physiboss_fragment :
  PhysiBoSS.add_to_xml str_of_float_halves
    (PhysiBoSS.enable_physiboss "m.bnd" (Some [("A", true)])
       (Some [("lineX", [("B", false)])])
       (Some [("k", S754_finite false 5629499534213120 (-51))]) PhysiBoSS.init)
    (ET.Elem "root" [] None [])
  = ET.Elem "root" [] None
      [ET.Elem "physiboss" [("enabled", "true")] None
         [ET.Elem "physiboss_settings" [] None
            [ET.Elem "physiboss_bnd_file" [] (Some "m.bnd") [];
             ET.Elem "physiboss_time_step" [("units", "min")] (Some "12.0") [];
             ET.Elem "physiboss_scaling" [] (Some "10.0") [];
             ET.Elem "physiboss_start_time" [("units", "min")] (Some "0.0") []];
          ET.Elem "physiboss_initial_values" [] None
            [ET.Elem "physiboss_initial_value" [("node", "A")] (Some "true") []];
          ET.Elem "physiboss_mutations" [] None
            [ET.Elem "physiboss_mutation" [("cell_line", "lineX")] None
               [ET.Elem "physiboss_mutation_value" [("node", "B")] (Some "false") []]];
          ET.Elem "physiboss_parameters" [] None
            [ET.Elem "physiboss_parameter" [("name", "k")] (Some "2.5") []]]].
Proof. vm_compute. reflexivity. Qed.

(** An enabled module takes a positive time step and refuses zero. *)
Example set_time_step_enabled :
  let s := PhysiBoSS.enable_physiboss "m.bnd" None None None PhysiBoSS.init in
  option_map PhysiBoSS.time_step
    (PhysiBoSS.get_settings (snd (PhysiBoSS.set_time_step PhysiBoSS.f10 s)))
  = Some PhysiBoSS.f10
  /\ PhysiBoSS.set_time_step PhysiBoSS.f0 s
     = (Raise (ValueError (MustBePositive "time_step")), s).
Proof. repeat split. Qed.

(** ** Dictionaries: lookup after assignment *)

Section DictFacts.

Context {V : Type}.

Lemma get_set_eq k (v : V) d : Dict.get k (Dict.set k v d) = Some v.
Proof.
  induction d as [|[k' v'] d IH]; simpl.
  - rewrite String.eqb_refl. reflexivity.
  - destruct (String.eqb_spec k' k) as [->|Hne]; simpl.
    + rewrite String.eqb_refl. reflexivity.
    + apply String.eqb_neq in Hne. rewrite Hne. exact IH.
Qed.

Lemma get_set_ne k k' (v : V) d :
  k' <> k -> Dict.get k' (Dict.set k v d) = Dict.get k' d.
Proof.
  intros Hne. induction d as [|[k0 v0] d IH]; simpl.
  - destruct (String.eqb_spec k k'); [congruence | reflexivity].
  - destruct (String.eqb_spec k0 k) as [->|H0]; simpl.
    + destruct (String.eqb_spec k k'); [congruence | reflexivity].
    + destruct (String.eqb_spec k0 k'); [reflexivity | exact IH].
Qed.

Lemma keys_set_present k (v : V) d :
  Dict.mem k d = true -> Dict.keys (Dict.set k v d) = Dict.keys d.
Proof.
  unfold Dict.mem. induction d as [|[k' v'] d IH]; simpl; [discriminate|].
  destruct (String.eqb_spec k' k) as [->|Hne]; simpl; [reflexivity|].
  intros H. rewrite (IH H). reflexivity.
Qed.

Lemma keys_set_fresh k (v : V) d :
  Dict.mem k d = false -> Dict.keys (Dict.set k v d) = (Dict.keys d ++ [k])%list.
Proof.
  intros H. rewrite (set_fresh _ _ _ H). unfold Dict.keys. rewrite map_app. reflexivity.
Qed.

End DictFacts.

(** ** The rule store: registering and exporting *)

(** X1.  After [add_ruleset], the name looks up to the record of the given
    folder, filename and flag, stamped with protocol "CBHG", version "3.0" and
    format "csv", whether the name was registered before or not; every other
    name looks up to what it did, and the rules are untouched. *)
Theorem add_ruleset_lookup name folder filename enabled s :
  Dict.get name (CellRules.rulesets (CellRules.add_ruleset name folder filename enabled s))
  = Some {| CellRules.folder := folder; CellRules.filename := filename;
            CellRules.enabled := enabled; CellRules.protocol := "CBHG";
            CellRules.version := "3.0"; CellRules.format := "csv" |}
  /\ (forall other, other <> name ->
        Dict.get other
          (CellRules.rulesets (CellRules.add_ruleset name folder filename enabled s))
        = Dict.get other (CellRules.rulesets s))
  /\ CellRules.rules (CellRules.add_ruleset name folder filename enabled s)
     = CellRules.rules s.
Proof.
  split; [apply get_set_eq|]. split; [|reflexivity].
  intros other Hne. apply get_set_ne, Hne.
Qed.

(** X2.  Registering under a name that is registered replaces its record in
    place: the names and their order stay as they were.  Registering under a
    new name puts it behind the others. *)
Theorem add_ruleset_keys name folder filename enabled s :
  Dict.keys (CellRules.rulesets (CellRules.add_ruleset name folder filename enabled s))
  = if Dict.mem name (CellRules.rulesets s)
    then Dict.keys (CellRules.rulesets s)
    else (Dict.keys (CellRules.rulesets s) ++ [name])%list.
Proof.
  unfold CellRules.add_ruleset. cbn [CellRules.rulesets CellRules.with_rulesets].
  destruct (Dict.mem name (CellRules.rulesets s)) eqn:E.
  - apply keys_set_present, E.
  - apply keys_set_fresh, E.
Qed.

Section SaveRules.

Variable str_of_float : spec_float -> string.
Variable makedirs : filesystem -> string -> bool * filesystem.


End SaveRules.


(** The directories made stay when the file cannot be opened. *)
Example save_rules_leaves_directory :
  CellRules.save_rules_to_csv Py.str_of_float makedirs_made
    (write_file (fun _ => NoSuchFile) "out/rules.csv" Unusable) "out/rules.csv"
    good_store
  = (Raise (ValueError (ErrorSavingRules "out/rules.csv")),
     write_file (write_file (fun _ => NoSuchFile) "out/rules.csv" Unusable)
       "out" Unusable)
  /\ CellRules.save_rules_to_csv Py.str_of_float makedirs_refused
       (fun _ => NoSuchFile) "out/rules.csv" good_store
     = (Raise (ValueError (ErrorSavingRules "out/rules.csv")), fun _ => NoSuchFile)
  /\ CellRules.save_rules_to_csv Py.str_of_float makedirs_there
       (fun _ => NoSuchFile) EmptyString good_store
     = (Raise (ValueError (ErrorSavingRules EmptyString)), fun _ => NoSuchFile).
Proof. repeat split. Qed.

(** ** The table codec: what an import does to the store *)

Section ImportFacts.

Lemma read_row_trimmed row r :
  CellRules.read_row row = Ok (Some r) -> trimmed_names r.
Proof.
  unfold CellRules.read_row.
  destruct (CellRules.blank_row row); [discriminate|].
  destruct (List.length row <? 8)%nat; [discriminate|].
  destruct (CellRules.build_rule row) as [r'|] eqn:E; [|discriminate].
  intros [= <-]. apply build_rule_fields in E as (E0 & E1 & E2 & E3 & _).
  unfold trimmed_names. rewrite E0, E1, E2, E3.
  repeat split; apply strip_trimmed.
Qed.

Lemma load_rows_appends rows s :
  exists added,
    CellRules.rules (snd (CellRules.load_rows rows s))
    = (CellRules.rules s ++ added)%list
    /\ CellRules.rulesets (snd (CellRules.load_rows rows s)) = CellRules.rulesets s
    /\ Forall trimmed_names added.
Proof.
  revert s. induction rows as [|row rows IH]; intros s; simpl.
  - exists []. rewrite app_nil_r. auto.
  - destruct (CellRules.read_row row) as [[r|]|e] eqn:E.
    + destruct (IH (CellRules.with_rules (CellRules.rules s ++ [r]) s))
        as (added & H1 & H2 & H3).
      exists (r :: added). rewrite H1, H2. simpl. rewrite <- app_assoc.
      split; [reflexivity|]. split; [reflexivity|].
      constructor; [eapply read_row_trimmed, E | exact H3].
    + apply IH.
    + exists []. simpl. rewrite app_nil_r. auto.
Qed.

(** X4.  Whatever the file and however the import ends, by returning or by
    raising, it only appends: the rules the store had are still there, first
    and in their order, the registry of rulesets is untouched, and each rule
    that was appended has its four names without whitespace at either end. *)
Theorem import_only_appends fs filename s :
  exists added,
    CellRules.rules (snd (CellRules.load_rules_from_csv fs filename s))
    = (CellRules.rules s ++ added)%list
    /\ CellRules.rulesets (snd (CellRules.load_rules_from_csv fs filename s))
       = CellRules.rulesets s
    /\ Forall trimmed_names added.
Proof.
  unfold CellRules.load_rules_from_csv.
  destruct (fs filename) as [| |rows];
    [exists []; simpl; rewrite app_nil_r; auto ..|].
  apply load_rows_appends.
Qed.

(** X5.  Importing a table without malformed row and then a second table
    leaves the store, and ends, as importing the one table made of the rows of
    the first followed by the rows of the second. *)
Theorem import_in_sequence fs p1 p2 p12 r1 r2 s :
  fs p1 = Table r1 -> fs p2 = Table r2 -> fs p12 = Table (r1 ++ r2) ->
  Forall (fun row => ~ malformed row) r1 ->
  CellRules.load_rules_from_csv fs p2 (snd (CellRules.load_rules_from_csv fs p1 s))
  = CellRules.load_rules_from_csv fs p12 s.
Proof.
  intros H1 H2 H12 Hgood. unfold CellRules.load_rules_from_csv.
  rewrite H1, H2, H12, (load_rows_all _ _ Hgood), (load_rows_prefix _ _ _ Hgood).
  reflexivity.
Qed.

End ImportFacts.

Lemma import_in_sequence_witness :
  CellRules.load_rules_from_csv (three_tables [good_row] [row_with_2]) "b.csv"
    (snd (CellRules.load_rules_from_csv (three_tables [good_row] [row_with_2])
            "a.csv" CellRules.init))
  = CellRules.load_rules_from_csv (three_tables [good_row] [row_with_2]) "ab.csv"
      CellRules.init.
Proof.
  apply (import_in_sequence (three_tables [good_row] [row_with_2])
           "a.csv" "b.csv" "ab.csv" [good_row] [row_with_2] CellRules.init);
    try reflexivity.
  constructor; [|constructor].
  rewrite <- read_row_raises_iff, good_row_rule. intros [e H]. discriminate H.
Defined.

(** X6.  [add_rule] keeps the rule list valid: when every rule of the store
    has a direction "increases" or "decreases" and an apply_to_dead equal to
    0 or to 1, so has every rule of the store after the call, whatever the arguments and
    whether the call returns or raises. *)
Theorem add_rule_keeps_rules_valid ct sg dir bh sat hm hp atd s :
  Forall valid_rule (CellRules.rules s) ->
  Forall valid_rule
    (CellRules.rules (snd (CellRules.add_rule ct sg dir bh sat hm hp atd s))).
Proof.
  intros H. unfold CellRules.add_rule.
  destruct (String.eqb_spec dir "increases") as [Hi|Hi];
    destruct (String.eqb_spec dir "decreases") as [Hd|Hd];
    destruct (Z.eqb_spec (Py.int_value atd) 0) as [H0|H0];
    destruct (Z.eqb_spec (Py.int_value atd) 1) as [H1|H1]; simpl; try exact H;
    apply Forall_app; (split; [exact H|]); constructor; try constructor;
    unfold valid_rule; simpl; auto.
Qed.

Lemma add_rule_keeps_rules_valid_witness :
  Forall valid_rule (CellRules.rules good_store).
Proof.
  apply (add_rule_keeps_rules_valid "tumor" "oxygen" "increases" "cycle entry"
           (CellRules.saturation_value good_rule) (CellRules.half_max good_rule)
           (CellRules.hill_power good_rule) 0 CellRules.init).
  constructor.
Defined.

(** ** The XML codec of the rule store: what is registered, and the way back *)

Section RegistryFacts.

Lemma load_rulesets_entries elems d :
  exists d',
    CellRules.load_rulesets elems d = Some (d ++ d')%list
    /\ map snd d' = entries_of elems.
Proof.
  revert d. induction elems as [|elem elems IH]; intros d; simpl.
  - exists []. rewrite app_nil_r. auto.
  - destruct (ET.find elem "folder") as [fe|] eqn:Hf;
      [destruct (ET.find elem "filename") as [ne|] eqn:Hn|].
    + destruct (load_ruleset_both elem fe ne d Hf Hn) as (k & -> & _).
      destruct (IH (d ++ [(candidate (stem_of ne) k, entry_of elem fe ne)])%list)
        as (d' & -> & Hd').
      eexists. rewrite <- app_assoc. split; [reflexivity|].
      simpl. rewrite Hd'. reflexivity.
    + rewrite load_ruleset_skips by auto. apply IH.
    + rewrite load_ruleset_skips by auto. apply IH.
Qed.

(** X7.  [load_from_xml] never touches the rules.  Of an element with a
    [rulesets] child it registers exactly the [ruleset] children that have a
    [folder] and a [filename] child, one record each, in document order; of
    an element without [rulesets] child it leaves an empty registry. *)
Theorem load_from_xml_entries xml_element s :
  (forall rulesets_elem,
     ET.find xml_element "rulesets" = Some rulesets_elem ->
     exists d,
       CellRules.load_from_xml (Some xml_element) s
       = Some {| CellRules.rulesets := d; CellRules.rules := CellRules.rules s |}
       /\ map snd d = entries_of (ET.findall rulesets_elem "ruleset"))
  /\ (ET.find xml_element "rulesets" = None ->
      CellRules.load_from_xml (Some xml_element) s
      = Some {| CellRules.rulesets := []; CellRules.rules := CellRules.rules s |}).
Proof.
  unfold CellRules.load_from_xml. split.
  - intros rulesets_elem ->.
    destruct (load_rulesets_entries (ET.findall rulesets_elem "ruleset") [])
      as (d & -> & Hd).
    exists d. split; [reflexivity | exact Hd].
  - intros ->. reflexivity.
Qed.

Lemma fold_append {A} (f : A -> ET.Element) l e :
  fold_left (fun elem x => ET.append (f x) elem) l e
  = ET.Elem (ET.tag e) (ET.attrib e) (ET.text e) (ET.children e ++ map f l).
Proof.
  revert e. induction l as [|x l IH]; intros e; simpl.
  - rewrite app_nil_r. destruct e; reflexivity.
  - rewrite IH. destruct e; simpl. rewrite <- app_assoc. reflexivity.
Qed.

Lemma text_or_plain tag text default :
  text <> EmptyString -> trimmed text ->
  CellRules.text_or (ET.Elem tag [] (Some text) []) default = text.
Proof.
  intros Hne Ht. unfold CellRules.text_or. simpl.
  destruct text; [congruence | exact Ht].
Qed.

Lemma entries_of_written recs :
  Forall plain_location recs ->
  entries_of (map CellRules.ruleset_elem recs) = recs.
Proof.
  induction 1 as [|r recs (Hf & Hft & Hn & Hnt) _ IH]; [reflexivity|].
  cbn [map entries_of].
  change (ET.find (CellRules.ruleset_elem r) "folder")
    with (Some (ET.Elem "folder" [] (Some (CellRules.folder r)) [])).
  change (ET.find (CellRules.ruleset_elem r) "filename")
    with (Some (ET.Elem "filename" [] (Some (CellRules.filename r)) [])).
  rewrite IH. f_equal. unfold entry_of.
  rewrite (text_or_plain _ _ _ Hf Hft), (text_or_plain _ _ _ Hn Hnt).
  destruct r as [fo fi [] pr ve fm]; reflexivity.
Qed.

Lemma findall_written recs :
  filter (fun c => String.eqb (ET.tag c) "ruleset") (map CellRules.ruleset_elem recs)
  = map CellRules.ruleset_elem recs.
Proof. induction recs as [|r recs IH]; simpl; [|rewrite IH]; reflexivity. Qed.

Lemma add_to_xml_written s tag attrib text :
  CellRules.rulesets s <> [] ->
  ET.find (CellRules.add_to_xml s (ET.Elem tag attrib text [])) "cell_rules"
  = Some (cell_rules_doc
            (map CellRules.ruleset_elem (map snd (CellRules.rulesets s)))).
Proof.
  intros Hne. unfold CellRules.add_to_xml.
  destruct (CellRules.rulesets s) as [|kv d0]; [congruence|].
  rewrite (fold_append (fun kv => CellRules.ruleset_elem (snd kv))).
  rewrite <- (map_map snd CellRules.ruleset_elem). reflexivity.
Qed.

Lemma load_cell_rules_doc elems s0 :
  CellRules.load_from_xml (Some (cell_rules_doc elems)) s0
  = option_map (fun d => CellRules.with_rulesets d s0)
      (CellRules.load_rulesets
         (filter (fun c => String.eqb (ET.tag c) "ruleset") elems) []).
Proof. reflexivity. Qed.

(** X8.  A registry that is not empty comes back from its XML: when every
    registered folder and filename is not empty and has no whitespace at
    either end, [load_from_xml] of the [cell_rules] element that [add_to_xml]
    wrote registers the same records (folder, filename, enabled, protocol,
    version, format), as many and in the same order; only the names they are
    registered under are made anew from the filenames. *)
Theorem registry_xml_round_trip s s0 tag attrib text :
  CellRules.rulesets s <> [] ->
  Forall plain_location (map snd (CellRules.rulesets s)) ->
  exists d,
    CellRules.load_from_xml
      (ET.find (CellRules.add_to_xml s (ET.Elem tag attrib text [])) "cell_rules") s0
    = Some {| CellRules.rulesets := d; CellRules.rules := CellRules.rules s0 |}
    /\ map snd d = map snd (CellRules.rulesets s).
Proof.
  intros Hne Hp.
  rewrite (add_to_xml_written _ _ _ _ Hne), load_cell_rules_doc, findall_written.
  destruct (load_rulesets_entries
              (map CellRules.ruleset_elem (map snd (CellRules.rulesets s))) [])
    as (d & Hd & Hs).
  rewrite Hd. exists d. split; [reflexivity|].
  rewrite Hs. apply entries_of_written, Hp.
Qed.

(** X9.  An empty registry does not come back empty: [add_to_xml] writes the
    placeholder ruleset for it, and [load_from_xml] of the written element
    registers that placeholder, disabled, under the name "cell_rules". *)
Theorem empty_registry_round_trip s s0 tag attrib text :
  CellRules.rulesets s = [] ->
  CellRules.load_from_xml
    (ET.find (CellRules.add_to_xml s (ET.Elem tag attrib text [])) "cell_rules") s0
  = Some {| CellRules.rulesets := [("cell_rules", placeholder)];
            CellRules.rules := CellRules.rules s0 |}.
Proof.
  intros H. unfold CellRules.add_to_xml. rewrite H. reflexivity.
Qed.

End RegistryFacts.

Lemma registry_xml_round_trip_witness :
  exists d,
    CellRules.load_from_xml
      (ET.find
         (CellRules.add_to_xml
            (CellRules.add_ruleset "r1" "./cfg" "cell_rules.csv" true CellRules.init)
            (ET.Elem "root" [] None [])) "cell_rules") CellRules.init
    = Some {| CellRules.rulesets := d; CellRules.rules := [] |}
    /\ map snd d
       = map snd (CellRules.rulesets
                    (CellRules.add_ruleset "r1" "./cfg" "cell_rules.csv" true
                       CellRules.init)).
Proof.
  apply (registry_xml_round_trip
           (CellRules.add_ruleset "r1" "./cfg" "cell_rules.csv" true CellRules.init)
           CellRules.init "root" [] None).
  - discriminate.
  - constructor; [|constructor].
    unfold plain_location, trimmed. simpl.
    repeat split; (discriminate || reflexivity).
Defined.

Lemma empty_registry_round_trip_witness :
  CellRules.load_from_xml
    (ET.find (CellRules.add_to_xml CellRules.init (ET.Elem "root" [] None []))
       "cell_rules") CellRules.init
  = Some {| CellRules.rulesets := [("cell_rules", placeholder)];
            CellRules.rules := [] |}.
Proof.
  apply (empty_registry_round_trip CellRules.init CellRules.init "root" [] None).
  reflexivity.
Defined.

(** ** The boolean-network module: its states and its settings *)

Section NetworkFacts.

(** A call of a method fills the settings anew, or leaves the module as it
    is, or assigns to a key of its settings. *)
Lemma step_cases a b :
  step a b ->
  (exists model_file iv mu pa, b = PhysiBoSS.enable_physiboss model_file iv mu pa a)
  \/ b = a
  \/ (PhysiBoSS.enabled a = true /\ exists f, b = PhysiBoSS.assign f a).
Proof.
  intros H. destruct H.
  - left. eauto.
  - right. unfold PhysiBoSS.set_time_step.
    destruct (PhysiBoSS.enabled s) eqn:E; simpl; [|auto].
    destruct (PhysiBoSS.validate_positive_number x "time_step"); simpl; eauto.
  - right. unfold PhysiBoSS.set_scaling.
    destruct (PhysiBoSS.enabled s) eqn:E; simpl; [|auto].
    destruct (PhysiBoSS.validate_positive_number x "scaling"); simpl; eauto.
  - right. unfold PhysiBoSS.add_initial_value.
    destruct (PhysiBoSS.enabled s) eqn:E; simpl; eauto.
  - right. unfold PhysiBoSS.add_mutation.
    destruct (PhysiBoSS.enabled s) eqn:E; simpl; eauto.
  - right. unfold PhysiBoSS.add_parameter.
    destruct (PhysiBoSS.enabled s) eqn:E; simpl; eauto.
Qed.

(** X10.  The module never goes back to disabled, and it has its settings
    exactly when it is enabled: in every state reached from [__init__] by
    calls of its methods, [enabled] is true if and only if the settings are
    filled, [get_settings] returns them then and the empty result otherwise,
    and no call of a method turns an enabled module into a disabled one. *)
Theorem enabled_iff_settings s :
  reachable s ->
  (PhysiBoSS.enabled s = true <-> exists st, PhysiBoSS.physiboss_settings s = Some st)
  /\ PhysiBoSS.get_settings s = PhysiBoSS.physiboss_settings s
  /\ (forall s', step s s' -> PhysiBoSS.enabled s = true ->
                 PhysiBoSS.enabled s' = true).
Proof.
  intros H.
  assert (Hinv : PhysiBoSS.enabled s = true
                 <-> exists st, PhysiBoSS.physiboss_settings s = Some st).
  { induction H as [|s s' _ IH Hs].
    - simpl. split; [discriminate | intros [st [=]]].
    - destruct (step_cases _ _ Hs)
        as [(mf & iv & mu & pa & ->) | [-> | (He & f & ->)]].
      + simpl. split; eauto.
      + exact IH.
      + simpl. destruct (proj1 IH He) as [st ->]. simpl. split; eauto. }
  split; [exact Hinv|]. split.
  - unfold PhysiBoSS.get_settings.
    destruct (PhysiBoSS.enabled s) eqn:E; [reflexivity|].
    destruct (PhysiBoSS.physiboss_settings s) eqn:E'; [|reflexivity].
    assert (false = true) by (apply Hinv; eauto). discriminate.
  - intros s' Hs He.
    destruct (step_cases _ _ Hs)
      as [(mf & iv & mu & pa & ->) | [-> | (_ & f & ->)]];
      [reflexivity | exact He | exact He].
Qed.

(** X11.  On an enabled module [add_initial_value] returns; afterwards the
    node looks up to the given value, whatever it looked up to before, every
    other node looks up to what it did, and the model file, time step,
    scaling and start time are as they were.  [add_parameter] does the same
    for a parameter and its value. *)
Theorem add_value_lookup s st :
  PhysiBoSS.enabled s = true ->
  PhysiBoSS.physiboss_settings s = Some st ->
  (forall node value,
     exists st',
       PhysiBoSS.add_initial_value node value s
       = (Ok tt, {| PhysiBoSS.physiboss_settings := Some st';
                    PhysiBoSS.enabled := true |})
       /\ Dict.get node (PhysiBoSS.initial_values st') = Some value
       /\ (forall other, other <> node ->
             Dict.get other (PhysiBoSS.initial_values st')
             = Dict.get other (PhysiBoSS.initial_values st))
       /\ PhysiBoSS.model_file st' = PhysiBoSS.model_file st
       /\ PhysiBoSS.time_step st' = PhysiBoSS.time_step st
       /\ PhysiBoSS.scaling st' = PhysiBoSS.scaling st
       /\ PhysiBoSS.start_time st' = PhysiBoSS.start_time st)
  /\ (forall name value,
        exists st',
          PhysiBoSS.add_parameter name value s
          = (Ok tt, {| PhysiBoSS.physiboss_settings := Some st';
                       PhysiBoSS.enabled := true |})
          /\ Dict.get name (PhysiBoSS.parameters st') = Some value
          /\ (forall other, other <> name ->
                Dict.get other (PhysiBoSS.parameters st')
                = Dict.get other (PhysiBoSS.parameters st))
          /\ PhysiBoSS.model_file st' = PhysiBoSS.model_file st
          /\ PhysiBoSS.time_step st' = PhysiBoSS.time_step st
          /\ PhysiBoSS.scaling st' = PhysiBoSS.scaling st
          /\ PhysiBoSS.start_time st' = PhysiBoSS.start_time st).
Proof.
  intros He Hs. split.
  - intros node value. unfold PhysiBoSS.add_initial_value, PhysiBoSS.assign.
    rewrite He, Hs. simpl. eexists. split; [reflexivity|]. simpl.
    split; [apply get_set_eq|]. split; [intros; apply get_set_ne; assumption|].
    repeat split.
  - intros name value. unfold PhysiBoSS.add_parameter, PhysiBoSS.assign.
    rewrite He, Hs. simpl. eexists. split; [reflexivity|]. simpl.
    split; [apply get_set_eq|]. split; [intros; apply get_set_ne; assumption|].
    repeat split.
Qed.

(** X12.  On an enabled module [add_mutation] returns; afterwards the cell
    line has a dictionary of its own, in which the node looks up to the given
    value and every other node to what it did in the dictionary the line had,
    or to nothing when the line had none. *)
Theorem add_mutation_lookup s st cell_line node value :
  PhysiBoSS.enabled s = true ->
  PhysiBoSS.physiboss_settings s = Some st ->
  exists st' line,
    PhysiBoSS.add_mutation cell_line node value s
    = (Ok tt, {| PhysiBoSS.physiboss_settings := Some st';
                 PhysiBoSS.enabled := true |})
    /\ Dict.get cell_line (PhysiBoSS.mutations st') = Some line
    /\ Dict.get node line = Some value
    /\ forall other, other <> node ->
         Dict.get other line
         = match Dict.get cell_line (PhysiBoSS.mutations st) with
           | Some d => Dict.get other d
           | None => None
           end.
Proof.
  intros He Hs. unfold PhysiBoSS.add_mutation, PhysiBoSS.assign.
  rewrite He, Hs. simpl. eexists. eexists. split; [reflexivity|]. simpl.
  split; [apply get_set_eq|]. split; [apply get_set_eq|].
  intros other Hne. rewrite get_set_ne by exact Hne.
  destruct (Dict.get cell_line (PhysiBoSS.mutations st)); reflexivity.
Qed.

End NetworkFacts.

Lemma reachable_small_network : reachable small_network.
Proof. eapply reachable_step; [apply reachable_init | apply step_enable_physiboss]. Qed.

Lemma enabled_iff_settings_witness :
  PhysiBoSS.get_settings small_network = PhysiBoSS.physiboss_settings small_network.
Proof. apply (enabled_iff_settings small_network reachable_small_network). Defined.

Lemma add_value_lookup_witness :
  exists st',
    PhysiBoSS.add_initial_value "A" false small_network
    = (Ok tt, {| PhysiBoSS.physiboss_settings := Some st';
                 PhysiBoSS.enabled := true |})
    /\ Dict.get "A" (PhysiBoSS.initial_values st') = Some false.
Proof.
  destruct (proj1 (add_value_lookup small_network _ eq_refl eq_refl) "A" false)
    as (st' & H1 & H2 & _).
  exists st'. split; assumption.
Defined.

Lemma add_mutation_lookup_witness :
  exists st' line,
    PhysiBoSS.add_mutation "lineX" "C" true small_network
    = (Ok tt, {| PhysiBoSS.physiboss_settings := Some st';
                 PhysiBoSS.enabled := true |})
    /\ Dict.get "lineX" (PhysiBoSS.mutations st') = Some line
    /\ Dict.get "C" line = Some true
    /\ Dict.get "B" line = Some false.
Proof.
  destruct (add_mutation_lookup small_network _ "lineX" "C" true eq_refl eq_refl)
    as (st' & line & H1 & H2 & H3 & H4).
  exists st', line. repeat split; try assumption.
  rewrite H4 by discriminate. reflexivity.
Defined.

(** ** The boolean-network module: the fragment it writes *)

Section FragmentFacts.

Variable str_of_float : spec_float -> string.

Lemma append_each_map {V} (d : Dict.dict V) mk e :
  PhysiBoSS.append_each d mk e
  = ET.Elem (ET.tag e) (ET.attrib e) (ET.text e)
      (ET.children e ++ map (fun kv => mk (fst kv) (snd kv)) d).
Proof. unfold PhysiBoSS.append_each. apply (fold_append (fun kv => mk (fst kv) (snd kv))). Qed.

Lemma append_block_children {V} (d : Dict.dict V) tag mk e :
  PhysiBoSS.append_block d tag mk e
  = ET.Elem (ET.tag e) (ET.attrib e) (ET.text e)
      (ET.children e ++ block tag (map (fun kv => mk (fst kv) (snd kv)) d)).
Proof.
  unfold PhysiBoSS.append_block. destruct d as [|kv d].
  - simpl. rewrite app_nil_r. destruct e; reflexivity.
  - rewrite append_each_map. destruct e; reflexivity.
Qed.

Lemma mutations_block_written (d : Dict.dict (Dict.dict bool)) e :
  PhysiBoSS.append_block d "physiboss_mutations"
    (fun cell_line muts =>
       create_element "physiboss_mutation" None
       |> ET.set "cell_line" cell_line
       |> PhysiBoSS.append_each muts
            (fun node value =>
               create_element "physiboss_mutation_value" None
               |> ET.set "node" node
               |> ET.set_text (PhysiBoSS.bool_text value))) e
  = ET.Elem (ET.tag e) (ET.attrib e) (ET.text e)
      (ET.children e ++ block "physiboss_mutations" (map mutation_elem d)).
Proof.
  rewrite append_block_children. do 3 f_equal.
  apply map_ext. intros kv. rewrite append_each_map. reflexivity.
Qed.

(** X13.  What an enabled module appends to the parent: one [physiboss]
    element with enabled "true", behind the children the parent had; in it the
    settings block, then the block of initial values, the block of mutations
    and the block of parameters, each with one child per entry in the order of
    its dictionary, and each left out altogether when its dictionary is
    empty. *)
Theorem physiboss_fragment_shape s st tag attrib text children :
  PhysiBoSS.enabled s = true ->
  PhysiBoSS.physiboss_settings s = Some st ->
  PhysiBoSS.add_to_xml str_of_float s (ET.Elem tag attrib text children)
  = ET.Elem tag attrib text
      (children ++
       [ET.Elem "physiboss" [("enabled", "true")] None
          (settings_block str_of_float st
           :: block "physiboss_initial_values"
                (map (fun kv => value_elem "physiboss_initial_value" "node" (fst kv)
                                  (PhysiBoSS.bool_text (snd kv)))
                   (PhysiBoSS.initial_values st))
           ++ block "physiboss_mutations"
                (map mutation_elem (PhysiBoSS.mutations st))
           ++ block "physiboss_parameters"
                (map (fun kv => value_elem "physiboss_parameter" "name" (fst kv)
                                  (str_of_float (snd kv)))
                   (PhysiBoSS.parameters st)))]).
Proof.
  intros He Hs. unfold PhysiBoSS.add_to_xml. rewrite He, Hs.
  rewrite mutations_block_written, !append_block_children.
  cbn [negb ET.append ET.set ET.tag ET.attrib ET.text ET.children create_element
       Dict.set app].
  rewrite <- !app_assoc. reflexivity.
Qed.

Lemma blocks_inj x1 y1 z1 x2 y2 z2 :
  (block "physiboss_initial_values" x1 ++ block "physiboss_mutations" y1
   ++ block "physiboss_parameters" z1
   = block "physiboss_initial_values" x2 ++ block "physiboss_mutations" y2
     ++ block "physiboss_parameters" z2)%list ->
  x1 = x2 /\ y1 = y2 /\ z1 = z2.
Proof.
  destruct x1, y1, z1, x2, y2, z2; simpl; intros H;
    try discriminate H; try (injection H; intros; subst); auto.
Qed.

Lemma bool_text_inj a b : PhysiBoSS.bool_text a = PhysiBoSS.bool_text b -> a = b.
Proof. destruct a, b; (reflexivity || discriminate). Qed.

Lemma map_value_elem_inj {V} tag key (text : V -> string) d1 d2 :
  map (fun kv => value_elem tag key (fst kv) (text (snd kv))) d1
  = map (fun kv => value_elem tag key (fst kv) (text (snd kv))) d2 ->
  map (fun kv => (fst kv, text (snd kv))) d1
  = map (fun kv => (fst kv, text (snd kv))) d2.
Proof.
  revert d2. induction d1 as [|kv d1 IH]; intros [|kv2 d2]; simpl; try discriminate;
    [reflexivity|].
  intros H. injection H as Hk Ht Hr. rewrite Hk, Ht, (IH _ Hr). reflexivity.
Qed.

Lemma map_bool_text_inj (d1 d2 : Dict.dict bool) :
  map (fun kv => (fst kv, PhysiBoSS.bool_text (snd kv))) d1
  = map (fun kv => (fst kv, PhysiBoSS.bool_text (snd kv))) d2 ->
  d1 = d2.
Proof.
  revert d2. induction d1 as [|[k v] d1 IH]; intros [|[k2 v2] d2]; simpl;
    try discriminate; [reflexivity|].
  intros H. injection H as Hk Ht Hr. apply bool_text_inj in Ht.
  rewrite Hk, Ht, (IH _ Hr). reflexivity.
Qed.

Lemma map_mutation_elem_inj d1 d2 :
  map mutation_elem d1 = map mutation_elem d2 -> d1 = d2.
Proof.
  revert d2. induction d1 as [|[k v] d1 IH]; intros [|[k2 v2] d2]; simpl;
    try discriminate; [reflexivity|].
  intros H. injection H as Hk Hv Hr. simpl in Hk, Hv.
  apply map_value_elem_inj, map_bool_text_inj in Hv.
  rewrite Hk, Hv, (IH _ Hr). reflexivity.
Qed.

(** X14.  The fragment keeps the configuration: when two enabled modules
    write the same thing to the same parent, they have the same model file,
    the same initial values and the same mutations, entry by entry and in the
    same order, the same parameter names in the same order, and their
    parameter values, time steps, scalings and start times have the same
    text. *)
Theorem physiboss_fragment_determines s1 s2 st1 st2 parent :
  PhysiBoSS.enabled s1 = true -> PhysiBoSS.physiboss_settings s1 = Some st1 ->
  PhysiBoSS.enabled s2 = true -> PhysiBoSS.physiboss_settings s2 = Some st2 ->
  PhysiBoSS.add_to_xml str_of_float s1 parent
  = PhysiBoSS.add_to_xml str_of_float s2 parent ->
  PhysiBoSS.model_file st1 = PhysiBoSS.model_file st2
  /\ PhysiBoSS.initial_values st1 = PhysiBoSS.initial_values st2
  /\ PhysiBoSS.mutations st1 = PhysiBoSS.mutations st2
  /\ map (fun kv => (fst kv, str_of_float (snd kv))) (PhysiBoSS.parameters st1)
     = map (fun kv => (fst kv, str_of_float (snd kv))) (PhysiBoSS.parameters st2)
  /\ str_of_float (PhysiBoSS.time_step st1) = str_of_float (PhysiBoSS.time_step st2)
  /\ str_of_float (PhysiBoSS.scaling st1) = str_of_float (PhysiBoSS.scaling st2)
  /\ str_of_float (PhysiBoSS.start_time st1)
     = str_of_float (PhysiBoSS.start_time st2).
Proof.
  intros He1 Hs1 He2 Hs2 H. destruct parent as [tag attrib text children].
  rewrite (physiboss_fragment_shape _ _ _ _ _ _ He1 Hs1) in H.
  rewrite (physiboss_fragment_shape _ _ _ _ _ _ He2 Hs2) in H.
  injection H as H. apply app_inv_head in H.
  unfold settings_block in H. injection H. intros Hblocks; intros.
  apply blocks_inj in Hblocks as (Hiv & Hmu & Hpa).
  apply map_value_elem_inj, map_bool_text_inj in Hiv.
  apply map_mutation_elem_inj in Hmu.
  apply map_value_elem_inj in Hpa.
  repeat split; assumption.
Qed.

End FragmentFacts.

Lemma physiboss_fragment_shape_witness :
  ET.children
    (PhysiBoSS.add_to_xml str_of_float_halves
       (PhysiBoSS.enable_physiboss "m.bnd" None None None PhysiBoSS.init)
       (ET.Elem "root" [] None []))
  = [ET.Elem "physiboss" [("enabled", "true")] None
       [ET.Elem "physiboss_settings" [] None
          [ET.Elem "physiboss_bnd_file" [] (Some "m.bnd") [];
           ET.Elem "physiboss_time_step" [("units", "min")] (Some "12.0") [];
           ET.Elem "physiboss_scaling" [] (Some "10.0") [];
           ET.Elem "physiboss_start_time" [("units", "min")] (Some "0.0") []]]].
Proof.
  rewrite (physiboss_fragment_shape str_of_float_halves
             (PhysiBoSS.enable_physiboss "m.bnd" None None None PhysiBoSS.init)
             _ "root" [] None [] eq_refl eq_refl).
  vm_compute. reflexivity.
Defined.

Lemma physiboss_fragment_determines_witness :
  Some (PhysiBoSS.initial_values
          {| PhysiBoSS.model_file := "m.bnd"; PhysiBoSS.initial_values := [("A", true)];
             PhysiBoSS.mutations := [("lineX", [("B", false)])];
             PhysiBoSS.parameters := [("k", S754_finite false 5629499534213120 (-51))];
             PhysiBoSS.time_step := PhysiBoSS.f12; PhysiBoSS.scaling := PhysiBoSS.f10;
             PhysiBoSS.start_time := PhysiBoSS.f0 |})
  = option_map PhysiBoSS.initial_values (PhysiBoSS.physiboss_settings small_network).
Proof.
  destruct (physiboss_fragment_determines str_of_float_halves
              small_network small_network _ _ (ET.Elem "root" [] None [])
              eq_refl eq_refl eq_refl eq_refl eq_refl) as (_ & H & _).
  simpl. f_equal.
Defined.

(** ** The strict comparison: when it reports nothing *)

Section CompareFacts.

Lemma Element_ind_children (P : Validate.Element -> Prop) :
  (forall tag attrib text tail children,
     Forall P children -> P (Validate.Elem tag attrib text tail children)) ->
  forall e, P e.
Proof.
  intros H. fix IH 1. intros [tag attrib text tail children]. apply H.
  induction children as [|c children IHc]; constructor; [apply IH | exact IHc].
Qed.

Lemma compare_unfold t1 a1 x1 l1 c1 t2 a2 x2 l2 c2 path :
  Validate.compare_xml_elements_strict
    (Validate.Elem t1 a1 x1 l1 c1) (Validate.Elem t2 a2 x2 l2 c2) path
  = if negb (String.eqb t1 t2) then [Validate.TagMismatch path t1 t2]
    else
      (Validate.text_differences (path ++ "/" ++ t1)
         (Validate.or_empty x1) (Validate.or_empty x2)
       ++ Validate.tail_differences (path ++ "/" ++ t1)
            (Validate.or_empty l1) (Validate.or_empty l2)
       ++ Validate.attribute_differences (path ++ "/" ++ t1) a1 a2
       ++ Validate.count_differences (path ++ "/" ++ t1)
            (List.length c1) (List.length c2)
       ++ Validate.compare_children (path ++ "/" ++ t1) c1 c2 0)%list.
Proof.
  cbn [Validate.compare_xml_elements_strict].
  destruct (negb (String.eqb t1 t2)); [reflexivity|].
  do 4 f_equal. generalize 0. revert c2.
  induction c1 as [|x c1 IH]; intros [|y c2] i; try reflexivity.
  cbn [Validate.compare_children]. rewrite <- IH. reflexivity.
Qed.

Lemma same_unfold t1 a1 x1 l1 c1 t2 a2 x2 l2 c2 :
  Validate.same (Validate.Elem t1 a1 x1 l1 c1) (Validate.Elem t2 a2 x2 l2 c2)
  <-> t1 = t2
      /\ Validate.or_empty x1 = Validate.or_empty x2
      /\ Validate.or_empty l1 = Validate.or_empty l2
      /\ (forall attr, Dict.get attr a1 = Dict.get attr a2)
      /\ Validate.all_same c1 c2.
Proof.
  cbn [Validate.same].
  assert (E : forall k1 k2,
             (fix all_same (l1 l2 : list Validate.Element) : Prop :=
                match l1, l2 with
                | [], [] => True
                | child1 :: rest1, child2 :: rest2 =>
                    Validate.same child1 child2 /\ all_same rest1 rest2
                | _, _ => False
                end) k1 k2 <-> Validate.all_same k1 k2).
  { intros k1 k2. apply iff_refl. }
  rewrite E. tauto.
Qed.

Lemma app_nil_iff {A} (l l' : list A) : (l ++ l')%list = [] <-> l = [] /\ l' = [].
Proof.
  split; [apply app_eq_nil | intros [-> ->]; reflexivity].
Qed.

Lemma text_differences_nil place a b :
  Validate.text_differences place a b = [] <-> a = b.
Proof.
  unfold Validate.text_differences. destruct (String.eqb_spec a b).
  - tauto.
  - destruct (String.eqb (Py.strip a) (Py.strip b)); split;
      (discriminate || contradiction).
Qed.

Lemma tail_differences_nil place a b :
  Validate.tail_differences place a b = [] <-> a = b.
Proof.
  unfold Validate.tail_differences. destruct (String.eqb_spec a b).
  - tauto.
  - destruct (String.eqb (Py.strip a) (Py.strip b)); split;
      (discriminate || contradiction).
Qed.

Lemma count_differences_nil place n m :
  Validate.count_differences place n m = [] <-> n = m.
Proof.
  unfold Validate.count_differences. destruct (Nat.eqb_spec n m).
  - tauto.
  - split; (discriminate || contradiction).
Qed.

Lemma option_eqb_true a b : Validate.option_eqb a b = true <-> a = b.
Proof.
  destruct a as [x|], b as [y|]; simpl; try (split; (discriminate || reflexivity)).
  rewrite String.eqb_eq. split; congruence.
Qed.

Lemma get_None_not_In {V} k (d : Dict.dict V) :
  Dict.get k d = None <-> ~ In k (Dict.keys d).
Proof.
  split.
  - intros H. apply mem_false_not_In. unfold Dict.mem. rewrite H. reflexivity.
  - intros H. destruct (Dict.get k d) eqn:E; [|reflexivity].
    exfalso. apply H, mem_true_In. unfold Dict.mem. rewrite E. reflexivity.
Qed.

Lemma in_union_keys k a1 a2 :
  In k (Validate.union_keys a1 a2) <-> In k (Dict.keys a1) \/ In k (Dict.keys a2).
Proof. unfold Validate.union_keys. rewrite nodup_In, in_app_iff. tauto. Qed.

(** Two attribute dictionaries are equal when every name looks up to the
    same in both. *)
Lemma dict_eqb_true a1 a2 :
  Validate.dict_eqb a1 a2 = true <-> forall attr, Dict.get attr a1 = Dict.get attr a2.
Proof.
  unfold Validate.dict_eqb. rewrite forallb_forall. split.
  - intros H attr.
    destruct (in_dec string_dec attr (Validate.union_keys a1 a2)) as [Hin|Hout].
    + apply option_eqb_true, H, Hin.
    + rewrite in_union_keys in Hout.
      transitivity (@None string); [|symmetry]; apply get_None_not_In; tauto.
  - intros H attr _. apply option_eqb_true, H.
Qed.

Lemma forallb_false_exists {A} (f : A -> bool) l :
  forallb f l = false -> exists x, In x l /\ f x = false.
Proof.
  induction l as [|k l IH]; simpl; [discriminate|].
  intros E. apply andb_false_iff in E as [E|E].
  - exists k. split; [left; reflexivity | exact E].
  - destruct (IH E) as (x & Hin & Hx). exists x. split; [right|]; assumption.
Qed.

Lemma attribute_differences_nil place a1 a2 :
  Validate.attribute_differences place a1 a2 = []
  <-> forall attr, Dict.get attr a1 = Dict.get attr a2.
Proof.
  rewrite <- dict_eqb_true. unfold Validate.attribute_differences.
  destruct (Validate.dict_eqb a1 a2) eqn:E; [tauto|].
  split; [|discriminate]. intros Hnil. exfalso.
  assert (Hex : exists attr, In attr (Validate.union_keys a1 a2)
                  /\ Validate.option_eqb (Dict.get attr a1) (Dict.get attr a2) = false).
  { apply forallb_false_exists, E. }
  destruct Hex as (attr & Hin & Ha).
  assert (Hd : exists d,
             In d (match Dict.get attr a1, Dict.get attr a2 with
                   | None, _ => [Validate.MissingInGenerated place attr]
                   | Some _, None => [Validate.ExtraInGenerated place attr]
                   | Some value1, Some value2 =>
                       if String.eqb value1 value2 then []
                       else [Validate.AttributeMismatch place attr value1 value2]
                   end)).
  { destruct (Dict.get attr a1) as [v1|]; [|eexists; left; reflexivity].
    destruct (Dict.get attr a2) as [v2|]; [|eexists; left; reflexivity].
    simpl in Ha. rewrite Ha. eexists; left; reflexivity. }
  destruct Hd as (d & Hd).
  assert (Hin' : In d []).
  { rewrite <- Hnil. apply in_flat_map. exists attr. split; assumption. }
  destruct Hin'.
Qed.

Lemma compare_children_nil (P : Validate.Element -> Prop) place c1 :
  Forall (fun x => forall y path,
            Validate.compare_xml_elements_strict x y path = [] <-> Validate.same x y)
    c1 ->
  forall c2 i,
    (List.length c1 = List.length c2
     /\ Validate.compare_children place c1 c2 i = [])
    <-> Validate.all_same c1 c2.
Proof.
  induction 1 as [|x c1 Hx _ IH]; intros [|y c2] i;
    cbn [Validate.compare_children Validate.all_same List.length].
  - tauto.
  - split; [intros [[=] _] | intros []].
  - split; [intros [[=] _] | intros []].
  - rewrite app_nil_iff, Hx, <- (IH c2 (i + 1)).
    split; [intros [[= ->] [? ?]]; tauto | intros [? [-> ?]]; tauto].
Qed.

Lemma compare_nil_iff_same e1 :
  forall e2 path,
    Validate.compare_xml_elements_strict e1 e2 path = [] <-> Validate.same e1 e2.
Proof.
  induction e1 as [t1 a1 x1 l1 c1 IH] using Element_ind_children.
  intros [t2 a2 x2 l2 c2] path. rewrite compare_unfold, same_unfold.
  destruct (String.eqb_spec t1 t2) as [Ht|Ht]; cbn [negb].
  - rewrite !app_nil_iff, text_differences_nil, tail_differences_nil,
      attribute_differences_nil, count_differences_nil.
    rewrite <- (compare_children_nil (fun _ => True) (path ++ "/" ++ t1) c1 IH c2 0).
    tauto.
  - split; [discriminate | tauto].
Qed.

Lemma same_refl e : Validate.same e e.
Proof.
  induction e as [t a x l c IH] using Element_ind_children.
  apply same_unfold. repeat split.
  induction IH; cbn [Validate.all_same]; auto.
Qed.

Lemma same_sym e1 : forall e2, Validate.same e1 e2 -> Validate.same e2 e1.
Proof.
  induction e1 as [t1 a1 x1 l1 c1 IH] using Element_ind_children.
  intros [t2 a2 x2 l2 c2]. rewrite !same_unfold.
  intros (Ht & Hx & Hl & Ha & Hc). repeat split; auto.
  clear - IH Hc. revert c2 Hc.
  induction IH as [|x c1 Hx _ IHc]; intros [|y c2]; cbn [Validate.all_same];
    try tauto.
  intros [H1 H2]. split; [apply Hx, H1 | apply IHc, H2].
Qed.

(** X15.  [compare_xml_elements_strict] reports nothing exactly when the two
    elements are the same document: the same tag, the same text and the same
    tail (an absent one counting as empty), the same attributes whatever
    their order, and as many children, the same one by one and in the same
    order.  So an element compared with itself gives no difference, and when
    two elements give none, they give none the other way round, under any
    path. *)
Theorem compare_reports_nothing_iff_same elem1 elem2 path :
  (Validate.compare_xml_elements_strict elem1 elem2 path = []
   <-> Validate.same elem1 elem2)
  /\ Validate.compare_xml_elements_strict elem1 elem1 path = []
  /\ (Validate.compare_xml_elements_strict elem1 elem2 path = [] ->
      forall path', Validate.compare_xml_elements_strict elem2 elem1 path' = []).
Proof.
  split; [apply compare_nil_iff_same|]. split.
  - apply compare_nil_iff_same, same_refl.
  - intros H path'. apply compare_nil_iff_same, same_sym.
    apply (compare_nil_iff_same elem1 elem2 path), H.
Qed.

End CompareFacts.

(** The report of two documents that differ in an attribute value, in the
    white space of a text, and in the number of children. *)
Example compare_report :
  Validate.compare_xml_elements_strict
    (Validate.Elem "domain" [("units", "micron"); ("id", "0")] (Some " x ") None
       [Validate.Elem "x_min" [] (Some "-500") None [];
        Validate.Elem "x_max" [] (Some "500") None []])
    (Validate.Elem "domain" [("id", "0"); ("units", "nm")] (Some "x") (Some EmptyString)
       [Validate.Elem "x_min" [] (Some "-400") None []])
    EmptyString
  = [Validate.TextWhitespaceMismatch "/domain" " x " "x";
     Validate.AttributeMismatch "/domain" "units" "micron" "nm";
     Validate.ChildCountMismatch "/domain" 2 1;
     Validate.TextMismatch "/domain[0]/x_min" "-500" "-400"].
Proof. reflexivity. Qed.

(** ** More on the two codecs of the rule store *)

Section CodecFacts.

Lemma ruleset_elem_written r : CellRules.ruleset_elem r = written_ruleset r.
Proof. destruct r as [fo fi [] pr ve fm]; reflexivity. Qed.

(** X16.  With rulesets registered, [add_to_xml] appends to the parent,
    behind the children it had, one [cell_rules] element: in it a [rulesets]
    element with one [ruleset] child per registered ruleset, in the order of
    registration, each with the attributes protocol, version, format and
    enabled ("true" or "false") and the children [folder] and [filename] of
    its record, and behind it the empty [settings] element.  The names the
    rulesets are registered under are not written. *)
Theorem cell_rules_fragment_shape s tag attrib text children :
  CellRules.rulesets s <> [] ->
  CellRules.add_to_xml s (ET.Elem tag attrib text children)
  = ET.Elem tag attrib text
      (children ++
       [ET.Elem "cell_rules" [] None
          [ET.Elem "rulesets" [] None
             (map written_ruleset (map snd (CellRules.rulesets s)));
           ET.Elem "settings" [] None []]]).
Proof.
  intros Hne. unfold CellRules.add_to_xml.
  destruct (CellRules.rulesets s) as [|kv d0]; [congruence|].
  rewrite (fold_append (fun kv => CellRules.ruleset_elem (snd kv))).
  rewrite <- (map_map snd CellRules.ruleset_elem).
  rewrite (map_ext _ _ ruleset_elem_written). reflexivity.
Qed.

Lemma rules_of_rows_length rows :
  Forall (fun row => ~ malformed row) rows ->
  List.length (rules_of_rows rows) = List.length (non_blank_rows rows).
Proof.
  induction 1 as [|row rows Hrow _ IH]; [reflexivity|].
  cbn [rules_of_rows non_blank_rows filter].
  rewrite <- read_row_raises_iff in Hrow.
  unfold CellRules.read_row in *.
  destruct (CellRules.blank_row row); cbn [negb]; [exact IH|].
  destruct (List.length row <? 8)%nat; [exfalso; apply Hrow; eauto|].
  destruct (CellRules.build_rule row); [|exfalso; apply Hrow; eauto].
  cbn [List.length]. f_equal. exact IH.
Qed.

(** X17.  The import of a table without malformed row returns, and the rule
    list has grown by one rule for each row that is not blank: a blank row
    gives no rule, every other row gives exactly one. *)
Theorem import_counts_rows fs filename rows s :
  fs filename = Table rows ->
  Forall (fun row => ~ malformed row) rows ->
  fst (CellRules.load_rules_from_csv fs filename s) = Ok tt
  /\ List.length (CellRules.rules (snd (CellRules.load_rules_from_csv fs filename s)))
     = (List.length (CellRules.rules s) + List.length (non_blank_rows rows))%nat.
Proof.
  intros Hfs Hgood. unfold CellRules.load_rules_from_csv.
  rewrite Hfs, (load_rows_all _ _ Hgood). split; [reflexivity|].
  cbn [snd CellRules.rules CellRules.with_rules].
  rewrite length_app, (rules_of_rows_length _ Hgood). reflexivity.
Qed.

End CodecFacts.

Lemma cell_rules_fragment_shape_witness :
  CellRules.add_to_xml
    (CellRules.add_ruleset "r1" "./cfg" "cell_rules.csv" true CellRules.init)
    (ET.Elem "microenvironment_setup" [] None [])
  = ET.Elem "microenvironment_setup" [] None
      [ET.Elem "cell_rules" [] None
         [ET.Elem "rulesets" [] None
            [ET.Elem "ruleset"
               [("protocol", "CBHG"); ("version", "3.0"); ("format", "csv");
                ("enabled", "true")] None
               [ET.Elem "folder" [] (Some "./cfg") [];
                ET.Elem "filename" [] (Some "cell_rules.csv") []]];
          ET.Elem "settings" [] None []]].
Proof.
  apply (cell_rules_fragment_shape
           (CellRules.add_ruleset "r1" "./cfg" "cell_rules.csv" true CellRules.init)
           "microenvironment_setup" [] None []).
  discriminate.
Defined.

Lemma import_counts_rows_witness :
  fst (CellRules.load_rules_from_csv
         (one_file "rules.csv" [good_row; []; [" "; EmptyString]; row_with_2])
         "rules.csv" CellRules.init) = Ok tt
  /\ List.length
       (CellRules.rules
          (snd (CellRules.load_rules_from_csv
                  (one_file "rules.csv" [good_row; []; [" "; EmptyString]; row_with_2])
                  "rules.csv" CellRules.init)))
     = (List.length (CellRules.rules CellRules.init)
        + List.length (non_blank_rows [good_row; []; [" "; EmptyString]; row_with_2]))%nat.
Proof.
  apply (import_counts_rows
           (one_file "rules.csv" [good_row; []; [" "; EmptyString]; row_with_2])
           "rules.csv" [good_row; []; [" "; EmptyString]; row_with_2] CellRules.init).
  - reflexivity.
  - repeat constructor; rewrite <- read_row_raises_iff; intros [e H];
      vm_compute in H; discriminate H.
Defined.
